(** * Identity and access control of the academic-records backend

    A shallow embedding of the JavaScript sources
      - [src/utils/mspMapper.js]
      - [src/utils/userManager.js]
      - [src/middleware/auth.js]
      - [src/controllers/authController.js]
    followed by the properties of the specification that concern them.

    JavaScript objects are finite maps from property names to values;
    the users file is the list of the objects it holds; code that reads
    and writes the file, or the refresh-token registry, passes that state
    explicitly, and the clock and the salt a call draws are arguments.
    Strings are ASCII strings.  The packages the code calls are not part
    of it: bcryptjs is a pair of unknown functions, jsonwebtoken is
    modelled symbolically, and the ledger step of registration is an
    input.  Logging has no effect on any result and is left out. *)

From Stdlib Require Import ZArith Ascii String List.
From stdpp Require Import base decidable option strings list gmap fin_maps pretty.

Local Open Scope string_scope.

(* ===================================================================== *)
(** ** JavaScript values and objects                                      *)
(* ===================================================================== *)

Module JS.

(** The values that occur in the modelled code: the primitive values,
    with the integers for numbers (the code only produces timestamps),
    and [JNative] for a function or object that is reached through
    [Object.prototype] and is not a JSON value.  Arrays and nested
    objects are not among the fields this development is about. *)
Inductive jsval : Type :=
  | JUndefined
  | JNull
  | JBool (b : bool)
  | JNum (n : Z)
  | JStr (s : string)
  | JNative (name : string).

#[global] Instance jsval_eq_dec : EqDecision jsval.
Proof. solve_decision. Defined.

(** ToBoolean. *)
Definition truthy (v : jsval) : bool :=
  match v with
  | JUndefined | JNull => false
  | JBool b => b
  | JNum n => negb (n =? 0)%Z
  | JStr s => negb (String.eqb s "")
  | JNative _ => true
  end.

(** [a === b] and [a !== b]. *)
Definition strict_eq (a b : jsval) : bool := bool_decide (a = b).
Definition strict_ne (a b : jsval) : bool := negb (strict_eq a b).

(** [a || b]. *)
Definition js_or (a b : jsval) : jsval := if truthy a then a else b.

(** ToString, as used by template literals and by computed property
    keys. *)
Definition to_string (v : jsval) : string :=
  match v with
  | JUndefined => "undefined"
  | JNull => "null"
  | JBool true => "true"
  | JBool false => "false"
  | JNum n => pretty n
  | JStr s => s
  | JNative name =>
      if String.eqb name "__proto__" then "[object Object]"
      else "function " ++ name ++ "() { [native code] }"
  end.

(** The own properties of [Object.prototype]: every object literal and
    every object made by [JSON.parse] inherits them. *)
Definition object_prototype_keys : list string :=
  [ "constructor"; "__defineGetter__"; "__defineSetter__"; "hasOwnProperty";
    "__lookupGetter__"; "__lookupSetter__"; "isPrototypeOf";
    "propertyIsEnumerable"; "toString"; "valueOf"; "__proto__";
    "toLocaleString" ].

Definition inherited (k : string) : bool :=
  existsb (String.eqb k) object_prototype_keys.

(** [o.k] and [o[k]]: the own property, else the inherited one, else
    [undefined]. *)
Definition get (o : gmap string jsval) (k : string) : jsval :=
  match o !! k with
  | Some v => v
  | None => if inherited k then JNative k else JUndefined
  end.

(** An object literal [{k1: v1, ...}]. *)
Definition object (fields : list (string * jsval)) : gmap string jsval :=
  list_to_map (reverse fields).

(** [{...a, ...b}]: the own properties of [a] overridden by those of [b]. *)
Definition spread (a b : gmap string jsval) : gmap string jsval := b ∪ a.

(** [const {k: _, ...rest} = o]. *)
Definition rest_without (k : string) (o : gmap string jsval)
  : gmap string jsval := delete k o.

(** What survives [JSON.stringify]: properties whose value is
    [undefined] or a function are dropped. *)
Definition json_value (v : jsval) : bool :=
  match v with
  | JUndefined | JNative _ => false
  | _ => true
  end.

Definition json_image (o : gmap string jsval) : gmap string jsval :=
  omap (fun v => if json_value v then Some v else None) o.

(** [String.prototype.toUpperCase] on the ASCII letters. *)
Definition upper_ascii (c : ascii) : ascii :=
  let n := nat_of_ascii c in
  if ((97 <=? n)%nat && (n <=? 122)%nat)%bool then ascii_of_nat (n - 32) else c.

Fixpoint toUpperCase (s : string) : string :=
  match s with
  | EmptyString => EmptyString
  | String c r => String (upper_ascii c) (toUpperCase r)
  end.

(** [String.prototype.toLowerCase] on the ASCII letters. *)
Definition lower_ascii (c : ascii) : ascii :=
  let n := nat_of_ascii c in
  if ((65 <=? n)%nat && (n <=? 90)%nat)%bool then ascii_of_nat (n + 32) else c.

Fixpoint toLowerCase (s : string) : string :=
  match s with
  | EmptyString => EmptyString
  | String c r => String (lower_ascii c) (toLowerCase r)
  end.

(** [s.substring(0, n)]. *)
Definition substring0 (n : nat) (s : string) : string := String.substring 0 n s.

(** [s.includes(sub)]. *)
Fixpoint includes (sub s : string) : bool :=
  if String.prefix sub s then true
  else match s with
       | EmptyString => false
       | String _ r => includes sub r
       end.

End JS.

Export JS.

(* ===================================================================== *)
(** ** src/utils/mspMapper.js                                             *)
(* ===================================================================== *)

Module MspMapper.

Definition NITWarangalMSP : string := "NITWarangalMSP".
Definition DepartmentsMSP : string := "DepartmentsMSP".
Definition VerifiersMSP : string := "VerifiersMSP".

(** The entries of the [ROLE_TO_MSP] literal, in source order. *)
Definition ROLE_TO_MSP_entries : list (string * jsval) :=
  [ ("admin", JStr NITWarangalMSP);
    ("student", JStr NITWarangalMSP);
    ("department", JStr DepartmentsMSP);
    ("verifier", JStr VerifiersMSP) ].

Definition ROLE_TO_MSP : gmap string jsval := object ROLE_TO_MSP_entries.

(** [ROLE_TO_MSP[role] || null]. *)
Definition getMSPForRole (role : jsval) : jsval :=
  js_or (get ROLE_TO_MSP (to_string role)) JNull.

(** [Object.keys(ROLE_TO_MSP)]. *)
Definition getAllRoles : list string := map fst ROLE_TO_MSP_entries.

(** [Object.keys(ROLE_TO_MSP).includes(role)]. *)
Definition isValidRole (role : jsval) : bool :=
  existsb (fun k => strict_eq (JStr k) role) getAllRoles.

(** The entries of the [MSP_TO_ROLES] literal, in source order. *)
Definition MSP_TO_ROLES_entries : list (string * list string) :=
  [ (NITWarangalMSP, ["admin"; "student"]);
    (DepartmentsMSP, ["department"]);
    (VerifiersMSP, ["verifier"]) ].

Definition MSP_TO_ROLES : gmap string (list string) :=
  list_to_map (reverse MSP_TO_ROLES_entries).

(** What [getRolesForMSP] returns: an array of role names, or a member
    of [Object.prototype]. *)
Inductive roles : Type :=
  | RoleList (names : list string)
  | RoleNative (name : string).

(** [MSP_TO_ROLES[mspId] || []]; an array is truthy even when empty. *)
Definition getRolesForMSP (mspId : jsval) : roles :=
  let k := to_string mspId in
  match MSP_TO_ROLES !! k with
  | Some names => RoleList names
  | None => if inherited k then RoleNative k else RoleList []
  end.

(** [getFabricIdentity(user)]. *)
Definition getFabricIdentity (user : gmap string jsval) : jsval :=
  if strict_eq (get user "role") (JStr "admin") then JStr "admin"
  else if strict_eq (get user "role") (JStr "student") then JStr "admin"
  else if strict_eq (get user "role") (JStr "department") then JStr "admin"
  else if strict_eq (get user "role") (JStr "verifier") then JStr "verifier"
  else get user "userId".

(** [requiredMSPs.includes(getMSPForRole(user.role))]. *)
Definition hasAccess (user : gmap string jsval) (requiredMSPs : list jsval)
  : bool :=
  let userMSP := getMSPForRole (get user "role") in
  existsb (fun m => strict_eq m userMSP) requiredMSPs.

(** [getDepartmentAttributes(department)]; [None] when [department] is
    not a string and [department.toLowerCase()] throws. *)
Definition getDepartmentAttributes (department : jsval)
  : option (gmap string jsval) :=
  match department with
  | JStr d =>
      Some (object [ ("department", JStr d);
                     ("affiliation", JStr ("org1.department." ++ toLowerCase d)) ])
  | _ => None
  end.

End MspMapper.

(* ===================================================================== *)
(** ** The jsonwebtoken package, symbolically                             *)
(* ===================================================================== *)

Module Jwt.

(** A bearer string is either a well-formed JWS, known by the claims it
    carries and the key that signed it, or any other string. *)
Inductive token : Type :=
  | Garbage (s : string)
  | Jws (claims : gmap string jsval) (key : string).

#[global] Instance token_eq_dec : EqDecision token.
Proof. solve_decision. Defined.

(** Truthiness of the string: only the empty string is falsy. *)
Definition token_truthy (t : token) : bool :=
  match t with
  | Garbage s => negb (String.eqb s "")
  | Jws _ _ => true
  end.

Inductive verify_result : Type :=
  | Decoded (claims : gmap string jsval)
  | TokenExpiredError
  | JsonWebTokenError.

(** [jwt.sign(payload, key, {expiresIn})] at clock [now] (seconds), with
    [expiresIn] already converted to seconds. *)
Definition sign (payload : gmap string jsval) (key : string) (ttl now : Z)
  : token :=
  Jws (<["exp" := JNum (now + ttl)]> (<["iat" := JNum now]> (json_image payload)))
      key.

(** [jwt.verify(token, key)] at clock [now]: signature, then expiry. *)
Definition verify (t : token) (key : string) (now : Z) : verify_result :=
  match t with
  | Garbage _ => JsonWebTokenError
  | Jws claims k =>
      if negb (String.eqb k key) then JsonWebTokenError
      else match claims !! "exp" with
           | None => Decoded claims
           | Some (JNum e) =>
               if (e <=? now)%Z then TokenExpiredError else Decoded claims
           | Some _ => JsonWebTokenError
           end
  end.

End Jwt.

(* ===================================================================== *)
(** ** src/utils/userManager.js                                           *)
(* ===================================================================== *)

Module UserManager.

(** The outcome of a call that may throw. *)
Inductive result (A : Type) : Type :=
  | Return (a : A)
  | Throw (message : string).
Arguments Return {A} a.
Arguments Throw {A} message.

(** [typeof v]. *)
Definition typeof (v : jsval) : string :=
  match v with
  | JUndefined => "undefined"
  | JNull => "object"
  | JBool _ => "boolean"
  | JNum _ => "number"
  | JStr _ => "string"
  | JNative name => if String.eqb name "__proto__" then "object" else "function"
  end.

(** [users.find(u => u[field] === x) || null]. *)
Definition find_by (field : string) (users : list (gmap string jsval))
    (x : jsval) : option (gmap string jsval) :=
  snd <$> list_find (fun u => get u field = x) users.

Definition findUserByUsername := find_by "username".
Definition findUserByEmail := find_by "email".
Definition findUserById := find_by "id".

(** [saveUsers(users)], read as the list the next [loadUsers()] parses
    from the file: each record went through [JSON.stringify]. *)
Definition saveUsers (users : list (gmap string jsval))
  : list (gmap string jsval) :=
  json_image <$> users.

(** [getAllUsers(filters)]. *)
Definition getAllUsers (users : list (gmap string jsval))
    (filters : gmap string jsval) : list (gmap string jsval) :=
  let users1 :=
    if truthy (get filters "role")
    then List.filter (fun u => strict_eq (get u "role") (get filters "role")) users
    else users in
  let users2 :=
    if truthy (get filters "department")
    then List.filter
           (fun u => strict_eq (get u "department") (get filters "department"))
           users1
    else users1 in
  let users3 :=
    if strict_ne (get filters "isActive") JUndefined
    then List.filter
           (fun u => strict_eq (get u "isActive") (get filters "isActive"))
           users2
    else users2 in
  map (rest_without "passwordHash") users3.

(** What a call reads from its environment: the salt bcrypt draws, and
    the clock at [Date.now()] and at the two [new Date().toISOString()]. *)
Record env : Type := Env {
  salt : string;
  date_now : Z;
  created_iso : string;
  updated_iso : string
}.

Definition allowedUpdates : list string := ["email"; "department"; "isActive"].

Section Bcrypt.

(** The bcryptjs package: hashing under a drawn salt, and comparison of
    a plaintext with a stored hash. *)
Variable bcrypt_hash_salted : string -> string -> string.
Variable bcrypt_compare_str : string -> string -> bool.

(** [await bcrypt.hash(s, SALT_ROUNDS)]: rejects unless [s] is a string. *)
Definition bcrypt_hash (s : jsval) (slt : string) : result string :=
  match s with
  | JStr p => Return (bcrypt_hash_salted slt p)
  | _ => Throw ("Illegal arguments: " ++ typeof s ++ ", number")
  end.

(** [await bcrypt.compare(s, hash)]: rejects unless both are strings. *)
Definition bcrypt_compare (s hash : jsval) : result bool :=
  match s, hash with
  | JStr p, JStr h => Return (bcrypt_compare_str p h)
  | _, _ => Throw ("Illegal arguments: " ++ typeof s ++ ", " ++ typeof hash)
  end.

(** [createUser(userData)]: the users file after the call, and the
    returned record or the error thrown. *)
Definition createUser (users : list (gmap string jsval))
    (userData : gmap string jsval) (e : env)
  : list (gmap string jsval) * result (gmap string jsval) :=
  let username := get userData "username" in
  let password := get userData "password" in
  let email := get userData "email" in
  let role := get userData "role" in
  let department := get userData "department" in
  if negb (truthy username) || negb (truthy password)
     || negb (truthy email) || negb (truthy role)
  then (users, Throw "Missing required fields: username, password, email, role")
  else if negb (MspMapper.isValidRole role)
  then (users, Throw ("Invalid role: " ++ to_string role
                      ++ ". Valid roles: admin, student, faculty, verifier"))
  else if (strict_eq role (JStr "faculty") || strict_eq role (JStr "student"))
          && negb (truthy department)
  then (users, Throw "Department is required for faculty and student roles")
  else if bool_decide (is_Some (findUserByUsername users username))
  then (users, Throw ("Username '" ++ to_string username ++ "' already exists"))
  else if bool_decide (is_Some (findUserByEmail users email))
  then (users, Throw ("Email '" ++ to_string email ++ "' already exists"))
  else
    match bcrypt_hash password (salt e) with
    | Throw m => (users, Throw m)
    | Return passwordHash =>
        let newUser := object
          [ ("id", JStr (to_string role ++ "-" ++ pretty (date_now e)));
            ("username", username);
            ("email", email);
            ("passwordHash", JStr passwordHash);
            ("role", role);
            ("department", js_or department JNull);
            ("createdAt", JStr (created_iso e));
            ("updatedAt", JStr (updated_iso e));
            ("isActive", JBool true) ] in
        (saveUsers (users ++ [newUser]), Return (rest_without "passwordHash" newUser))
    end.

(** [authenticateUser(identifier, password)]: [None] is the [null]
    result. *)
Definition authenticateUser (users : list (gmap string jsval))
    (identifier password : jsval) : result (option (gmap string jsval)) :=
  let user :=
    match findUserByEmail users identifier with
    | Some u => Some u
    | None => findUserByUsername users identifier
    end in
  match user with
  | None => Return None
  | Some user =>
      if negb (truthy (get user "isActive")) then Return None
      else match bcrypt_compare password (get user "passwordHash") with
           | Throw m => Throw m
           | Return isPasswordValid =>
               if negb isPasswordValid then Return None
               else Return (Some (rest_without "passwordHash" user))
           end
  end.

(** The loop over [allowedUpdates] that fills [sanitizedUpdates]. *)
Definition sanitize (updates : gmap string jsval) : gmap string jsval :=
  fold_left
    (fun acc key =>
       if strict_ne (get updates key) JUndefined
       then <[key := get updates key]> acc else acc)
    allowedUpdates ∅.

(** [updateUser(userId, updates)]. *)
Definition updateUser (users : list (gmap string jsval)) (userId : jsval)
    (updates : gmap string jsval) (e : env)
  : list (gmap string jsval) * result (gmap string jsval) :=
  match list_find (fun u => get u "id" = userId) users with
  | None => (users, Throw "User not found")
  | Some (userIndex, old) =>
      let sanitizedUpdates := sanitize updates in
      let hashed :=
        if truthy (get updates "password")
        then match bcrypt_hash (get updates "password") (salt e) with
             | Throw m => Throw m
             | Return h => Return (<["passwordHash" := JStr h]> sanitizedUpdates)
             end
        else Return sanitizedUpdates in
      match hashed with
      | Throw m => (users, Throw m)
      | Return sanitizedUpdates =>
          let updated :=
            <["updatedAt" := JStr (updated_iso e)]> (spread old sanitizedUpdates) in
          (saveUsers (<[userIndex := updated]> users),
           Return (rest_without "passwordHash" updated))
      end
  end.

(** [changePassword(userId, oldPassword, newPassword)], with the salt
    drawn and the clock read. *)
Definition changePassword (users : list (gmap string jsval))
    (userId oldPassword newPassword : jsval) (slt now_iso : string)
  : list (gmap string jsval) * result bool :=
  match list_find (fun u => get u "id" = userId) users with
  | None => (users, Throw "User not found")
  | Some (userIndex, user) =>
      match bcrypt_compare oldPassword (get user "passwordHash") with
      | Throw m => (users, Throw m)
      | Return isOldPasswordValid =>
          if negb isOldPasswordValid
          then (users, Throw "Current password is incorrect")
          else
            match bcrypt_hash newPassword slt with
            | Throw m => (users, Throw m)
            | Return newPasswordHash =>
                let changed :=
                  <["updatedAt" := JStr now_iso]>
                    (<["passwordHash" := JStr newPasswordHash]> user) in
                (saveUsers (<[userIndex := changed]> users), Return true)
            end
      end
  end.

End Bcrypt.

(** [deleteUser(userId)]: the soft delete. *)
Definition deleteUser (users : list (gmap string jsval)) (userId : jsval)
    (now_iso : string) : list (gmap string jsval) * result bool :=
  match list_find (fun u => get u "id" = userId) users with
  | None => (users, Throw "User not found")
  | Some (userIndex, user) =>
      let deactivated :=
        <["updatedAt" := JStr now_iso]> (<["isActive" := JBool false]> user) in
      (saveUsers (<[userIndex := deactivated]> users), Return true)
  end.

End UserManager.

(* ===================================================================== *)
(** ** src/middleware/auth.js                                             *)
(* ===================================================================== *)

Module Middleware.

(** The parts of an Express request the middleware reads and writes.
    [authorization] holds the words of the header between single spaces
    (the result of [split(' ')]); [user] and [body] are [None] when the
    property is [undefined] or [null]. *)
Record request : Type := Request {
  authorization : option (list Jwt.token);
  user : option (gmap string jsval);
  params : gmap string jsval;
  body : option (gmap string jsval);
  departmentFilter : jsval
}.

(** How a middleware ends: it calls [next()], it answers with
    [res.status(s).json({success: false, message, code})], or a
    [TypeError] escapes it. *)
Inductive outcome : Type :=
  | Next (req : request)
  | Respond (status : Z) (message : string) (code : option string)
  | TypeError.

Definition set_user (req : request) (u : gmap string jsval) : request :=
  Request (authorization req) (Some u) (params req) (body req)
          (departmentFilter req).

Definition set_departmentFilter (req : request) (d : jsval) : request :=
  Request (authorization req) (user req) (params req) (body req) d.

(** [authHeader && authHeader.split(' ')[1]], with [!token] applied. *)
Definition bearer (req : request) : option Jwt.token :=
  match authorization req with
  | None => None
  | Some words =>
      match words !! 1%nat with
      | Some t => if Jwt.token_truthy t then Some t else None
      | None => None
      end
  end.

(** The object assigned to [req.user]. *)
Definition principal (decoded : gmap string jsval) : gmap string jsval :=
  object
    [ ("userId", get decoded "userId");
      ("username", get decoded "username");
      ("role", get decoded "role");
      ("mspId", get decoded "mspId");
      ("department", js_or (get decoded "department") JNull);
      ("email", js_or (get decoded "email") JNull) ].

(** [authenticateToken(req, res, next)] under the signing key, at clock
    [now].  The two errors [jwt.verify] raises are the first two cases
    of the handler; its last case is for errors that do not arise here. *)
Definition authenticateToken (key : string) (now : Z) (req : request)
  : outcome :=
  match bearer req with
  | None =>
      Respond 401
        "Access token required. Please provide a valid JWT token in the Authorization header."
        None
  | Some token =>
      match Jwt.verify token key now with
      | Jwt.Decoded decoded => Next (set_user req (principal decoded))
      | Jwt.TokenExpiredError =>
          Respond 403 "Token expired. Please login again." (Some "TOKEN_EXPIRED")
      | Jwt.JsonWebTokenError =>
          Respond 403 "Invalid token. Please login again." (Some "INVALID_TOKEN")
      end
  end.

(** [v.substring(0, 2).toUpperCase()]; [None] when [v] is not a string
    and the method call throws. *)
Definition dept_code (v : jsval) : option string :=
  match v with
  | JStr s => Some (toUpperCase (substring0 2 s))
  | _ => None
  end.

(** [enforceDepartmentAccess(req, res, next)]. *)
Definition enforceDepartmentAccess (req : request) : outcome :=
  match user req with
  | None => Respond 401 "Authentication required" None
  | Some u =>
      if strict_eq (get u "role") (JStr "admin") then Next req
      else if strict_eq (get u "role") (JStr "faculty") then
        if negb (truthy (get u "department")) then
          Respond 403
            "Your account has no department assigned. Please contact administrator."
            None
        else
          let req' := set_departmentFilter req (get u "department") in
          let rollNumber := get (params req) "rollNumber" in
          let after_roll_number : option outcome :=
            if truthy rollNumber then
              match dept_code rollNumber with
              | None => Some TypeError
              | Some studentDeptCode =>
                  match dept_code (get u "department") with
                  | None => Some TypeError
                  | Some userDeptCode =>
                      if negb (String.eqb studentDeptCode userDeptCode) then
                        Some (Respond 403
                                ("Access denied: Student " ++ to_string rollNumber
                                 ++ " is not in your department ("
                                 ++ to_string (get u "department") ++ ")")
                                None)
                      else None
                  end
              end
            else None in
          match after_roll_number with
          | Some stop => stop
          | None =>
              match body req with
              | Some b =>
                  if truthy (get b "department")
                     && strict_ne (get b "department") (get u "department")
                  then
                    Respond 403
                      ("Access denied: You can only modify data for your department ("
                       ++ to_string (get u "department") ++ ")")
                      None
                  else Next req'
              | None => Next req'
              end
          end
      else Next req
  end.

Definition clear_user (req : request) : request :=
  Request (authorization req) None (params req) (body req)
          (departmentFilter req).

(** [requireRole(...allowedRoles)(req, res, next)]. *)
Definition requireRole (allowedRoles : list string) (req : request) : outcome :=
  match user req with
  | None => Respond 401 "Authentication required" None
  | Some u =>
      if negb (existsb (fun r => strict_eq (JStr r) (get u "role")) allowedRoles)
      then Respond 403
             ("Access denied. Required roles: " ++ String.concat ", " allowedRoles
              ++ ". Your role: " ++ to_string (get u "role"))
             None
      else Next req
  end.

(** [optionalAuth(req, res, next)]. *)
Definition optionalAuth (key : string) (now : Z) (req : request) : outcome :=
  match bearer req with
  | None => Next (clear_user req)
  | Some token =>
      match Jwt.verify token key now with
      | Jwt.Decoded decoded => Next (set_user req (principal decoded))
      | _ => Next (clear_user req)
      end
  end.

End Middleware.

(* ===================================================================== *)
(** ** src/controllers/authController.js                                  *)
(* ===================================================================== *)

Module AuthController.

(** [JWT_SECRET], and [JWT_EXPIRY] and [JWT_REFRESH_EXPIRY] in seconds. *)
Record config : Type := Config {
  JWT_SECRET : string;
  JWT_EXPIRY : Z;
  JWT_REFRESH_EXPIRY : Z
}.

(** The [refreshTokens] Map, in insertion order. *)
Definition registry : Type := list (Jwt.token * gmap string jsval).

Definition map_has (m : registry) (t : Jwt.token) : bool :=
  existsb (fun e => bool_decide (fst e = t)) m.

Definition map_delete (m : registry) (t : Jwt.token) : registry :=
  List.filter (fun e => negb (bool_decide (fst e = t))) m.

Definition map_set (m : registry) (t : Jwt.token) (v : gmap string jsval)
  : registry :=
  if map_has m t
  then map (fun e => if bool_decide (fst e = t) then (t, v) else e) m
  else (m ++ [(t, v)])%list.

(** What a JSON answer carries besides [success] and [message]. *)
Inductive reply_data : Type :=
  | NoData
  | ErrorText (error : string)
  | TokenData (accessToken : Jwt.token)
  | UserData (user : gmap string jsval) (warning : option string).

Record response : Type := Response {
  status : Z;
  message : string;
  data : reply_data
}.

Definition generateAccessToken (cfg : config) (now : Z)
    (user : gmap string jsval) : Jwt.token :=
  Jwt.sign
    (object
       [ ("userId", get user "id");
         ("username", get user "username");
         ("role", get user "role");
         ("mspId", MspMapper.getMSPForRole (get user "role"));
         ("department", get user "department");
         ("email", get user "email") ])
    (JWT_SECRET cfg) (JWT_EXPIRY cfg) now.

Definition generateRefreshToken (cfg : config) (now : Z) (now_iso : string)
    (reg : registry) (user : gmap string jsval) : registry * Jwt.token :=
  let refreshToken :=
    Jwt.sign
      (object [ ("userId", get user "id"); ("username", get user "username") ])
      (JWT_SECRET cfg) (JWT_REFRESH_EXPIRY cfg) now in
  (map_set reg refreshToken
     (object [ ("userId", get user "id"); ("createdAt", JStr now_iso) ]),
   refreshToken).

(** [refresh(req, res)]: [refreshToken] is [req.body.refreshToken], [None]
    when the body has no such property; the result is the registry
    afterwards and the answer. *)
Definition refresh (cfg : config) (now : Z)
    (users : list (gmap string jsval)) (reg : registry)
    (refreshToken : option Jwt.token) : registry * response :=
  match refreshToken with
  | None => (reg, Response 400 "Refresh token is required" NoData)
  | Some rt =>
      if negb (Jwt.token_truthy rt)
      then (reg, Response 400 "Refresh token is required" NoData)
      else if negb (map_has reg rt)
      then (reg, Response 403 "Invalid refresh token" NoData)
      else
        match Jwt.verify rt (JWT_SECRET cfg) now with
        | Jwt.TokenExpiredError =>
            (reg, Response 403 "Refresh token expired. Please login again." NoData)
        | Jwt.JsonWebTokenError =>
            (reg, Response 403 "Invalid refresh token" NoData)
        | Jwt.Decoded decoded =>
            match UserManager.findUserByUsername users (get decoded "username") with
            | None =>
                (map_delete reg rt,
                 Response 403 "User not found or inactive" NoData)
            | Some u =>
                if negb (truthy (get u "isActive"))
                then (map_delete reg rt,
                      Response 403 "User not found or inactive" NoData)
                else (reg,
                      Response 200 "Token refreshed successfully"
                        (TokenData (generateAccessToken cfg now u)))
            end
        end
  end.

(** [logout(req, res)]. *)
Definition logout (reg : registry) (refreshToken : option Jwt.token)
  : registry * response :=
  let reg' :=
    match refreshToken with
    | Some rt =>
        if Jwt.token_truthy rt && map_has reg rt then map_delete reg rt else reg
    | None => reg
    end in
  (reg', Response 200 "Logged out successfully" NoData).

(** The ASCII part of the regular-expression class [\s]. *)
Definition is_space (c : ascii) : bool :=
  let n := nat_of_ascii c in
  ((9 <=? n)%nat && (n <=? 13)%nat) || (n =? 32)%nat.

(** The class [[^\s@]]. *)
Definition local_char (c : ascii) : bool :=
  negb (is_space c) && negb (Ascii.eqb c "@").

Fixpoint all_local (s : string) : bool :=
  match s with
  | EmptyString => true
  | String c r => local_char c && all_local r
  end.

(** The longest prefix in [[^\s@]], and what follows it. *)
Fixpoint span_local (s : string) : string * string :=
  match s with
  | EmptyString => (EmptyString, EmptyString)
  | String c r =>
      if local_char c
      then let '(p, q) := span_local r in (String c p, q)
      else (EmptyString, s)
  end.

(** A dot that is followed by at least one more character. *)
Fixpoint dot_before_end (s : string) : bool :=
  match s with
  | EmptyString => false
  | String c r =>
      (Ascii.eqb c "." && negb (String.eqb r "")) || dot_before_end r
  end.

(** [/^[^\s@]+@[^\s@]+\.[^\s@]+$/.test(s)]: a non-empty local part up
    to the first [@], then a domain in [[^\s@]] with a dot that is
    neither its first nor its last character. *)
Definition emailRegex_test (s : string) : bool :=
  let '(local_part, rest) := span_local s in
  negb (String.eqb local_part "")
  && match rest with
     | String "@" (String c d) => all_local (String c d) && dot_before_end d
     | _ => false
     end.

(** [password.length < 6]: values that are not strings have no [length],
    and [undefined < 6] is false. *)
Definition shorter_than_6 (password : jsval) : bool :=
  match password with
  | JStr p => (String.length p <? 6)%nat
  | _ => false
  end.

(** How the ledger step of [register] ends; the wallet and the gateway
    are outside this development. *)
Inductive ledger_outcome : Type :=
  | AdminIdentityMissing
  | LedgerCommitted
  | LedgerFailed (warning : string).

Section Register.

Variable bcrypt_hash_salted : string -> string -> string.

(** [register(req, res)] on the body of the request: the users file
    afterwards and the answer. *)
Definition register (ledger : ledger_outcome) (e : UserManager.env)
    (users : list (gmap string jsval)) (body : gmap string jsval)
  : list (gmap string jsval) * response :=
  let username := get body "username" in
  let password := get body "password" in
  let email := get body "email" in
  let role := get body "role" in
  let department := get body "department" in
  if negb (truthy username) || negb (truthy password)
     || negb (truthy email) || negb (truthy role)
  then (users, Response 400 "Username, password, email, and role are required" NoData)
  else if shorter_than_6 password
  then (users, Response 400 "Password must be at least 6 characters long" NoData)
  else if negb (emailRegex_test (to_string email))
  then (users, Response 400 "Invalid email format" NoData)
  else
    match UserManager.createUser bcrypt_hash_salted users
            (object [ ("username", username); ("password", password);
                      ("email", email); ("role", role);
                      ("department", js_or department JNull) ]) e with
    | (users', UserManager.Return u) =>
        let shown := object
          [ ("id", get u "id"); ("username", get u "username");
            ("email", get u "email"); ("role", get u "role");
            ("department", get u "department");
            ("mspId", MspMapper.getMSPForRole (get u "role")) ] in
        match ledger with
        | AdminIdentityMissing =>
            (users',
             Response 201
               "User registered in database only (blockchain creation skipped)"
               (UserData shown None))
        | LedgerCommitted =>
            (users', Response 201 "User registered successfully" (UserData shown None))
        | LedgerFailed w =>
            (users',
             Response 201
               "User registered in database. Blockchain creation failed but can be done later."
               (UserData shown (Some w)))
        end
    | (users', UserManager.Throw m) =>
        if includes "already exists" m then (users', Response 409 m NoData)
        else if includes "Invalid role" m then (users', Response 400 m NoData)
        else (users',
              Response 500 "An error occurred during registration" (ErrorText m))
    end.

End Register.

(** Answers that carry more than a message. *)
Inductive answer_data : Type :=
  | Nothing
  | Failure (error : string)
  | Session (accessToken refreshToken : Jwt.token) (user : gmap string jsval)
  | Profile (fields : gmap string jsval).

Record answer : Type := Answer {
  answer_status : Z;
  answer_message : option string;
  answer_data_of : answer_data
}.

Section Login.

Variable bcrypt_compare_str : string -> string -> bool.

(** [login(req, res)] on the body of the request; the two tokens are
    signed at clocks [now_access] and [now_refresh]. *)
Definition login (cfg : config) (now_access now_refresh : Z) (now_iso : string)
    (users : list (gmap string jsval)) (reg : registry)
    (body : gmap string jsval) : registry * answer :=
  let username := get body "username" in
  let email := get body "email" in
  let password := get body "password" in
  let loginIdentifier := js_or email username in
  if negb (truthy loginIdentifier) || negb (truthy password)
  then (reg, Answer 400 (Some "Email/username and password are required") Nothing)
  else
    let failed m :=
      (reg, Answer 500 (Some "An error occurred during login") (Failure m)) in
    match UserManager.authenticateUser bcrypt_compare_str users
            loginIdentifier password with
    | UserManager.Throw m => failed m
    | UserManager.Return first =>
        let second :=
          match first with
          | Some u => UserManager.Return (Some u)
          | None =>
              if truthy email then
                match UserManager.findUserByUsername users loginIdentifier with
                | Some userByUsername =>
                    UserManager.authenticateUser bcrypt_compare_str users
                      (get userByUsername "username") password
                | None => UserManager.Return None
                end
              else UserManager.Return None
          end in
        match second with
        | UserManager.Throw m => failed m
        | UserManager.Return None =>
            (reg, Answer 401 (Some "Invalid credentials") Nothing)
        | UserManager.Return (Some u) =>
            let accessToken := generateAccessToken cfg now_access u in
            let '(reg', refreshToken) :=
              generateRefreshToken cfg now_refresh now_iso reg u in
            (reg',
             Answer 200 (Some "Login successful")
               (Session accessToken refreshToken
                  (object
                     [ ("id", get u "id"); ("username", get u "username");
                       ("email", get u "email"); ("role", get u "role");
                       ("department", get u "department");
                       ("mspId", MspMapper.getMSPForRole (get u "role")) ])))
        end
    end.

End Login.

(** [getProfile(req, res)] on [req.user]; reading [req.user.username]
    throws when there is no principal, and the handler answers 500. *)
Definition getProfile (users : list (gmap string jsval))
    (principal : option (gmap string jsval)) : answer :=
  match principal with
  | None => Answer 500 (Some "An error occurred while fetching profile") Nothing
  | Some p =>
      match UserManager.findUserByUsername users (get p "username") with
      | None => Answer 404 (Some "User not found") Nothing
      | Some u =>
          Answer 200 None
            (Profile
               (object
                  [ ("id", get u "id"); ("username", get u "username");
                    ("email", get u "email"); ("role", get u "role");
                    ("department", get u "department");
                    ("mspId", MspMapper.getMSPForRole (get u "role"));
                    ("createdAt", get u "createdAt") ]))
      end
  end.

Section ChangePassword.

Variable bcrypt_hash_salted : string -> string -> string.
Variable bcrypt_compare_str : string -> string -> bool.

(** [changePasswordEndpoint(req, res)] on [req.user] and the body. *)
Definition changePasswordEndpoint (slt now_iso : string)
    (users : list (gmap string jsval))
    (principal : option (gmap string jsval)) (body : gmap string jsval)
  : list (gmap string jsval) * response :=
  let oldPassword := get body "oldPassword" in
  let newPassword := get body "newPassword" in
  if negb (truthy oldPassword) || negb (truthy newPassword)
  then (users, Response 400 "Old password and new password are required" NoData)
  else if shorter_than_6 newPassword
  then (users,
        Response 400 "New password must be at least 6 characters long" NoData)
  else
    match principal with
    | None =>
        (users, Response 500 "An error occurred while changing password" NoData)
    | Some p =>
        match UserManager.changePassword bcrypt_hash_salted bcrypt_compare_str
                users (get p "userId") oldPassword newPassword slt now_iso with
        | (users', UserManager.Return _) =>
            (users', Response 200 "Password changed successfully" NoData)
        | (users', UserManager.Throw m) =>
            if String.eqb m "Current password is incorrect"
            then (users', Response 400 m NoData)
            else (users',
                  Response 500 "An error occurred while changing password" NoData)
        end
    end.

End ChangePassword.

End AuthController.

(* ===================================================================== *)
(** ** src/routes/recordRoutes.js and the student routes                  *)
(* ===================================================================== *)

Module Routes.

(** Express runs the middlewares of a route in order: the next one sees
    the request the previous one passed on, and an answer ends the
    chain. *)
Definition and_then (first second : Middleware.request -> Middleware.outcome)
    (req : Middleware.request) : Middleware.outcome :=
  match first req with
  | Middleware.Next req' => second req'
  | stop => stop
  end.

(** [router.use(authenticateToken)] followed by
    [requireRole('admin', 'faculty'), enforceDepartmentAccess], the
    guards of [POST /] for academic records and of
    [PATCH /:rollNumber/contact] for students. *)
Definition department_guards (key : string) (now : Z)
  : Middleware.request -> Middleware.outcome :=
  and_then (Middleware.authenticateToken key now)
    (and_then (Middleware.requireRole ["admin"; "faculty"])
              Middleware.enforceDepartmentAccess).

End Routes.

(* ===================================================================== *)
(** ** Notions of the specification, and sample data                      *)
(* ===================================================================== *)

Module Spec.

(** Equality of two department codes "compared case-insensitively", as
    the specification words the department check. *)
Definition equal_ignoring_case (a b : string) : bool :=
  String.eqb (toUpperCase a) (toUpperCase b).

(** Every property of the object is a JSON value, as in an object that
    [JSON.parse] returned. *)
Definition json_object (o : gmap string jsval) : Prop :=
  forall k v, o !! k = Some v -> json_value v = true.

(** The typing of a stored account that [authenticateUser] relies on:
    the hash is a string and the active flag a boolean. *)
Definition stored_account (u : gmap string jsval) : Prop :=
  (exists h, u !! "passwordHash" = Some (JStr h))
  /\ (exists b, u !! "isActive" = Some (JBool b)).

(** The account an identifier resolves to: "by email first, then by
    login name". *)
Definition resolve (users : list (gmap string jsval)) (identifier : jsval)
  : option (gmap string jsval) :=
  match UserManager.findUserByEmail users identifier with
  | Some u => Some u
  | None => UserManager.findUserByUsername users identifier
  end.

(** The specification's own reading of "resolving the identifier by
    email first, then by login name", by position in the file and
    without the lookups of the code: the first record that has the
    value in the field, no record having it, and the two combined. *)
Definition first_with (field : string) (x : jsval)
    (users : list (gmap string jsval)) (u : gmap string jsval) : Prop :=
  exists i : nat,
    users !! i = Some u /\ get u field = x
    /\ forall (j : nat) v, (j < i)%nat -> users !! j = Some v -> get v field <> x.

Definition none_with (field : string) (x : jsval)
    (users : list (gmap string jsval)) : Prop :=
  forall v, v ∈ users -> get v field <> x.

Definition resolves_to (users : list (gmap string jsval)) (identifier : jsval)
    (u : gmap string jsval) : Prop :=
  first_with "email" identifier users u
  \/ (none_with "email" identifier users
      /\ first_with "username" identifier users u).

(** The account is active and its stored hash accepts the secret, for
    the given bcrypt comparison. *)
Definition accepts (bcrypt_compare_str : string -> string -> bool)
    (u : gmap string jsval) (password : string) : Prop :=
  u !! "isActive" = Some (JBool true)
  /\ exists h, u !! "passwordHash" = Some (JStr h)
               /\ bcrypt_compare_str password h = true.

(** The principal a middleware attached to the request it passed on. *)
Definition principal_of (o : Middleware.outcome)
  : option (gmap string jsval) :=
  match o with
  | Middleware.Next req => Middleware.user req
  | _ => None
  end.

(** A later event that reaches the registry: a call of [refresh], a
    call of [logout], or the issue of a refresh token at a login. *)
Inductive call : Type :=
  | CallRefresh (now : Z) (users : list (gmap string jsval))
                (refreshToken : option Jwt.token)
  | CallLogout (refreshToken : option Jwt.token)
  | CallIssue (now : Z) (now_iso : string) (user : gmap string jsval).

Definition run_call (cfg : AuthController.config)
    (reg : AuthController.registry) (c : call) : AuthController.registry :=
  match c with
  | CallRefresh now users t => fst (AuthController.refresh cfg now users reg t)
  | CallLogout t => fst (AuthController.logout reg t)
  | CallIssue now now_iso u =>
      fst (AuthController.generateRefreshToken cfg now now_iso reg u)
  end.

Definition run_calls (cfg : AuthController.config)
    (reg : AuthController.registry) (calls : list call)
  : AuthController.registry :=
  fold_left (run_call cfg) calls reg.

(** The event does not hand out the token [rt] itself anew. *)
Definition not_reissued (cfg : AuthController.config) (rt : Jwt.token)
    (c : call) : Prop :=
  match c with
  | CallIssue now now_iso u =>
      snd (AuthController.generateRefreshToken cfg now now_iso [] u) <> rt
  | _ => True
  end.

(** The record [createUser] builds from its input, the environment and
    the password [p], for the given bcrypt hashing. *)
Definition built (bcrypt_hash_salted : string -> string -> string)
    (userData : gmap string jsval) (e : UserManager.env) (p : string)
  : gmap string jsval :=
  object
    [ ("id", JStr (to_string (get userData "role") ++ "-"
                   ++ pretty (UserManager.date_now e)));
      ("username", get userData "username");
      ("email", get userData "email");
      ("passwordHash", JStr (bcrypt_hash_salted (UserManager.salt e) p));
      ("role", get userData "role");
      ("department", js_or (get userData "department") JNull);
      ("createdAt", JStr (UserManager.created_iso e));
      ("updatedAt", JStr (UserManager.updated_iso e));
      ("isActive", JBool true) ].

(** The fields [updateUser] may change. *)
Definition mutable_fields : list string :=
  ["email"; "department"; "isActive"; "passwordHash"; "updatedAt"].

End Spec.

Module Sample.

(** A stand-in for bcrypt, used to run the definitions on examples. *)
Definition hash_salted (slt p : string) : string := "$2a$10$" ++ slt ++ "." ++ p.
Definition compare_str (p h : string) : bool :=
  String.eqb (String.substring (String.length h - String.length p)
                               (String.length p) h) p
  && includes "$2a$10$" h.

Definition admin : gmap string jsval :=
  object [ ("id", JStr "admin"); ("username", JStr "admin");
           ("email", JStr "admin@nitw.edu");
           ("passwordHash", JStr (hash_salted "N9qo8uLOickgx2ZMRZoMye" "admin123"));
           ("role", JStr "admin"); ("department", JNull);
           ("createdAt", JStr "2025-01-01T00:00:00.000Z");
           ("isActive", JBool true) ].

(** The users file as the module initialises it. *)
Definition defaultUsers : list (gmap string jsval) := [admin].

Definition cfg : AuthController.config :=
  AuthController.Config "default-secret-change-in-production" 86400 604800.

Definition env1 : UserManager.env :=
  UserManager.Env "salt1" 1730000000000
    "2024-10-27T03:33:20.000Z" "2024-10-27T03:33:20.000Z".

Definition env2 : UserManager.env :=
  UserManager.Env "salt2" 1730000005000
    "2024-10-27T03:33:25.000Z" "2024-10-27T03:33:25.001Z".

Definition verifier1_data : gmap string jsval :=
  object [ ("username", JStr "verifier1"); ("password", JStr "Secret123");
           ("email", JStr "v1@x.edu"); ("role", JStr "verifier") ].

Definition faculty_cse : gmap string jsval :=
  object [ ("userId", JStr "faculty-1"); ("username", JStr "faculty1");
           ("role", JStr "faculty"); ("mspId", JNull);
           ("department", JStr "CSE"); ("email", JStr "f1@x.edu") ].

(** The default administrator as a login returns it, the body of its
    login request, and the refresh token and registry of that login. *)
Definition admin_public : gmap string jsval := rest_without "passwordHash" admin.

Definition admin_login : gmap string jsval :=
  object [ ("email", JStr "admin@nitw.edu"); ("password", JStr "admin123") ].

Definition admin_shown : gmap string jsval :=
  object [ ("id", get admin_public "id"); ("username", get admin_public "username");
           ("email", get admin_public "email"); ("role", get admin_public "role");
           ("department", get admin_public "department");
           ("mspId", MspMapper.getMSPForRole (get admin_public "role")) ].

Definition admin_session : AuthController.registry * Jwt.token :=
  AuthController.generateRefreshToken cfg 1730000000 "2024-10-27T03:33:20.000Z"
    [] admin_public.

Definition request_for (u : gmap string jsval) (rollNumber : option string)
    (body : option (gmap string jsval)) : Middleware.request :=
  Middleware.Request None (Some u)
    (match rollNumber with
     | Some r => object [ ("rollNumber", JStr r) ]
     | None => ∅
     end)
    body JUndefined.

End Sample.

(* ===================================================================== *)
(** ** Properties of property access                                      *)
(* ===================================================================== *)

Import MspMapper UserManager.

Lemma strict_eq_true (a b : jsval) : strict_eq a b = true <-> a = b.
Proof. unfold strict_eq. apply bool_decide_eq_true. Qed.

Lemma strict_eq_false (a b : jsval) : strict_eq a b = false <-> a <> b.
Proof. unfold strict_eq. apply bool_decide_eq_false. Qed.

Lemma strict_eq_refl (a : jsval) : strict_eq a a = true.
Proof. by apply strict_eq_true. Qed.

(** A name that [Object.prototype] does not define is read from the own
    properties alone. *)
Lemma get_own (o : gmap string jsval) (k : string) :
  inherited k = false -> get o k = default JUndefined (o !! k).
Proof. intros Hk. unfold get. rewrite Hk. by destruct (o !! k). Qed.

Lemma get_Some (o : gmap string jsval) (k : string) (v : jsval) :
  o !! k = Some v -> get o k = v.
Proof. intros H. unfold get. by rewrite H. Qed.

Lemma object_lookup_Some (fields : list (string * jsval)) k v :
  NoDup fields.*1 -> (k, v) ∈ fields -> object fields !! k = Some v.
Proof.
  intros Hnd Hin. unfold object. apply elem_of_list_to_map_1.
  - rewrite fmap_reverse. by rewrite reverse_Permutation.
  - by apply elem_of_reverse.
Qed.

Lemma object_lookup_None (fields : list (string * jsval)) k :
  k ∉ fields.*1 -> object fields !! k = None.
Proof.
  intros Hk. unfold object. apply not_elem_of_list_to_map_1.
  rewrite fmap_reverse. by rewrite elem_of_reverse.
Qed.

Lemma json_image_lookup (o : gmap string jsval) (k : string) (v : jsval) :
  o !! k = Some v -> json_value v = true -> json_image o !! k = Some v.
Proof.
  intros Hk Hv. unfold json_image. rewrite lookup_omap, Hk. cbn. by rewrite Hv.
Qed.

(** [JSON.stringify] then [JSON.parse] returns a parsed object as it was. *)
Lemma json_image_id (o : gmap string jsval) :
  Spec.json_object o -> json_image o = o.
Proof.
  intros Ho. apply map_eq. intros k. unfold json_image. rewrite lookup_omap.
  destruct (o !! k) as [v|] eqn:Hk; [|done]. cbn. by rewrite (Ho k v Hk).
Qed.

Lemma json_value_get (o : gmap string jsval) (k : string) :
  json_value (get o k) = true -> o !! k = Some (get o k).
Proof.
  unfold get. destruct (o !! k) as [v|]; [done|].
  by destruct (inherited k).
Qed.

Lemma get_json_image (o : gmap string jsval) (k : string) :
  json_value (get o k) = true -> get (json_image o) k = get o k.
Proof.
  intros Hv. apply get_Some. apply json_image_lookup; [|done].
  by apply json_value_get.
Qed.

(** A truthy field of a parsed object is a JSON value. *)
Lemma json_object_truthy (o : gmap string jsval) (k : string) :
  Spec.json_object o -> inherited k = false -> truthy (get o k) = true ->
  json_value (get o k) = true.
Proof.
  intros Ho Hk. rewrite get_own by done.
  destruct (o !! k) as [v|] eqn:Hv; [|done]. intros _. by apply (Ho k v).
Qed.

Lemma saveUsers_json (users : list (gmap string jsval)) :
  Forall Spec.json_object users -> saveUsers users = users.
Proof.
  intros Hall. unfold saveUsers. induction Hall as [|u users Hu _ IH]; [done|].
  cbn. by rewrite json_image_id, IH.
Qed.

(** Closes [NoDup] and membership goals over lists of literal keys. *)
Ltac literal_keys :=
  match goal with
  | |- NoDup _ => apply (bool_decide_unpack _); vm_compute; exact I
  | |- _ ∈ _ => cbn; repeat first [ apply list_elem_of_here | apply list_elem_of_further ]
  | |- _ ∉ _ => apply (bool_decide_unpack _); vm_compute; exact I
  end.

Ltac object_get :=
  erewrite get_Some by (apply object_lookup_Some; literal_keys).

Lemma append_cons (c : ascii) (s r : string) :
  String c s ++ r = String c (s ++ r).
Proof. reflexivity. Qed.

Lemma includes_append (sub p s : string) :
  includes sub s = true -> includes sub (p ++ s) = true.
Proof.
  intros H. induction p as [|c p IH]; [done|].
  rewrite append_cons. cbn [includes]. rewrite IH.
  by destruct (String.prefix _ _).
Qed.

(* ===================================================================== *)
(** ** Role to ledger namespace                                           *)
(* ===================================================================== *)

Lemma ROLE_TO_MSP_other (k : string) :
  k ∉ getAllRoles -> ROLE_TO_MSP !! k = None.
Proof. intros Hk. unfold ROLE_TO_MSP. by apply object_lookup_None. Qed.

(** C1, as the code has it: [getMSPForRole] maps admin and student to
    NITWarangalMSP, department to DepartmentsMSP and verifier to
    VerifiersMSP; faculty has no entry and maps to null, as does every
    other role whose name [Object.prototype] does not define. *)
Theorem getMSPForRole_table :
  getMSPForRole (JStr "admin") = JStr "NITWarangalMSP"
  /\ getMSPForRole (JStr "student") = JStr "NITWarangalMSP"
  /\ getMSPForRole (JStr "department") = JStr "DepartmentsMSP"
  /\ getMSPForRole (JStr "verifier") = JStr "VerifiersMSP"
  /\ getMSPForRole (JStr "faculty") = JNull
  /\ forall role : jsval,
       to_string role ∉ ["admin"; "student"; "department"; "verifier"] ->
       inherited (to_string role) = false ->
       getMSPForRole role = JNull.
Proof.
  repeat split; try (vm_compute; reflexivity).
  intros role Hrole Hproto. unfold getMSPForRole.
  rewrite get_own by done.
  rewrite ROLE_TO_MSP_other by exact Hrole.
  reflexivity.
Qed.

Lemma getMSPForRole_table_witness :
  getMSPForRole (JStr "client") = JNull /\ getMSPForRole (JNum 7) = JNull.
Proof.
  destruct getMSPForRole_table as (_ & _ & _ & _ & _ & H).
  split; apply H; first [ reflexivity | literal_keys ].
Defined.

(** C1 as stated fails: faculty is not sent to the institute namespace,
    and a role named after a property of [Object.prototype] is not sent
    to null. *)
Lemma getMSPForRole_faculty_not_institute :
  getMSPForRole (JStr "faculty") <> JStr NITWarangalMSP
  /\ getMSPForRole (JStr "constructor") <> JNull.
Proof. split; vm_compute; discriminate. Qed.

(* ===================================================================== *)
(** ** Department enforcement                                             *)
(* ===================================================================== *)

Import Middleware.

(** Roles other than admin and faculty fall through to [next()]. *)
Lemma other_roles_pass_through (req : request) (u : gmap string jsval) :
  user req = Some u ->
  get u "role" <> JStr "admin" ->
  get u "role" <> JStr "faculty" ->
  enforceDepartmentAccess req = Next req.
Proof.
  intros Hu Hadmin Hfaculty. unfold enforceDepartmentAccess. rewrite Hu.
  apply strict_eq_false in Hadmin, Hfaculty. by rewrite Hadmin, Hfaculty.
Qed.

Lemma admin_passes (req : request) (u : gmap string jsval) :
  user req = Some u ->
  get u "role" = JStr "admin" ->
  enforceDepartmentAccess req = Next req.
Proof.
  intros Hu Hadmin. unfold enforceDepartmentAccess. rewrite Hu, Hadmin.
  by rewrite strict_eq_refl.
Qed.

(** The faculty branch, once the department is known to be assigned. *)
Lemma faculty_branch (req : request) (u : gmap string jsval) :
  user req = Some u ->
  get u "role" = JStr "faculty" ->
  truthy (get u "department") = true ->
  enforceDepartmentAccess req =
    let rollNumber := get (params req) "rollNumber" in
    let stop :=
      if truthy rollNumber then
        match dept_code rollNumber, dept_code (get u "department") with
        | Some studentDeptCode, Some userDeptCode =>
            if negb (String.eqb studentDeptCode userDeptCode) then
              Some (Respond 403
                      ("Access denied: Student " ++ to_string rollNumber
                       ++ " is not in your department ("
                       ++ to_string (get u "department") ++ ")") None)
            else None
        | _, _ => Some TypeError
        end
      else None in
    match stop with
    | Some o => o
    | None =>
        match body req with
        | Some b =>
            if truthy (get b "department")
               && strict_ne (get b "department") (get u "department")
            then Respond 403
                   ("Access denied: You can only modify data for your department ("
                    ++ to_string (get u "department") ++ ")") None
            else Next (set_departmentFilter req (get u "department"))
        | None => Next (set_departmentFilter req (get u "department"))
        end
    end.
Proof.
  intros Hu Hrole Hdept. unfold enforceDepartmentAccess.
  rewrite Hu, Hrole, Hdept. cbn [negb].
  change (strict_eq (JStr "faculty") (JStr "admin")) with false.
  change (strict_eq (JStr "faculty") (JStr "faculty")) with true.
  cbv zeta. destruct (truthy (get (params req) "rollNumber")); [|done].
  destruct (dept_code (get (params req) "rollNumber")); [|done].
  by destruct (dept_code (get u "department")).
Qed.

(** C2: a faculty principal of department CSE is admitted to CS25B001
    (when the payload names no other department) and is refused
    EC25B001 with the department-mismatch message; an admin is admitted
    whatever the request. *)
Theorem department_enforcement_examples :
  (forall req u,
      user req = Some u ->
      get u "role" = JStr "faculty" ->
      get u "department" = JStr "CSE" ->
      get (params req) "rollNumber" = JStr "CS25B001" ->
      (forall b, body req = Some b ->
                 truthy (get b "department") = true ->
                 get b "department" = JStr "CSE") ->
      enforceDepartmentAccess req = Next (set_departmentFilter req (JStr "CSE")))
  /\ (forall req u,
      user req = Some u ->
      get u "role" = JStr "faculty" ->
      get u "department" = JStr "CSE" ->
      get (params req) "rollNumber" = JStr "EC25B001" ->
      enforceDepartmentAccess req =
        Respond 403
          "Access denied: Student EC25B001 is not in your department (CSE)" None)
  /\ (forall req u,
      user req = Some u ->
      get u "role" = JStr "admin" ->
      enforceDepartmentAccess req = Next req).
Proof.
  split; [|split].
  - intros req u Hu Hrole Hdept Hroll Hbody.
    rewrite (faculty_branch req u Hu Hrole) by (by rewrite Hdept).
    rewrite Hroll, Hdept. cbn.
    destruct (body req) as [b|] eqn:Hb; [|done].
    destruct (truthy (get b "department")) eqn:Ht; [|done].
    rewrite (Hbody b eq_refl Ht). unfold strict_ne. by rewrite strict_eq_refl.
  - intros req u Hu Hrole Hdept Hroll.
    rewrite (faculty_branch req u Hu Hrole) by (by rewrite Hdept).
    rewrite Hroll, Hdept. reflexivity.
  - apply admin_passes.
Qed.

Lemma department_enforcement_examples_witness :
  enforceDepartmentAccess
    (Sample.request_for Sample.faculty_cse (Some "CS25B001") None)
  = Next (set_departmentFilter
            (Sample.request_for Sample.faculty_cse (Some "CS25B001") None)
            (JStr "CSE"))
  /\ enforceDepartmentAccess
       (Sample.request_for Sample.faculty_cse (Some "EC25B001") None)
     = Respond 403
         "Access denied: Student EC25B001 is not in your department (CSE)" None.
Proof.
  destruct department_enforcement_examples as (Hin & Hout & _). split.
  - apply (Hin _ Sample.faculty_cse); try reflexivity. intros b Hb. discriminate Hb.
  - apply (Hout _ Sample.faculty_cse); reflexivity.
Defined.

(** C5, as the code has it: a faculty principal whose department is
    null, absent or empty is answered 403 with the no-department
    message, and the handler is not reached. *)
Theorem faculty_without_department_rejected (req : request)
    (u : gmap string jsval) :
  user req = Some u ->
  get u "role" = JStr "faculty" ->
  truthy (get u "department") = false ->
  enforceDepartmentAccess req =
    Respond 403
      "Your account has no department assigned. Please contact administrator."
      None.
Proof.
  intros Hu Hrole Hdept. unfold enforceDepartmentAccess.
  rewrite Hu, Hrole, Hdept. reflexivity.
Qed.

Lemma faculty_without_department_rejected_witness :
  enforceDepartmentAccess
    (Sample.request_for (<["department" := JNull]> Sample.faculty_cse)
                        (Some "CS25B001") None)
  = Respond 403
      "Your account has no department assigned. Please contact administrator."
      None.
Proof.
  apply (faculty_without_department_rejected _
           (<["department" := JNull]> Sample.faculty_cse)); reflexivity.
Defined.

(** C5 as stated fails for the department role: such a principal with
    no department is passed on to the handler. *)
Lemma department_role_without_department_admitted :
  let u := object [ ("userId", JStr "department-1"); ("username", JStr "dept1");
                    ("role", JStr "department"); ("department", JNull) ] in
  truthy (get u "department") = false
  /\ enforceDepartmentAccess (Sample.request_for u (Some "EC25B001") None)
     = Next (Sample.request_for u (Some "EC25B001") None).
Proof. split; vm_compute; reflexivity. Qed.

(** C6, as the code has it: for a faculty principal with a department,
    a payload that names a department is admitted exactly when that
    name is strictly equal to the principal's department (letter case
    included), and is otherwise answered 403 with the payload-mismatch
    message; this is once the roll-number check, if the route has one,
    has passed.  Principals that are neither admin nor faculty are not
    checked at all. *)
Theorem payload_department_check :
  (forall req u b,
      user req = Some u ->
      get u "role" = JStr "faculty" ->
      truthy (get u "department") = true ->
      (truthy (get (params req) "rollNumber") = false
       \/ exists c, dept_code (get (params req) "rollNumber") = Some c
                    /\ dept_code (get u "department") = Some c) ->
      body req = Some b ->
      truthy (get b "department") = true ->
      (enforceDepartmentAccess req
         = Next (set_departmentFilter req (get u "department"))
       <-> get b "department" = get u "department")
      /\ (get b "department" <> get u "department" ->
          enforceDepartmentAccess req =
            Respond 403
              ("Access denied: You can only modify data for your department ("
               ++ to_string (get u "department") ++ ")") None))
  /\ (forall req u,
      user req = Some u ->
      get u "role" <> JStr "admin" ->
      get u "role" <> JStr "faculty" ->
      enforceDepartmentAccess req = Next req).
Proof.
  split; [|apply other_roles_pass_through].
  intros req u b Hu Hrole Hdept Hroll Hb Hbd.
  rewrite (faculty_branch req u Hu Hrole Hdept). cbv zeta.
  assert (Hstop :
    (if truthy (get (params req) "rollNumber") then
       match dept_code (get (params req) "rollNumber"),
             dept_code (get u "department") with
       | Some studentDeptCode, Some userDeptCode =>
           if negb (String.eqb studentDeptCode userDeptCode) then
             Some (Respond 403
                     ("Access denied: Student "
                      ++ to_string (get (params req) "rollNumber")
                      ++ " is not in your department ("
                      ++ to_string (get u "department") ++ ")") None)
           else None
       | _, _ => Some TypeError
       end
     else None) = None).
  { destruct Hroll as [-> | (c & -> & ->)]; [done|].
    destruct (truthy (get (params req) "rollNumber")); [|done].
    by rewrite String.eqb_refl. }
  rewrite Hstop, Hb, Hbd. cbn [andb]. unfold strict_ne.
  destruct (strict_eq (get b "department") (get u "department")) eqn:He; cbn [negb].
  - apply strict_eq_true in He. split; [done|]. intros Hne. by destruct Hne.
  - apply strict_eq_false in He. split; [|done]. split; [discriminate|done].
Qed.

Lemma payload_department_check_witness :
  let same := Sample.request_for Sample.faculty_cse None
                (Some (object [ ("department", JStr "CSE") ])) in
  let other := Sample.request_for Sample.faculty_cse None
                 (Some (object [ ("department", JStr "ECE") ])) in
  enforceDepartmentAccess same = Next (set_departmentFilter same (JStr "CSE"))
  /\ enforceDepartmentAccess other =
       Respond 403
         "Access denied: You can only modify data for your department (CSE)" None.
Proof.
  destruct payload_department_check as (H & _). split.
  - apply (H _ Sample.faculty_cse (object [ ("department", JStr "CSE") ]));
      first [ reflexivity | by left ].
  - apply (H _ Sample.faculty_cse (object [ ("department", JStr "ECE") ]));
      first [ reflexivity | by left | discriminate ].
Defined.

(** C6 as stated fails: a payload department that equals the
    principal's when letter case is ignored is still refused, and a
    verifier is admitted with a payload for a foreign department. *)
Lemma payload_department_case_sensitive :
  Spec.equal_ignoring_case "cse" "CSE" = true
  /\ enforceDepartmentAccess
       (Sample.request_for Sample.faculty_cse None
          (Some (object [ ("department", JStr "cse") ])))
     = Respond 403
         "Access denied: You can only modify data for your department (CSE)" None
  /\ Spec.equal_ignoring_case "ECE" "CSE" = false
  /\ (let req := Sample.request_for
                   (<["role" := JStr "verifier"]> Sample.faculty_cse) None
                   (Some (object [ ("department", JStr "ECE") ])) in
      enforceDepartmentAccess req = Next req).
Proof. repeat split; vm_compute; reflexivity. Qed.

(* ===================================================================== *)
(** ** The credential store: reads                                        *)
(* ===================================================================== *)

Lemma find_by_Some (field : string) (users : list (gmap string jsval))
    (x : jsval) (u : gmap string jsval) :
  find_by field users x = Some u -> u ∈ users /\ get u field = x.
Proof.
  unfold find_by. intros H.
  destruct (list_find _ users) as [[i v]|] eqn:Hf; [|discriminate].
  injection H as ->. apply list_find_Some in Hf as (Hi & Hp & _).
  split; [|done]. by eapply list_elem_of_lookup_2.
Qed.

Lemma find_by_is_Some (field : string) (users : list (gmap string jsval))
    (x : jsval) (u : gmap string jsval) :
  u ∈ users -> get u field = x -> is_Some (find_by field users x).
Proof.
  intros Hin Hx. unfold find_by.
  destruct (list_find_elem_of (fun v => get v field = x) users u Hin Hx)
    as [[i v] ->].
  by eexists.
Qed.

(** C4, as the code has it: [getAllUsers] strips the password hash from
    every record it returns, whereas [findUserByUsername],
    [findUserByEmail] and [findUserById] return the stored record as it
    is, hash included. *)
Theorem store_reads_and_the_hash :
  (forall users filters r,
      r ∈ getAllUsers users filters -> r !! "passwordHash" = None)
  /\ (forall users x u,
      findUserByUsername users x = Some u \/ findUserByEmail users x = Some u
      \/ findUserById users x = Some u ->
      u ∈ users).
Proof.
  split.
  - intros users filters r. unfold getAllUsers. cbv zeta.
    intros (u & -> & _)%list_elem_of_fmap. apply lookup_delete_eq.
  - intros users x u [H | [H | H]]; by apply find_by_Some in H as [? _].
Qed.

Lemma store_reads_and_the_hash_witness :
  (forall r, r ∈ getAllUsers Sample.defaultUsers (object [ ("role", JStr "admin") ]) ->
             r !! "passwordHash" = None)
  /\ Sample.admin ∈ Sample.defaultUsers.
Proof.
  destruct store_reads_and_the_hash as (Hall & Hfind). split.
  - intros r. apply Hall.
  - apply (Hfind Sample.defaultUsers (JStr "admin")). left. reflexivity.
Defined.

(** C4 as stated fails: the three lookups hand back the stored record
    with its password hash. *)
Lemma lookups_return_the_hash :
  findUserByUsername Sample.defaultUsers (JStr "admin") = Some Sample.admin
  /\ findUserByEmail Sample.defaultUsers (JStr "admin@nitw.edu") = Some Sample.admin
  /\ findUserById Sample.defaultUsers (JStr "admin") = Some Sample.admin
  /\ Sample.admin !! "passwordHash"
     = Some (JStr "$2a$10$N9qo8uLOickgx2ZMRZoMye.admin123").
Proof. repeat split; vm_compute; reflexivity. Qed.

(* ===================================================================== *)
(** ** The credential store: authentication                               *)
(* ===================================================================== *)

Section Authenticate.

Variable bcrypt_compare_str : string -> string -> bool.

Lemma resolve_stored (users : list (gmap string jsval)) identifier u :
  Forall Spec.stored_account users ->
  Spec.resolve users identifier = Some u ->
  Spec.stored_account u.
Proof.
  intros Hall Hres. rewrite Forall_forall in Hall. apply Hall.
  unfold Spec.resolve in Hres.
  destruct (findUserByEmail users identifier) as [v|] eqn:He.
  - injection Hres as ->. by apply find_by_Some in He as [? _].
  - by apply find_by_Some in Hres as [? _].
Qed.

Lemma authenticateUser_resolved (users : list (gmap string jsval))
    (identifier : jsval) (password : string) :
  authenticateUser bcrypt_compare_str users identifier (JStr password) =
    match Spec.resolve users identifier with
    | None => Return None
    | Some u =>
        if negb (truthy (get u "isActive")) then Return None
        else match bcrypt_compare bcrypt_compare_str (JStr password)
                     (get u "passwordHash") with
             | Throw m => Throw m
             | Return ok =>
                 if negb ok then Return None
                 else Return (Some (rest_without "passwordHash" u))
             end
    end.
Proof. reflexivity. Qed.

Lemma authenticateUser_cases (users : list (gmap string jsval))
    (identifier : jsval) (password : string) :
  Forall Spec.stored_account users ->
  (forall acc,
      authenticateUser bcrypt_compare_str users identifier (JStr password)
        = Return (Some acc)
      <-> exists u, Spec.resolve users identifier = Some u
                    /\ Spec.accepts bcrypt_compare_str u password
                    /\ acc = rest_without "passwordHash" u)
  /\ (authenticateUser bcrypt_compare_str users identifier (JStr password)
        = Return None
      <-> ~ exists u, Spec.resolve users identifier = Some u
                      /\ Spec.accepts bcrypt_compare_str u password).
Proof.
  intros Hall. rewrite authenticateUser_resolved.
  destruct (Spec.resolve users identifier) as [u|] eqn:Hres.
  - destruct (resolve_stored users identifier u Hall Hres)
      as [[h Hh] [b Hb]].
    rewrite (get_Some _ _ _ Hh), (get_Some _ _ _ Hb). cbn.
    unfold Spec.accepts. destruct b; cbn.
    + destruct (bcrypt_compare_str password h) eqn:Hc; cbn.
      * split.
        -- intros acc. split.
           ++ intros [= <-]. exists u. repeat split; eauto.
           ++ by intros (u' & [= <-] & _ & ->).
        -- split; [discriminate|]. intros Hno. destruct Hno.
           exists u. repeat split; eauto.
      * split.
        -- intros acc. split; [discriminate|].
           intros (u' & [= <-] & (_ & h' & Hh' & Hc') & _).
           rewrite Hh in Hh'. injection Hh' as <-. congruence.
        -- split; [|done]. intros _ (u' & [= <-] & (_ & h' & Hh' & Hc')).
           rewrite Hh in Hh'. injection Hh' as <-. congruence.
    + split.
      * intros acc. split; [discriminate|].
        intros (u' & [= <-] & (Ha & _) & _). congruence.
      * split; [|done]. intros _ (u' & [= <-] & (Ha & _)). congruence.
  - split.
    + intros acc. split; [discriminate|]. by intros (u' & [=] & _).
    + split; [|done]. by intros _ (u' & [=] & _).
Qed.

Lemma authenticateUser_returns (users : list (gmap string jsval))
    (identifier : jsval) (password : string) :
  Forall Spec.stored_account users ->
  exists r,
    authenticateUser bcrypt_compare_str users identifier (JStr password)
    = Return r.
Proof.
  intros Hall. rewrite authenticateUser_resolved.
  destruct (Spec.resolve users identifier) as [u|] eqn:Hres; [|by eexists].
  destruct (resolve_stored users identifier u Hall Hres) as [[h Hh] [b Hb]].
  rewrite (get_Some _ _ _ Hh), (get_Some _ _ _ Hb). cbn.
  destruct b; cbn; [|by eexists].
  destruct (bcrypt_compare_str password h); by eexists.
Qed.

Lemma find_by_first_with (field : string) (users : list (gmap string jsval))
    (x : jsval) (u : gmap string jsval) :
  find_by field users x = Some u <-> Spec.first_with field x users u.
Proof.
  unfold find_by, Spec.first_with. split.
  - destruct (list_find _ users) as [[i v]|] eqn:Hfind; [|discriminate].
    intros [= <-]. apply list_find_Some in Hfind as (Hi & Hx & Hfirst).
    exists i. split; [done|]. split; [done|].
    intros j w Hj Hw. by apply (Hfirst j w).
  - intros (i & Hi & Hx & Hfirst).
    assert (Hfind : list_find (fun v => get v field = x) users = Some (i, u)).
    { apply list_find_Some. split; [done|]. split; [done|].
      intros j w Hw Hj. by apply (Hfirst j w). }
    by rewrite Hfind.
Qed.

Lemma find_by_none_with (field : string) (users : list (gmap string jsval))
    (x : jsval) :
  find_by field users x = None <-> Spec.none_with field x users.
Proof.
  unfold find_by, Spec.none_with.
  rewrite fmap_None, list_find_None, Forall_forall. reflexivity.
Qed.

(** The lookups of [authenticateUser] resolve as the specification
    reads "by email first, then by login name". *)
Lemma resolve_resolves_to (users : list (gmap string jsval))
    (identifier : jsval) (u : gmap string jsval) :
  Spec.resolve users identifier = Some u <-> Spec.resolves_to users identifier u.
Proof.
  unfold Spec.resolve, Spec.resolves_to, findUserByEmail, findUserByUsername.
  rewrite <- !find_by_first_with, <- find_by_none_with.
  destruct (find_by "email" users identifier) as [v|]; split.
  - intros [= <-]. by left.
  - intros [Hv | [Hnone _]]; [done|discriminate].
  - intros Hu. by right.
  - intros [Hv | [_ Hu]]; [discriminate|done].
Qed.

Lemma authenticateUser_not_a_string (users : list (gmap string jsval))
    (identifier secret : jsval) :
  Forall Spec.stored_account users ->
  (forall p, secret <> JStr p) ->
  authenticateUser bcrypt_compare_str users identifier secret
  = match Spec.resolve users identifier with
    | None => Return None
    | Some u =>
        if bool_decide (u !! "isActive" = Some (JBool true))
        then Throw ("Illegal arguments: " ++ typeof secret ++ ", string")
        else Return None
    end.
Proof.
  intros Hall Hsecret.
  change (authenticateUser bcrypt_compare_str users identifier secret)
    with (match Spec.resolve users identifier with
          | None => Return None
          | Some u =>
              if negb (truthy (get u "isActive")) then Return None
              else match bcrypt_compare bcrypt_compare_str secret
                           (get u "passwordHash") with
                   | Throw m => Throw m
                   | Return ok =>
                       if negb ok then Return None
                       else Return (Some (rest_without "passwordHash" u))
                   end
          end).
  destruct (Spec.resolve users identifier) as [u|] eqn:Hres; [|done].
  destruct (resolve_stored users identifier u Hall Hres) as [[h Hh] [b Hb]].
  rewrite (get_Some _ _ _ Hh), (get_Some _ _ _ Hb), Hb.
  destruct b; [|done].
  destruct secret as [| | | |p|]; try reflexivity. by destruct (Hsecret p).
Qed.

(** C7, as the code has it: over a users file whose accounts hold a
    string hash and a boolean active flag, and for a secret that is a
    string, [authenticateUser] returns the account the identifier
    resolves to (the first record with that email, or when no record
    has that email the first record with that login name), less its
    hash, exactly when that account is active and its hash accepts the
    secret; in every other case it returns null, whatever the reason,
    and it never throws.  For a secret that is not a string it returns
    null when the identifier resolves to no account or to an inactive
    one, and throws bcrypt's "Illegal arguments" error when it resolves
    to an active one. *)
Theorem authenticateUser_iff (users : list (gmap string jsval))
    (identifier : jsval) :
  Forall Spec.stored_account users ->
  (forall password : string,
      (forall acc,
          authenticateUser bcrypt_compare_str users identifier (JStr password)
            = Return (Some acc)
          <-> exists u, Spec.resolves_to users identifier u
                        /\ Spec.accepts bcrypt_compare_str u password
                        /\ acc = rest_without "passwordHash" u)
      /\ (authenticateUser bcrypt_compare_str users identifier (JStr password)
            = Return None
          <-> ~ exists u, Spec.resolves_to users identifier u
                          /\ Spec.accepts bcrypt_compare_str u password)
      /\ (exists r,
            authenticateUser bcrypt_compare_str users identifier (JStr password)
            = Return r))
  /\ (forall secret : jsval,
      (forall p, secret <> JStr p) ->
      (authenticateUser bcrypt_compare_str users identifier secret
         = Throw ("Illegal arguments: " ++ typeof secret ++ ", string")
       <-> exists u, Spec.resolves_to users identifier u
                     /\ u !! "isActive" = Some (JBool true))
      /\ (authenticateUser bcrypt_compare_str users identifier secret
           = Return None
         <-> ~ exists u, Spec.resolves_to users identifier u
                         /\ u !! "isActive" = Some (JBool true))).
Proof.
  intros Hall. split.
  - intros password.
    destruct (authenticateUser_cases users identifier password Hall) as [H1 H2].
    split; [|split; [|by apply authenticateUser_returns]].
    + intros acc. rewrite (H1 acc). split.
      * intros (u & Hu & Hrest). exists u. by rewrite <- resolve_resolves_to.
      * intros (u & Hu & Hrest). exists u. by rewrite resolve_resolves_to.
    + rewrite H2. split.
      * intros Hno (u & Hu & Hrest). apply Hno. exists u.
        by rewrite resolve_resolves_to.
      * intros Hno (u & Hu & Hrest). apply Hno. exists u.
        by rewrite <- resolve_resolves_to.
  - intros secret Hsecret.
    rewrite (authenticateUser_not_a_string users identifier secret Hall Hsecret).
    destruct (Spec.resolve users identifier) as [u|] eqn:Hres.
    + apply resolve_resolves_to in Hres.
      assert (Hone : forall u', Spec.resolves_to users identifier u' -> u' = u).
      { intros u' Hu'. apply resolve_resolves_to in Hu', Hres. congruence. }
      case_bool_decide as Hactive.
      * split; split; try done.
        -- intros _. by exists u.
        -- intros Hno. destruct Hno. by exists u.
      * split; split; try done.
        -- intros (u' & Hu' & Hactive'). apply Hone in Hu' as ->. done.
        -- intros _ (u' & Hu' & Hactive'). apply Hone in Hu' as ->. done.
    + assert (Hnone : forall u', ~ Spec.resolves_to users identifier u').
      { intros u' Hu'. apply resolve_resolves_to in Hu'. congruence. }
      split; split; try done.
      * intros (u' & Hu' & _). by apply Hnone in Hu'.
      * intros _ (u' & Hu' & _). by apply Hnone in Hu'.
Qed.

End Authenticate.

Lemma authenticateUser_iff_witness :
  authenticateUser Sample.compare_str Sample.defaultUsers
    (JStr "admin") (JStr "admin123")
  = Return (Some (rest_without "passwordHash" Sample.admin))
  /\ authenticateUser Sample.compare_str Sample.defaultUsers
       (JStr "admin@nitw.edu") (JStr "admin123")
     = Return (Some (rest_without "passwordHash" Sample.admin))
  /\ authenticateUser Sample.compare_str Sample.defaultUsers
       (JStr "nobody") (JStr "admin123")
     = Return None.
Proof.
  assert (Hall : Forall Spec.stored_account Sample.defaultUsers).
  { repeat constructor; eexists; vm_compute; reflexivity. }
  assert (Hfirst : forall field,
    Spec.first_with field (get Sample.admin field) Sample.defaultUsers
      Sample.admin).
  { intros field. exists 0%nat. split; [reflexivity|]. split; [reflexivity|].
    intros j v Hj. lia. }
  assert (Haccepts : Spec.accepts Sample.compare_str Sample.admin "admin123").
  { split; [reflexivity|]. eexists. split; vm_compute; reflexivity. }
  split; [|split].
  - apply (proj1 (authenticateUser_iff Sample.compare_str Sample.defaultUsers
                    (JStr "admin") Hall) "admin123").
    exists Sample.admin. split; [|by split]. right. split.
    + intros v Hv. apply list_elem_of_singleton in Hv. subst v. discriminate.
    + apply (Hfirst "username").
  - apply (proj1 (authenticateUser_iff Sample.compare_str Sample.defaultUsers
                    (JStr "admin@nitw.edu") Hall) "admin123").
    exists Sample.admin. split; [|by split]. left. apply (Hfirst "email").
  - apply (proj1 (authenticateUser_iff Sample.compare_str Sample.defaultUsers
                    (JStr "nobody") Hall) "admin123").
    intros (u & [(i & Hi & Hu & _) | (_ & i & Hi & Hu & _)] & _);
      apply list_elem_of_lookup_2, list_elem_of_singleton in Hi; subst u;
      discriminate.
Defined.

(** C7 as stated fails: a secret that is not a string tells an active
    account from an unknown one; for the first [authenticateUser] throws,
    for the second it returns null. *)
Lemma numeric_secret_tells_accounts_apart :
  authenticateUser Sample.compare_str Sample.defaultUsers
    (JStr "admin@nitw.edu") (JNum 12345678)
  = Throw "Illegal arguments: number, string"
  /\ authenticateUser Sample.compare_str Sample.defaultUsers
       (JStr "nobody@nitw.edu") (JNum 12345678)
     = Return None.
Proof. split; vm_compute; reflexivity. Qed.

(* ===================================================================== *)
(** ** The credential store: registration                                 *)
(* ===================================================================== *)

Section Registration.

Variable bcrypt_hash_salted : string -> string -> string.

(** What a returning [createUser] has checked and written. *)
Lemma createUser_Return (users : list (gmap string jsval))
    (userData : gmap string jsval) (e : env) users1 created :
  createUser bcrypt_hash_salted users userData e = (users1, Return created) ->
  truthy (get userData "username") = true
  /\ truthy (get userData "password") = true
  /\ truthy (get userData "email") = true
  /\ truthy (get userData "role") = true
  /\ isValidRole (get userData "role") = true
  /\ ((strict_eq (get userData "role") (JStr "faculty")
       || strict_eq (get userData "role") (JStr "student"))
      && negb (truthy (get userData "department")) = false)
  /\ exists account,
       users1 = saveUsers (users ++ [account])
       /\ get account "username" = get userData "username"
       /\ created = rest_without "passwordHash" account.
Proof.
  unfold UserManager.createUser. cbv zeta.
  destruct (truthy (get userData "username")); [|discriminate].
  destruct (truthy (get userData "password")); [|discriminate].
  destruct (truthy (get userData "email")); [|discriminate].
  destruct (truthy (get userData "role")); [|discriminate].
  cbn [negb orb].
  destruct (isValidRole (get userData "role")); [|discriminate].
  cbn [negb].
  destruct ((strict_eq (get userData "role") (JStr "faculty")
             || strict_eq (get userData "role") (JStr "student"))
            && negb (truthy (get userData "department"))); [discriminate|].
  case_bool_decide; [discriminate|].
  case_bool_decide; [discriminate|].
  destruct (bcrypt_hash _ _ _) as [h|m]; [|discriminate].
  intros [= <- <-]. repeat split. eexists. split; [reflexivity|]. split; [|reflexivity].
  object_get. reflexivity.
Qed.

(** A call that gets past validation with a login that is already
    stored throws the conflict and leaves the file alone. *)
Lemma createUser_conflict (users : list (gmap string jsval))
    (userData : gmap string jsval) (e : env) :
  truthy (get userData "username") = true ->
  truthy (get userData "password") = true ->
  truthy (get userData "email") = true ->
  truthy (get userData "role") = true ->
  isValidRole (get userData "role") = true ->
  (strict_eq (get userData "role") (JStr "faculty")
   || strict_eq (get userData "role") (JStr "student"))
  && negb (truthy (get userData "department")) = false ->
  is_Some (findUserByUsername users (get userData "username")) ->
  createUser bcrypt_hash_salted users userData e =
    (users, Throw ("Username '" ++ to_string (get userData "username")
                   ++ "' already exists")).
Proof.
  intros Hu Hp He Hr Hv Hd Hfound. unfold UserManager.createUser. cbv zeta.
  rewrite Hu, Hp, He, Hr, Hv, Hd. cbn [negb orb].
  by rewrite bool_decide_eq_true_2.
Qed.

(** Whatever else it carries, a call with a stored login never writes. *)
Lemma createUser_taken (users : list (gmap string jsval))
    (userData : gmap string jsval) (e : env) :
  is_Some (findUserByUsername users (get userData "username")) ->
  exists m, createUser bcrypt_hash_salted users userData e = (users, Throw m).
Proof.
  intros Hfound. unfold UserManager.createUser. cbv zeta.
  repeat match goal with
         | |- context [bool_decide (is_Some (findUserByUsername _ _))] =>
             rewrite bool_decide_eq_true_2 by done; by eexists
         | |- context [if ?c then _ else _] => destruct c; [by eexists|]
         end.
Qed.

(** C9: when a call of [createUser] on a JSON input has created an
    account, a second call with the same input throws the username
    conflict and leaves the users file as the first call left it; any
    second call with that login name throws without writing, and
    throws that conflict when its other fields pass validation; and
    [register], called again on a body it answered with 201, answers
    409 with that conflict and writes nothing. *)
Theorem register_twice_conflict :
  (forall users userData e1 users1 created,
      Spec.json_object userData ->
      createUser bcrypt_hash_salted users userData e1 = (users1, Return created) ->
      (forall e2,
          createUser bcrypt_hash_salted users1 userData e2 =
            (users1, Throw ("Username '" ++ to_string (get userData "username")
                            ++ "' already exists")))
      /\ (forall e2 userData2,
          get userData2 "username" = get userData "username" ->
          exists m,
            createUser bcrypt_hash_salted users1 userData2 e2 = (users1, Throw m))
      /\ (forall e2 userData2,
          get userData2 "username" = get userData "username" ->
          truthy (get userData2 "password") = true ->
          truthy (get userData2 "email") = true ->
          truthy (get userData2 "role") = true ->
          isValidRole (get userData2 "role") = true ->
          (strict_eq (get userData2 "role") (JStr "faculty")
           || strict_eq (get userData2 "role") (JStr "student"))
          && negb (truthy (get userData2 "department")) = false ->
          createUser bcrypt_hash_salted users1 userData2 e2 =
            (users1, Throw ("Username '" ++ to_string (get userData "username")
                            ++ "' already exists"))))
  /\ (forall l1 e1 users body users1 r1,
      Spec.json_object body ->
      AuthController.register bcrypt_hash_salted l1 e1 users body = (users1, r1) ->
      AuthController.status r1 = 201%Z ->
      forall l2 e2,
        AuthController.register bcrypt_hash_salted l2 e2 users1 body =
          (users1,
           AuthController.Response 409
             ("Username '" ++ to_string (get body "username") ++ "' already exists")
             AuthController.NoData)).
Proof.
  assert (Hcreate : forall users userData e1 users1 created,
    json_value (get userData "username") = true ->
    createUser bcrypt_hash_salted users userData e1 = (users1, Return created) ->
    (forall e2,
        createUser bcrypt_hash_salted users1 userData e2 =
          (users1, Throw ("Username '" ++ to_string (get userData "username")
                          ++ "' already exists")))
    /\ (forall e2 userData2,
        get userData2 "username" = get userData "username" ->
        exists m,
          createUser bcrypt_hash_salted users1 userData2 e2 = (users1, Throw m))
    /\ (forall e2 userData2,
        get userData2 "username" = get userData "username" ->
        truthy (get userData2 "password") = true ->
        truthy (get userData2 "email") = true ->
        truthy (get userData2 "role") = true ->
        isValidRole (get userData2 "role") = true ->
        (strict_eq (get userData2 "role") (JStr "faculty")
         || strict_eq (get userData2 "role") (JStr "student"))
        && negb (truthy (get userData2 "department")) = false ->
        createUser bcrypt_hash_salted users1 userData2 e2 =
          (users1, Throw ("Username '" ++ to_string (get userData "username")
                          ++ "' already exists")))).
  { intros users userData e1 users1 created Hjson H.
    apply createUser_Return in H
      as (Hu & Hp & He & Hr & Hv & Hd & account & -> & Hname & _).
    assert (Hfound : is_Some (findUserByUsername (saveUsers (users ++ [account]))
                                (get userData "username"))).
    { apply (find_by_is_Some _ _ _ (json_image account)).
      - unfold saveUsers. apply list_elem_of_fmap_2, elem_of_app. right.
        apply list_elem_of_here.
      - rewrite get_json_image; by rewrite Hname. }
    split; [|split].
    - intros e2. by apply createUser_conflict.
    - intros e2 userData2 Hsame. apply createUser_taken. by rewrite Hsame.
    - intros e2 userData2 Hsame Hp2 He2 Hr2 Hv2 Hd2. rewrite <- Hsame.
      apply createUser_conflict; try done; by rewrite Hsame. }
  split.
  { intros users userData e1 users1 created Hjson H.
    apply (Hcreate users userData e1 users1 created); [|exact H].
    apply createUser_Return in H as (Hu & _).
    by apply json_object_truthy. }
  intros l1 e1 users body users1 r1 Hjson.
  unfold AuthController.register. cbv zeta.
  destruct (truthy (get body "username")) eqn:Hu; [|by intros [= <- <-]].
  cbn [negb orb].
  destruct (negb (truthy (get body "password"))
            || negb (truthy (get body "email")) || negb (truthy (get body "role")));
    [by intros [= <- <-]|].
  destruct (AuthController.shorter_than_6 (get body "password"));
    [by intros [= <- <-]|].
  destruct (negb (AuthController.emailRegex_test (to_string (get body "email"))));
    [by intros [= <- <-]|].
  set (userData := object _).
  assert (Hname : get userData "username" = get body "username").
  { subst userData. object_get. reflexivity. }
  destruct (createUser bcrypt_hash_salted users userData e1)
    as [users' [created|m]] eqn:Hfirst.
  - intros Hreg _ l2 e2.
    assert (users' = users1) as -> by (destruct l1; by injection Hreg).
    destruct (Hcreate _ _ _ _ _ (eq_ind_r (fun v => json_value v = true)
                (json_object_truthy body "username" Hjson eq_refl Hu) Hname)
                Hfirst) as [Hsecond _].
    rewrite (Hsecond e2), Hname.
    rewrite includes_append; [done|]. rewrite includes_append; [done|].
    reflexivity.
  - intros Hreg Hstatus. exfalso.
    repeat match type of Hreg with
           | (if ?c then _ else _) = _ => destruct c
           end; injection Hreg as <- <-; discriminate Hstatus.
Qed.

End Registration.

Lemma register_twice_conflict_witness :
  exists users1 r1,
    AuthController.register Sample.hash_salted AuthController.LedgerCommitted
      Sample.env1 Sample.defaultUsers Sample.verifier1_data = (users1, r1)
    /\ AuthController.status r1 = 201%Z
    /\ AuthController.register Sample.hash_salted AuthController.AdminIdentityMissing
         Sample.env2 users1 Sample.verifier1_data
       = (users1,
          AuthController.Response 409 "Username 'verifier1' already exists"
            AuthController.NoData).
Proof.
  eexists _, _. split; [reflexivity|]. split; [reflexivity|].
  assert (Hjson : Spec.json_object Sample.verifier1_data).
  { change (map_Forall (fun _ v => json_value v = true) Sample.verifier1_data).
    apply (bool_decide_unpack _). vm_compute. exact I. }
  apply (proj2 (register_twice_conflict Sample.hash_salted)
           AuthController.LedgerCommitted Sample.env1 Sample.defaultUsers
           Sample.verifier1_data _ _ Hjson eq_refl eq_refl).
Defined.

(* ===================================================================== *)
(** ** The credential store: updates                                      *)
(* ===================================================================== *)

Lemma sanitize_lookup_other (updates : gmap string jsval) (k : string) :
  k ∉ allowedUpdates -> sanitize updates !! k = None.
Proof.
  unfold allowedUpdates. rewrite !not_elem_of_cons. intros (H1 & H2 & H3 & _).
  unfold sanitize, allowedUpdates. cbn [fold_left].
  repeat match goal with
         | |- context [if ?c then _ else _] => destruct c
         end;
    rewrite ?lookup_insert_ne by done; apply lookup_empty.
Qed.

Lemma allowedUpdates_mutable (k : string) :
  k ∉ Spec.mutable_fields -> k ∉ allowedUpdates.
Proof.
  unfold Spec.mutable_fields, allowedUpdates. rewrite !not_elem_of_cons.
  intros (H1 & H2 & H3 & _). repeat split; try done. apply not_elem_of_nil.
Qed.

Section Update.

Variable bcrypt_hash_salted : string -> string -> string.

(** C10: over a users file of JSON records, a returning [updateUser]
    replaces one record of the file, the first whose id is the given
    one; the new record, and the record returned, agree with the old
    one on every field other than email, department, isActive,
    passwordHash and updatedAt, so on id, username, role and createdAt
    whatever the updates object holds for them; the stored hash changes
    only when a password is supplied; and the record returned carries
    no hash. *)
Theorem updateUser_frame (users : list (gmap string jsval)) (userId : jsval)
    (updates : gmap string jsval) (e : env) users' ret :
  Forall Spec.json_object users ->
  updateUser bcrypt_hash_salted users userId updates e = (users', Return ret) ->
  exists (i : nat) (old new : gmap string jsval),
    users !! i = Some old
    /\ get old "id" = userId
    /\ users' = <[i := new]> users
    /\ (forall k, k ∉ Spec.mutable_fields ->
                  new !! k = old !! k /\ ret !! k = old !! k)
    /\ (truthy (get updates "password") = false ->
        new !! "passwordHash" = old !! "passwordHash")
    /\ ret !! "passwordHash" = None
    /\ new !! "id" = old !! "id"
    /\ new !! "username" = old !! "username"
    /\ new !! "role" = old !! "role"
    /\ new !! "createdAt" = old !! "createdAt".
Proof.
  intros Hjson. unfold updateUser.
  destruct (list_find _ users) as [[i old]|] eqn:Hfind; [|discriminate].
  apply list_find_Some in Hfind as (Hi & Hid & _).
  assert (Hold : Spec.json_object old).
  { rewrite Forall_forall in Hjson. apply Hjson.
    by eapply list_elem_of_lookup_2. }
  cbv zeta.
  set (updated_of := fun s : gmap string jsval =>
         <["updatedAt" := JStr (updated_iso e)]> (spread old s)).
  assert (Hsaved : forall s,
    saveUsers (<[i := updated_of s]> users)
    = <[i := json_image (updated_of s)]> users).
  { intros s. unfold saveUsers. rewrite list_fmap_insert.
    f_equal. by apply saveUsers_json. }
  assert (Hkept : forall s k, updated_of s !! k = old !! k ->
                              json_image (updated_of s) !! k = old !! k).
  { intros s k Hk. unfold json_image. rewrite lookup_omap, Hk.
    destruct (old !! k) as [v|] eqn:Hv; [|done]. cbn. by rewrite (Hold k v Hv). }
  assert (Hframe : forall s k,
    (forall k', k' ∉ Spec.mutable_fields -> s !! k' = None) ->
    k ∉ Spec.mutable_fields -> updated_of s !! k = old !! k).
  { intros s k Hs Hk. unfold updated_of, spread.
    rewrite lookup_insert_ne.
    - apply lookup_union_r. by apply Hs.
    - intros <-. apply Hk. unfold Spec.mutable_fields. literal_keys. }
  assert (Hret : forall s k,
    (forall k', k' ∉ Spec.mutable_fields -> s !! k' = None) ->
    k ∉ Spec.mutable_fields ->
    rest_without "passwordHash" (updated_of s) !! k = old !! k).
  { intros s k Hs Hk. unfold rest_without. rewrite lookup_delete_ne.
    - by apply Hframe.
    - intros <-. apply Hk. unfold Spec.mutable_fields. literal_keys. }
  assert (Hplain : forall k', k' ∉ Spec.mutable_fields ->
                              sanitize updates !! k' = None).
  { intros k' Hk'. by apply sanitize_lookup_other, allowedUpdates_mutable. }
  assert (Hhashed : forall h k', k' ∉ Spec.mutable_fields ->
            (<["passwordHash" := JStr h]> (sanitize updates)) !! k' = None).
  { intros h k' Hk'. rewrite lookup_insert_ne; [by apply Hplain|].
    intros <-. apply Hk'. unfold Spec.mutable_fields. literal_keys. }
  destruct (truthy (get updates "password")) eqn:Hpw.
  - destruct (bcrypt_hash _ _ _) as [h|m]; [|discriminate].
    intros [= <- <-].
    exists i, old,
      (json_image (updated_of (<["passwordHash" := JStr h]> (sanitize updates)))).
    rewrite <- Hsaved.
    do 3 (split; [done|]).
    split; [intros k Hk; split;
            [apply Hkept, Hframe | apply Hret]; by try apply Hhashed|].
    split; [discriminate|].
    split; [apply lookup_delete_eq|].
    repeat split; (apply Hkept, Hframe; [apply Hhashed | literal_keys]).
  - intros [= <- <-].
    exists i, old, (json_image (updated_of (sanitize updates))).
    rewrite <- Hsaved.
    do 3 (split; [done|]).
    split; [intros k Hk; split;
            [apply Hkept, Hframe | apply Hret]; by try apply Hplain|].
    split.
    { intros _. apply Hkept. unfold updated_of, spread.
      rewrite lookup_insert_ne by done.
      apply lookup_union_r. apply sanitize_lookup_other. literal_keys. }
    split; [apply lookup_delete_eq|].
    repeat split; (apply Hkept, Hframe; [apply Hplain | literal_keys]).
Qed.

End Update.

Lemma updateUser_frame_witness :
  let updates := object [ ("id", JStr "root"); ("username", JStr "root");
                          ("role", JStr "verifier"); ("createdAt", JStr "never");
                          ("email", JStr "new@nitw.edu");
                          ("password", JStr "NewSecret1") ] in
  exists users' ret (i : nat) (old new : gmap string jsval),
    updateUser Sample.hash_salted Sample.defaultUsers (JStr "admin") updates
      Sample.env2 = (users', Return ret)
    /\ Sample.defaultUsers !! i = Some old
    /\ users' = <[i := new]> Sample.defaultUsers
    /\ new !! "id" = old !! "id"
    /\ new !! "role" = old !! "role".
Proof.
  intros updates.
  assert (Hjson : Forall Spec.json_object Sample.defaultUsers).
  { repeat constructor.
    change (map_Forall (fun _ v => json_value v = true) Sample.admin).
    apply (bool_decide_unpack _). vm_compute. exact I. }
  destruct (updateUser_frame Sample.hash_salted Sample.defaultUsers
              (JStr "admin") updates Sample.env2 _ _ Hjson eq_refl)
    as (i & old & new & Hi & _ & Hnew & _ & _ & _ & Hid & _ & Hrole & _).
  eexists _, _, i, old, new. split; [reflexivity|]. by repeat split.
Defined.

(* ===================================================================== *)
(** ** The refresh-token registry                                         *)
(* ===================================================================== *)

Import AuthController.

Lemma map_has_delete (m : registry) (t t' : Jwt.token) :
  map_has m t = false -> map_has (map_delete m t') t = false.
Proof.
  unfold map_has, map_delete. induction m as [|e m IH]; [done|].
  cbn [existsb List.filter]. intros [He Hm]%orb_false_elim.
  destruct (negb (bool_decide (e.1 = t'))); [|by apply IH].
  cbn [existsb]. by rewrite He, IH.
Qed.

Lemma map_has_delete_same (m : registry) (t : Jwt.token) :
  map_has (map_delete m t) t = false.
Proof.
  unfold map_has, map_delete. induction m as [|e m IH]; [done|].
  cbn [List.filter]. destruct (bool_decide (e.1 = t)) eqn:He; cbn [negb]; [done|].
  cbn [existsb]. by rewrite He, IH.
Qed.

(** A token that is not in the registry is turned away before its
    signature is looked at. *)
Lemma refresh_absent (cfg : config) (now : Z) (users : list (gmap string jsval))
    (reg : registry) (rt : Jwt.token) :
  Jwt.token_truthy rt = true ->
  map_has reg rt = false ->
  refresh cfg now users reg (Some rt)
  = (reg, Response 403 "Invalid refresh token" NoData).
Proof. intros Ht Hm. unfold refresh. by rewrite Ht, Hm. Qed.

Lemma refresh_keeps_absent (cfg : config) (now : Z)
    (users : list (gmap string jsval)) (reg : registry)
    (t : option Jwt.token) (rt : Jwt.token) :
  map_has reg rt = false ->
  map_has (fst (refresh cfg now users reg t)) rt = false.
Proof.
  intros Hm. unfold refresh.
  repeat match goal with
         | |- context [match ?c with _ => _ end] => destruct c
         end; cbn [fst]; by try apply map_has_delete.
Qed.

Lemma logout_keeps_absent (reg : registry) (t : option Jwt.token)
    (rt : Jwt.token) :
  map_has reg rt = false -> map_has (fst (logout reg t)) rt = false.
Proof.
  intros Hm. unfold logout. cbn [fst].
  destruct t as [t|]; [|done].
  destruct (Jwt.token_truthy t && map_has reg t); [|done].
  by apply map_has_delete.
Qed.

Lemma logout_removes (reg : registry) (rt : Jwt.token) :
  Jwt.token_truthy rt = true ->
  map_has (fst (logout reg (Some rt))) rt = false.
Proof.
  intros Ht. unfold logout. cbn [fst]. rewrite Ht. cbn [andb].
  destruct (map_has reg rt) eqn:Hm; [apply map_has_delete_same | exact Hm].
Qed.

Lemma map_has_set (m : registry) (t t' : Jwt.token) (v : gmap string jsval) :
  t' <> t -> map_has m t = false -> map_has (map_set m t' v) t = false.
Proof.
  intros Hne Hm. unfold map_set. destruct (map_has m t').
  - clear -Hne Hm. unfold map_has in *. induction m as [|e m IH]; [done|].
    cbn [existsb map] in *. apply orb_false_elim in Hm as [He Hm].
    rewrite (IH Hm), orb_false_r.
    destruct (bool_decide (e.1 = t')); [|exact He].
    cbn [fst]. by apply bool_decide_eq_false.
  - unfold map_has in *. rewrite existsb_app, Hm. cbn.
    rewrite orb_false_r. by apply bool_decide_eq_false.
Qed.

Lemma issue_keeps_absent (cfg : config) (now : Z) (now_iso : string)
    (reg : registry) (u : gmap string jsval) (rt : Jwt.token) :
  snd (generateRefreshToken cfg now now_iso [] u) <> rt ->
  map_has reg rt = false ->
  map_has (fst (generateRefreshToken cfg now now_iso reg u)) rt = false.
Proof. intros Hne Hm. unfold generateRefreshToken. cbn [fst]. by apply map_has_set. Qed.

Lemma run_calls_keep_absent (cfg : config) (calls : list Spec.call)
    (reg : registry) (rt : Jwt.token) :
  Forall (Spec.not_reissued cfg rt) calls ->
  map_has reg rt = false -> map_has (Spec.run_calls cfg reg calls) rt = false.
Proof.
  unfold Spec.run_calls. intros Hcalls. revert reg.
  induction Hcalls as [|c calls Hc _ IH]; intros reg Hm; [done|].
  cbn [fold_left]. apply IH.
  destruct c as [now users t | t | now now_iso u]; cbn [Spec.run_call].
  - by apply refresh_keeps_absent.
  - by apply logout_keeps_absent.
  - by apply issue_keeps_absent.
Qed.

(** C3, as the code has it: a refresh token (a non-empty string) that
    is not in the registry is answered 403 "Invalid refresh token", the
    registry untouched, before its signature and expiry are examined;
    and once [logout] has removed a token, [refresh] answers it so after
    any further calls of [refresh] and [logout] and any logins that do
    not hand out that very token again. *)
Theorem revoked_refresh_token_rejected (cfg : config) (rt : Jwt.token) :
  Jwt.token_truthy rt = true ->
  (forall reg now users,
      map_has reg rt = false ->
      refresh cfg now users reg (Some rt)
      = (reg, Response 403 "Invalid refresh token" NoData))
  /\ (forall reg calls now users,
      Forall (Spec.not_reissued cfg rt) calls ->
      let reg' := Spec.run_calls cfg (fst (logout reg (Some rt))) calls in
      refresh cfg now users reg' (Some rt)
      = (reg', Response 403 "Invalid refresh token" NoData)).
Proof.
  intros Ht. split.
  - intros reg now users Hm. by apply refresh_absent.
  - intros reg calls now users Hcalls reg'. apply refresh_absent; [done|].
    subst reg'. apply run_calls_keep_absent; [done|]. by apply logout_removes.
Qed.

Lemma revoked_refresh_token_rejected_witness :
  let issued := generateRefreshToken Sample.cfg 1730000000
                  "2024-10-27T03:33:20.000Z" [] Sample.admin in
  let reg0 := fst issued in
  let rt := snd issued in
  let later := 1730000100%Z in
  let calls := [ Spec.CallIssue 1730000050 "2024-10-27T03:34:10.000Z" Sample.admin;
                 Spec.CallRefresh 1730000060 Sample.defaultUsers (Some rt);
                 Spec.CallLogout (Some rt) ] in
  let reg1 := Spec.run_calls Sample.cfg (fst (logout reg0 (Some rt))) calls in
  Jwt.verify rt (JWT_SECRET Sample.cfg) later
    = Jwt.Decoded (match rt with Jwt.Jws c _ => c | _ => ∅ end)
  /\ status (snd (refresh Sample.cfg later Sample.defaultUsers reg0 (Some rt)))
     = 200%Z
  /\ refresh Sample.cfg later Sample.defaultUsers reg1 (Some rt)
     = (reg1, Response 403 "Invalid refresh token" NoData).
Proof.
  intros issued reg0 rt later calls reg1.
  split; [vm_compute; reflexivity|]. split; [vm_compute; reflexivity|].
  apply (proj2 (revoked_refresh_token_rejected Sample.cfg rt eq_refl) reg0 calls).
  repeat constructor. cbn. apply (bool_decide_unpack _). vm_compute. exact I.
Defined.

(** C3 as stated fails: the refresh token is the signature of the
    account's id and login name at the second of the login, so a login
    of the same account within the same second hands out the very
    string that [logout] removed and registers it again; [refresh] then
    answers the revoked token 200. *)
Lemma login_in_the_same_second_revives_token :
  let rt := snd Sample.admin_session in
  let first :=
    login Sample.compare_str Sample.cfg 1730000000 1730000000
      "2024-10-27T03:33:20.000Z" Sample.defaultUsers [] Sample.admin_login in
  let revoked := fst (logout (fst first) (Some rt)) in
  let second :=
    login Sample.compare_str Sample.cfg 1730000000 1730000000
      "2024-10-27T03:33:20.700Z" Sample.defaultUsers revoked Sample.admin_login in
  answer_data_of (snd first)
  = Session (generateAccessToken Sample.cfg 1730000000 Sample.admin_public)
      rt Sample.admin_shown
  /\ refresh Sample.cfg 1730000000 Sample.defaultUsers revoked (Some rt)
     = (revoked, Response 403 "Invalid refresh token" NoData)
  /\ refresh Sample.cfg 1730000060 Sample.defaultUsers (fst second) (Some rt)
     = (fst second,
        Response 200 "Token refreshed successfully"
          (TokenData (generateAccessToken Sample.cfg 1730000060 Sample.admin))).
Proof. repeat split; reflexivity. Qed.

(* ===================================================================== *)
(** ** Access tokens                                                      *)
(* ===================================================================== *)

Lemma ROLE_TO_MSP_json :
  map_Forall (fun _ v => json_value v = true) ROLE_TO_MSP.
Proof. apply (bool_decide_unpack _). vm_compute. exact I. Qed.

(** Off the names of [Object.prototype], [getMSPForRole] yields a string
    or null. *)
Lemma getMSPForRole_json (role : jsval) :
  inherited (to_string role) = false ->
  json_value (getMSPForRole role) = true.
Proof.
  intros Hk. unfold getMSPForRole. rewrite get_own by done.
  destruct (ROLE_TO_MSP !! to_string role) as [v|] eqn:Hv; [|done].
  apply ROLE_TO_MSP_json in Hv. cbn. unfold js_or. by destruct (truthy v).
Qed.

(** A field of a parsed object is a JSON value or is absent. *)
Lemma json_object_get (a : gmap string jsval) (k : string) :
  Spec.json_object a -> inherited k = false ->
  (if json_value (get a k) then get a k else JUndefined) = get a k.
Proof.
  intros Ha Hk. rewrite get_own by done.
  destruct (a !! k) as [v|] eqn:Hv; [|done]. cbn. by rewrite (Ha k v Hv).
Qed.

(** Reading a claim back from what [JSON.stringify] kept of a literal. *)
Lemma get_json_image_object (fields : list (string * jsval)) k v :
  NoDup fields.*1 -> (k, v) ∈ fields -> inherited k = false ->
  get (json_image (object fields)) k = if json_value v then v else JUndefined.
Proof.
  intros Hnd Hin Hk. rewrite get_own by done. unfold json_image.
  rewrite lookup_omap, (object_lookup_Some fields k v Hnd Hin). cbn.
  by destruct (json_value v).
Qed.

Lemma get_signed (payload : gmap string jsval) (iat exp : jsval) (k : string) :
  k <> "exp" -> k <> "iat" ->
  get (<["exp" := exp]> (<["iat" := iat]> payload)) k = get payload k.
Proof. intros H1 H2. unfold get. by rewrite !lookup_insert_ne. Qed.

(** What [authenticateToken] decodes from a token that
    [generateAccessToken] signed, before the token expires. *)
Lemma verify_generated (cfg : config) (now now' : Z) (a : gmap string jsval) :
  (now' < now + JWT_EXPIRY cfg)%Z ->
  exists payload,
    generateAccessToken cfg now a
      = Jwt.Jws (<["exp" := JNum (now + JWT_EXPIRY cfg)]>
                   (<["iat" := JNum now]> (json_image payload)))
                (JWT_SECRET cfg)
    /\ Jwt.verify (generateAccessToken cfg now a) (JWT_SECRET cfg) now'
       = Jwt.Decoded (<["exp" := JNum (now + JWT_EXPIRY cfg)]>
                        (<["iat" := JNum now]> (json_image payload)))
    /\ payload = object
         [ ("userId", get a "id");
           ("username", get a "username");
           ("role", get a "role");
           ("mspId", getMSPForRole (get a "role"));
           ("department", get a "department");
           ("email", get a "email") ].
Proof.
  intros Httl. eexists. split; [reflexivity|]. split; [|reflexivity].
  unfold generateAccessToken, Jwt.sign, Jwt.verify.
  rewrite String.eqb_refl. cbn [negb]. rewrite lookup_insert_eq.
  destruct (Z.leb_spec (now + JWT_EXPIRY cfg) now'); [lia|done].
Qed.

(** C8, as the code has it: for an account whose fields are JSON
    values, active or not, [authenticateToken] on the token that
    [generateAccessToken] issued yields, until the token expires, a
    principal with the account's id, login name and role, with the
    ledger namespace of that role (for a role not named after a
    property of [Object.prototype]), and with the account's department
    and email when these are truthy and null in their place
    otherwise. *)
Theorem access_token_round_trip (cfg : config) (now now' : Z)
    (a : gmap string jsval) (req : request) (words : list Jwt.token) :
  Spec.json_object a ->
  (now' < now + JWT_EXPIRY cfg)%Z ->
  authorization req = Some words ->
  words !! 1%nat = Some (generateAccessToken cfg now a) ->
  exists p,
    authenticateToken (JWT_SECRET cfg) now' req = Next (set_user req p)
    /\ get p "userId" = get a "id"
    /\ get p "username" = get a "username"
    /\ get p "role" = get a "role"
    /\ get p "department" = js_or (get a "department") JNull
    /\ get p "email" = js_or (get a "email") JNull
    /\ (inherited (to_string (get a "role")) = false ->
        get p "mspId" = getMSPForRole (get a "role")).
Proof.
  intros Ha Httl Hauth Hword.
  destruct (verify_generated cfg now now' a Httl) as (payload & Htok & Hver & Hpay).
  unfold authenticateToken, bearer. rewrite Hauth, Hword.
  change (Jwt.token_truthy (generateAccessToken cfg now a)) with true.
  cbv iota. rewrite Hver.
  eexists. split; [reflexivity|].
  assert (Hclaim : forall k v,
    (k, v) ∈ [ ("userId", get a "id"); ("username", get a "username");
               ("role", get a "role"); ("mspId", getMSPForRole (get a "role"));
               ("department", get a "department"); ("email", get a "email") ] ->
    inherited k = false -> k <> "exp" -> k <> "iat" ->
    get (<["exp" := JNum (now + JWT_EXPIRY cfg)]>
           (<["iat" := JNum now]> (json_image payload))) k
    = if json_value v then v else JUndefined).
  { intros k v Hin Hk H1 H2. rewrite get_signed by done. subst payload.
    apply get_json_image_object; [literal_keys|done|done]. }
  unfold principal.
  repeat split.
  - object_get. rewrite (Hclaim "userId" (get a "id")); [|literal_keys|done..].
    by apply json_object_get.
  - object_get.
    rewrite (Hclaim "username" (get a "username")); [|literal_keys|done..].
    by apply json_object_get.
  - object_get. rewrite (Hclaim "role" (get a "role")); [|literal_keys|done..].
    by apply json_object_get.
  - object_get.
    rewrite (Hclaim "department" (get a "department")); [|literal_keys|done..].
    by rewrite json_object_get.
  - object_get. rewrite (Hclaim "email" (get a "email")); [|literal_keys|done..].
    by rewrite json_object_get.
  - intros Hrole. object_get.
    rewrite (Hclaim "mspId" (getMSPForRole (get a "role"))); [|literal_keys|done..].
    by rewrite getMSPForRole_json.
Qed.

Lemma access_token_round_trip_witness :
  let inactive := <["isActive" := JBool false]> Sample.admin in
  let token := generateAccessToken Sample.cfg 1730000000 inactive in
  let req := Request (Some [Jwt.Garbage "Bearer"; token]) None ∅ None JUndefined in
  exists p,
    authenticateToken (JWT_SECRET Sample.cfg) 1730003600 req = Next (set_user req p)
    /\ get p "userId" = JStr "admin"
    /\ get p "role" = JStr "admin"
    /\ get p "department" = JNull.
Proof.
  intros inactive token req.
  assert (Hjson : Spec.json_object inactive).
  { change (map_Forall (fun _ v => json_value v = true) inactive).
    apply (bool_decide_unpack _). vm_compute. exact I. }
  destruct (access_token_round_trip Sample.cfg 1730000000 1730003600 inactive
              req _ Hjson eq_refl eq_refl eq_refl)
    as (p & Hp & Hid & _ & Hrole & Hdep & _).
  exists p. split; [exact Hp|]. split; [exact Hid|]. split; [exact Hrole|].
  exact Hdep.
Defined.

(** C8 as stated fails: the principal of an account whose department is
    the empty string has department null, and so differs from the
    account in that field. *)
Lemma round_trip_empty_department :
  let a := <["department" := JStr ""]> Sample.admin in
  let token := generateAccessToken Sample.cfg 1730000000 a in
  let req := Request (Some [Jwt.Garbage "Bearer"; token]) None ∅ None JUndefined in
  get a "department" = JStr ""
  /\ (fun p => get p "department")
       <$> Spec.principal_of
             (authenticateToken (JWT_SECRET Sample.cfg) 1730003600 req)
     = Some JNull
  /\ (fun p => get p "department")
       <$> Spec.principal_of
             (authenticateToken (JWT_SECRET Sample.cfg) 1730003600 req)
     <> Some (get a "department").
Proof.
  split; [vm_compute; reflexivity|]. split; [vm_compute; reflexivity|].
  vm_compute. discriminate.
Qed.

(* ===================================================================== *)
(** ** The role tables of mspMapper.js                                    *)
(* ===================================================================== *)

Lemma ROLE_TO_MSP_lookup (r : string) :
  ROLE_TO_MSP !! r =
    if decide (r = "admin") then Some (JStr "NITWarangalMSP")
    else if decide (r = "student") then Some (JStr "NITWarangalMSP")
    else if decide (r = "department") then Some (JStr "DepartmentsMSP")
    else if decide (r = "verifier") then Some (JStr "VerifiersMSP")
    else None.
Proof.
  repeat case_decide; subst; try (vm_compute; reflexivity).
  apply ROLE_TO_MSP_other. unfold getAllRoles, ROLE_TO_MSP_entries. cbn.
  rewrite !not_elem_of_cons. repeat split; try done. apply not_elem_of_nil.
Qed.

Lemma MSP_TO_ROLES_lookup (m : string) :
  MSP_TO_ROLES !! m =
    if decide (m = "NITWarangalMSP") then Some ["admin"; "student"]
    else if decide (m = "DepartmentsMSP") then Some ["department"]
    else if decide (m = "VerifiersMSP") then Some ["verifier"]
    else None.
Proof.
  repeat case_decide; subst; try (vm_compute; reflexivity).
  unfold MSP_TO_ROLES. apply not_elem_of_list_to_map_1.
  rewrite fmap_reverse, elem_of_reverse. unfold MSP_TO_ROLES_entries. cbn.
  rewrite !not_elem_of_cons. repeat split; try done. apply not_elem_of_nil.
Qed.

Lemma getRolesForMSP_names (m r : string) :
  inherited m = false ->
  exists names,
    getRolesForMSP (JStr m) = RoleList names
    /\ (r ∈ names <-> ROLE_TO_MSP !! r = Some (JStr m)).
Proof.
  intros Hm. unfold getRolesForMSP. cbn [to_string]. cbv zeta.
  rewrite MSP_TO_ROLES_lookup, ROLE_TO_MSP_lookup, Hm.
  repeat case_decide; subst; eexists; (split; [reflexivity|]);
    rewrite ?elem_of_cons, ?elem_of_nil; intuition congruence.
Qed.

Lemma getMSPForRole_JStr (r m : string) :
  getMSPForRole (JStr r) = JStr m <-> ROLE_TO_MSP !! r = Some (JStr m).
Proof.
  unfold getMSPForRole, get. cbn [to_string]. rewrite ROLE_TO_MSP_lookup.
  repeat case_decide; subst;
    [vm_compute; split; congruence ..
    | destruct (inherited r); vm_compute; split; discriminate].
Qed.

(** X1: the reverse table agrees with the forward one: for an MSP id
    that is not a name of [Object.prototype], [getRolesForMSP] returns
    an array, and a role is in it exactly when [ROLE_TO_MSP] sends that
    role to that MSP. *)
Theorem role_tables_agree (m r : string) :
  inherited m = false ->
  exists names,
    getRolesForMSP (JStr m) = RoleList names
    /\ (r ∈ names <-> ROLE_TO_MSP !! r = Some (JStr m)).
Proof. apply getRolesForMSP_names. Qed.

Lemma role_tables_agree_witness :
  exists names,
    getRolesForMSP (JStr "NITWarangalMSP") = RoleList names
    /\ ("student" ∈ names <-> ROLE_TO_MSP !! "student" = Some (JStr "NITWarangalMSP")).
Proof. apply (role_tables_agree "NITWarangalMSP" "student"). reflexivity. Defined.

Lemma isValidRole_true (role : jsval) :
  isValidRole role = true <->
  role = JStr "admin" \/ role = JStr "student" \/ role = JStr "department"
  \/ role = JStr "verifier".
Proof.
  unfold isValidRole, getAllRoles, ROLE_TO_MSP_entries. cbn [map fst existsb].
  rewrite !orb_true_iff, !strict_eq_true. intuition congruence.
Qed.

(** X2: a role that [isValidRole] accepts is a string to which
    [getMSPForRole] gives one of the three MSP ids; and a string role,
    not a name of [Object.prototype], to which [getMSPForRole] gives
    anything but null is accepted by [isValidRole]. *)
Theorem valid_roles_have_an_msp :
  (forall role,
      isValidRole role = true ->
      exists r msp,
        role = JStr r /\ getMSPForRole role = JStr msp
        /\ msp ∈ [NITWarangalMSP; DepartmentsMSP; VerifiersMSP])
  /\ (forall r,
      inherited r = false ->
      getMSPForRole (JStr r) <> JNull ->
      isValidRole (JStr r) = true).
Proof.
  split.
  - intros role [-> | [-> | [-> | ->]]]%isValidRole_true;
      eexists _, _; (split; [reflexivity|]); (split; [vm_compute; reflexivity|]);
      literal_keys.
  - intros r Hr Hmsp. apply isValidRole_true.
    unfold getMSPForRole in Hmsp. cbn [to_string] in Hmsp.
    rewrite get_own, ROLE_TO_MSP_lookup in Hmsp by done.
    repeat case_decide; subst; auto. by destruct Hmsp.
Qed.

Lemma valid_roles_have_an_msp_witness :
  (exists r msp,
      JStr "department" = JStr r /\ getMSPForRole (JStr "department") = JStr msp
      /\ msp ∈ [NITWarangalMSP; DepartmentsMSP; VerifiersMSP])
  /\ isValidRole (JStr "verifier") = true.
Proof.
  destruct valid_roles_have_an_msp as [H1 H2]. split.
  - apply H1. reflexivity.
  - apply H2; [reflexivity|]. vm_compute. discriminate.
Defined.

(** X3: for a role that [isValidRole] accepts, the wallet identity is
    shared, not the user's own: "verifier" for a verifier and "admin" for
    the other three; for every other role, faculty included, it is the
    user's [userId]. *)
Theorem fabric_identity_of_roles (u : gmap string jsval) :
  (isValidRole (get u "role") = true ->
   getFabricIdentity u =
     if strict_eq (get u "role") (JStr "verifier") then JStr "verifier"
     else JStr "admin")
  /\ (isValidRole (get u "role") = false ->
      getFabricIdentity u = get u "userId").
Proof.
  unfold getFabricIdentity. split.
  - intros [Hr | [Hr | [Hr | Hr]]]%isValidRole_true; by rewrite Hr.
  - intros Hr.
    assert (Hnot : ~ (get u "role" = JStr "admin" \/ get u "role" = JStr "student"
                      \/ get u "role" = JStr "department"
                      \/ get u "role" = JStr "verifier")).
    { rewrite <- isValidRole_true. by rewrite Hr. }
    destruct (strict_eq (get u "role") (JStr "admin")) eqn:H1;
      [apply strict_eq_true in H1; tauto|].
    destruct (strict_eq (get u "role") (JStr "student")) eqn:H2;
      [apply strict_eq_true in H2; tauto|].
    destruct (strict_eq (get u "role") (JStr "department")) eqn:H3;
      [apply strict_eq_true in H3; tauto|].
    destruct (strict_eq (get u "role") (JStr "verifier")) eqn:H4;
      [apply strict_eq_true in H4; tauto|].
    reflexivity.
Qed.

Lemma fabric_identity_of_roles_witness :
  getFabricIdentity (<["role" := JStr "department"]> Sample.faculty_cse)
    = JStr "admin"
  /\ getFabricIdentity Sample.faculty_cse = JStr "faculty-1".
Proof.
  split.
  - etrans;
      [apply (proj1 (fabric_identity_of_roles
                       (<["role" := JStr "department"]> Sample.faculty_cse)));
       reflexivity
      | vm_compute; reflexivity].
  - etrans;
      [apply (proj2 (fabric_identity_of_roles Sample.faculty_cse)); reflexivity
      | vm_compute; reflexivity].
Defined.

(** X4: for a user whose role is a string and a list of required MSP
    ids, none a name of [Object.prototype], [hasAccess] holds exactly
    when the role is among the roles [getRolesForMSP] lists for one of
    the required ids. *)
Theorem hasAccess_by_reverse_table (u : gmap string jsval) (r : string)
    (required : list string) :
  get u "role" = JStr r ->
  Forall (fun m => inherited m = false) required ->
  (hasAccess u (JStr <$> required) = true
   <-> exists m names,
         m ∈ required /\ getRolesForMSP (JStr m) = RoleList names /\ r ∈ names).
Proof.
  intros Hrole Hreq. unfold hasAccess. cbv zeta. rewrite Hrole.
  rewrite existsb_exists. rewrite Forall_forall in Hreq. split.
  - intros (v & Hin & Heq). apply list_elem_of_In, list_elem_of_fmap in Hin
      as (m & -> & Hm).
    apply strict_eq_true in Heq. symmetry in Heq.
    apply getMSPForRole_JStr in Heq.
    destruct (getRolesForMSP_names m r (Hreq m Hm)) as (names & Hnames & Hiff).
    exists m, names. split; [done|]. split; [done|]. by apply Hiff.
  - intros (m & names & Hm & Hnames & Hr).
    destruct (getRolesForMSP_names m r (Hreq m Hm)) as (names' & Hnames' & Hiff).
    rewrite Hnames in Hnames'. injection Hnames' as <-.
    exists (JStr m). split.
    + apply list_elem_of_In, list_elem_of_fmap. by exists m.
    + apply strict_eq_true. symmetry. apply getMSPForRole_JStr. by apply Hiff.
Qed.

Lemma hasAccess_by_reverse_table_witness :
  hasAccess (<["role" := JStr "student"]> Sample.faculty_cse)
    (JStr <$> ["NITWarangalMSP"; "VerifiersMSP"]) = true.
Proof.
  apply (hasAccess_by_reverse_table _ "student" ["NITWarangalMSP"; "VerifiersMSP"]).
  - reflexivity.
  - repeat constructor.
  - exists "NITWarangalMSP", ["admin"; "student"].
    split; [literal_keys|]. split; [reflexivity|literal_keys].
Defined.

Lemma lower_upper_ascii (c : ascii) : lower_ascii (upper_ascii c) = lower_ascii c.
Proof. destruct c as [[] [] [] [] [] [] [] []]; reflexivity. Qed.

Lemma toLowerCase_toUpperCase (s : string) :
  toLowerCase (toUpperCase s) = toLowerCase s.
Proof.
  induction s as [|c s IH]; [done|]. cbn. by rewrite lower_upper_ascii, IH.
Qed.

(** X5: [getDepartmentAttributes] throws on anything but a string, and
    on strings the affiliation it builds does not depend on letter
    case, while the department attribute keeps the spelling given. *)
Theorem department_affiliation_ignores_case :
  (forall d, (forall s, d <> JStr s) -> getDepartmentAttributes d = None)
  /\ (forall d1 d2,
      Spec.equal_ignoring_case d1 d2 = true ->
      exists a1 a2,
        getDepartmentAttributes (JStr d1) = Some a1
        /\ getDepartmentAttributes (JStr d2) = Some a2
        /\ get a1 "affiliation" = get a2 "affiliation"
        /\ get a1 "department" = JStr d1
        /\ get a2 "department" = JStr d2).
Proof.
  split.
  - intros d Hd. destruct d; try done. by destruct (Hd s).
  - intros d1 d2 Heq. apply String.eqb_eq in Heq.
    eexists _, _. split; [reflexivity|]. split; [reflexivity|].
    split; [|split]; repeat object_get; [|done..].
    by rewrite <- (toLowerCase_toUpperCase d1), Heq, toLowerCase_toUpperCase.
Qed.

Lemma department_affiliation_ignores_case_witness :
  getDepartmentAttributes JNull = None
  /\ exists a1 a2,
       getDepartmentAttributes (JStr "CSE") = Some a1
       /\ getDepartmentAttributes (JStr "cse") = Some a2
       /\ get a1 "affiliation" = get a2 "affiliation"
       /\ get a1 "department" = JStr "CSE"
       /\ get a2 "department" = JStr "cse".
Proof.
  destruct department_affiliation_ignores_case as [H1 H2]. split.
  - apply H1. discriminate.
  - apply H2. reflexivity.
Defined.

(* ===================================================================== *)
(** ** The middlewares of auth.js, alone and in a route                   *)
(* ===================================================================== *)

Lemma bearer_words (req : request) (words : list Jwt.token) (t : Jwt.token) :
  authorization req = Some words ->
  words !! 1%nat = Some t ->
  Jwt.token_truthy t = true ->
  bearer req = Some t.
Proof. intros Ha Hw Ht. unfold bearer. by rewrite Ha, Hw, Ht. Qed.

(** The role and department of the principal decoded from an access
    token before it expires. *)
Lemma generated_principal (cfg : config) (now now' : Z) (a : gmap string jsval) :
  Spec.json_object a ->
  (now' < now + JWT_EXPIRY cfg)%Z ->
  exists claims,
    Jwt.verify (generateAccessToken cfg now a) (JWT_SECRET cfg) now'
      = Jwt.Decoded claims
    /\ get (principal claims) "role" = get a "role"
    /\ get (principal claims) "department" = js_or (get a "department") JNull.
Proof.
  intros Ha Httl.
  destruct (verify_generated cfg now now' a Httl) as (payload & _ & Hver & Hpay).
  eexists. split; [exact Hver|]. unfold principal. split.
  - object_get. rewrite get_signed by done. subst payload.
    rewrite (get_json_image_object _ "role" (get a "role"));
      [|literal_keys|literal_keys|done].
    by apply json_object_get.
  - object_get. rewrite get_signed by done. subst payload.
    rewrite (get_json_image_object _ "department" (get a "department"));
      [|literal_keys|literal_keys|done].
    by rewrite json_object_get.
Qed.

(** X6: the roll-number rule in general: for a faculty principal whose
    department is a non-empty string, a non-empty roll number and a
    payload that names no department, the request is admitted exactly
    when the first two characters of the roll number and of the
    department agree once upper-cased, and is otherwise answered 403
    with the student-mismatch message. *)
Theorem roll_number_rule (req : request) (u : gmap string jsval)
    (d r : string) :
  user req = Some u ->
  get u "role" = JStr "faculty" ->
  get u "department" = JStr d ->
  truthy (JStr d) = true ->
  get (params req) "rollNumber" = JStr r ->
  truthy (JStr r) = true ->
  (forall b, body req = Some b -> truthy (get b "department") = false) ->
  (enforceDepartmentAccess req = Next (set_departmentFilter req (JStr d))
   <-> toUpperCase (substring0 2 r) = toUpperCase (substring0 2 d))
  /\ (toUpperCase (substring0 2 r) <> toUpperCase (substring0 2 d) ->
      enforceDepartmentAccess req =
        Respond 403
          ("Access denied: Student " ++ r ++ " is not in your department ("
           ++ d ++ ")") None).
Proof.
  intros Hu Hrole Hdept Hd Hroll Hr Hbody.
  rewrite (faculty_branch req u Hu Hrole) by (by rewrite Hdept).
  cbv zeta. rewrite Hroll, Hdept, Hr. cbn [dept_code to_string].
  destruct (String.eqb_spec (toUpperCase (substring0 2 r))
                            (toUpperCase (substring0 2 d))) as [Heq | Hne];
    cbn [negb].
  - split; [|done]. split; [done|]. intros _.
    destruct (body req) as [b|] eqn:Hb; [|done].
    by rewrite (Hbody b eq_refl).
  - split; [|done]. split; [discriminate|done].
Qed.

Lemma roll_number_rule_witness :
  let req := Sample.request_for (<["department" := JStr "csbs"]> Sample.faculty_cse)
               (Some "CS25B001") None in
  enforceDepartmentAccess req = Next (set_departmentFilter req (JStr "csbs")).
Proof.
  intros req.
  apply (proj1 (roll_number_rule req
                  (<["department" := JStr "csbs"]> Sample.faculty_cse)
                  "csbs" "CS25B001" eq_refl eq_refl eq_refl eq_refl eq_refl eq_refl
                  (fun b (H : None = Some b) => match H with end))).
  reflexivity.
Defined.

Lemma faculty_admitted (req r : request) (u : gmap string jsval) :
  user req = Some u ->
  get u "role" = JStr "faculty" ->
  enforceDepartmentAccess req = Next r ->
  truthy (get u "department") = true
  /\ r = set_departmentFilter req (get u "department").
Proof.
  intros Hu Hrole. unfold enforceDepartmentAccess. rewrite Hu, Hrole.
  change (strict_eq (JStr "faculty") (JStr "admin")) with false.
  change (strict_eq (JStr "faculty") (JStr "faculty")) with true.
  cbv zeta. cbv iota.
  destruct (truthy (get u "department")); [|discriminate]. cbn [negb].
  repeat case_match; try discriminate; intros [= ?]; by subst.
Qed.

Lemma requireRole_admin_faculty (req : request) (p : gmap string jsval) :
  user req = Some p ->
  requireRole ["admin"; "faculty"] req =
    if bool_decide (get p "role" = JStr "admin" \/ get p "role" = JStr "faculty")
    then Next req
    else Respond 403
           ("Access denied. Required roles: admin, faculty. Your role: "
            ++ to_string (get p "role")) None.
Proof.
  intros Hu. unfold requireRole. rewrite Hu. cbn [existsb].
  destruct (strict_eq (JStr "admin") (get p "role")) eqn:H1.
  { apply strict_eq_true in H1. symmetry in H1.
    rewrite bool_decide_eq_true_2; [reflexivity|by left]. }
  destruct (strict_eq (JStr "faculty") (get p "role")) eqn:H2.
  { apply strict_eq_true in H2. symmetry in H2.
    rewrite bool_decide_eq_true_2; [reflexivity|by right]. }
  apply strict_eq_false in H1, H2.
  rewrite bool_decide_eq_false_2; [reflexivity|]. intros [? | ?]; congruence.
Qed.

(** X7: what reaches the handler behind [authenticateToken],
    [requireRole('admin', 'faculty')] and [enforceDepartmentAccess]: the
    request carries a token that verifies under the key, and its
    principal is an admin, or is a faculty member with a department, in
    which case [departmentFilter] is that department. *)
Theorem department_guards_admit (key : string) (now : Z) (req req' : request) :
  Routes.department_guards key now req = Next req' ->
  exists t claims,
    bearer req = Some t
    /\ Jwt.verify t key now = Jwt.Decoded claims
    /\ user req' = Some (principal claims)
    /\ ((get (principal claims) "role" = JStr "admin"
         /\ req' = set_user req (principal claims))
        \/ (get (principal claims) "role" = JStr "faculty"
            /\ truthy (get (principal claims) "department") = true
            /\ req' = set_departmentFilter (set_user req (principal claims))
                        (get (principal claims) "department"))).
Proof.
  unfold Routes.department_guards, Routes.and_then, authenticateToken.
  destruct (bearer req) as [t|] eqn:Hb; [|discriminate].
  destruct (Jwt.verify t key now) as [claims| |] eqn:Hv; [|discriminate..].
  set (p := principal claims). set (req1 := set_user req p).
  rewrite (requireRole_admin_faculty req1 p eq_refl).
  case_bool_decide as Hrole; [|discriminate].
  intros Hnext. exists t, claims. split; [done|]. split; [done|].
  destruct (decide (get p "role" = JStr "admin")) as [Hadmin | Hnot].
  - rewrite (admin_passes req1 p eq_refl Hadmin) in Hnext.
    injection Hnext as <-. split; [done|]. by left.
  - assert (Hfac : get p "role" = JStr "faculty") by tauto.
    destruct (faculty_admitted req1 req' p eq_refl Hfac Hnext) as [Hdept ->].
    split; [done|]. right. by repeat split.
Qed.

Lemma department_guards_admit_witness :
  let token := generateAccessToken Sample.cfg 1730000000 Sample.admin in
  let req := Request (Some [Jwt.Garbage "Bearer"; token]) None ∅ None JUndefined in
  exists req' t claims,
    Routes.department_guards (JWT_SECRET Sample.cfg) 1730003600 req = Next req'
    /\ bearer req = Some t
    /\ Jwt.verify t (JWT_SECRET Sample.cfg) 1730003600 = Jwt.Decoded claims
    /\ user req' = Some (principal claims).
Proof.
  intros token req.
  destruct (department_guards_admit (JWT_SECRET Sample.cfg) 1730003600 req
              (set_user req (principal
                 (match token with Jwt.Jws c _ => c | _ => ∅ end))))
    as (t & claims & Hb & Hv & Hu & _); [vm_compute; reflexivity|].
  eexists _, t, claims. split; [vm_compute; reflexivity|]. by repeat split.
Defined.

(** X8: no role that [isValidRole] accepts, other than admin, gets
    through those guards: the access token of such an account is
    answered 403 by [requireRole('admin', 'faculty')]. *)
Theorem registered_roles_at_department_guards (cfg : config) (now now' : Z)
    (a : gmap string jsval) (req : request) (words : list Jwt.token) :
  Spec.json_object a ->
  isValidRole (get a "role") = true ->
  get a "role" <> JStr "admin" ->
  (now' < now + JWT_EXPIRY cfg)%Z ->
  authorization req = Some words ->
  words !! 1%nat = Some (generateAccessToken cfg now a) ->
  Routes.department_guards (JWT_SECRET cfg) now' req =
    Respond 403
      ("Access denied. Required roles: admin, faculty. Your role: "
       ++ to_string (get a "role")) None.
Proof.
  intros Ha Hvalid Hadmin Httl Hauth Hword.
  destruct (generated_principal cfg now now' a Ha Httl)
    as (claims & Hver & Hrole & _).
  unfold Routes.department_guards, Routes.and_then, authenticateToken.
  rewrite (bearer_words req words _ Hauth Hword eq_refl), Hver.
  rewrite (requireRole_admin_faculty (set_user req (principal claims))
             (principal claims) eq_refl), Hrole.
  rewrite bool_decide_eq_false_2; [done|].
  apply isValidRole_true in Hvalid.
  intros [? | Hf]; [done|]. rewrite Hf in Hvalid.
  destruct Hvalid as [? | [? | [? | ?]]]; discriminate.
Qed.

Lemma registered_roles_at_department_guards_witness :
  let a := <["role" := JStr "department"]> Sample.admin in
  let token := generateAccessToken Sample.cfg 1730000000 a in
  let req := Request (Some [Jwt.Garbage "Bearer"; token]) None ∅ None JUndefined in
  Routes.department_guards (JWT_SECRET Sample.cfg) 1730003600 req =
    Respond 403
      "Access denied. Required roles: admin, faculty. Your role: department" None.
Proof.
  intros a token req.
  assert (Hjson : Spec.json_object a).
  { change (map_Forall (fun _ v => json_value v = true) a).
    apply (bool_decide_unpack _). vm_compute. exact I. }
  apply (registered_roles_at_department_guards Sample.cfg 1730000000 1730003600
           a req [Jwt.Garbage "Bearer"; token] Hjson eq_refl);
    [discriminate|reflexivity..].
Defined.

(** X9: [optionalAuth] never answers: it passes on, with the same
    principal, every request [authenticateToken] passes on, and passes
    on every other request as anonymous. *)
Theorem optionalAuth_never_rejects (key : string) (now : Z) (req : request) :
  optionalAuth key now req =
    match authenticateToken key now req with
    | Next req' => Next req'
    | _ => Next (clear_user req)
    end.
Proof.
  unfold optionalAuth, authenticateToken.
  destruct (bearer req) as [t|]; [|done].
  by destruct (Jwt.verify t key now).
Qed.

(** X10: the two refusals of an issued access token: once its TTL has
    elapsed, [authenticateToken] answers 403 TOKEN_EXPIRED, and under
    any other key than the signing one it answers 403
    INVALID_TOKEN. *)
Theorem access_token_refusals (cfg : config) (now now' : Z)
    (a : gmap string jsval) (req : request) (words : list Jwt.token) :
  authorization req = Some words ->
  words !! 1%nat = Some (generateAccessToken cfg now a) ->
  ((now + JWT_EXPIRY cfg <= now')%Z ->
   authenticateToken (JWT_SECRET cfg) now' req =
     Respond 403 "Token expired. Please login again." (Some "TOKEN_EXPIRED"))
  /\ (forall key,
      key <> JWT_SECRET cfg ->
      authenticateToken key now' req =
        Respond 403 "Invalid token. Please login again." (Some "INVALID_TOKEN")).
Proof.
  intros Hauth Hword. unfold authenticateToken.
  rewrite (bearer_words req words _ Hauth Hword eq_refl).
  unfold generateAccessToken, Jwt.sign, Jwt.verify. split.
  - intros Hlate. rewrite String.eqb_refl. cbn [negb].
    rewrite lookup_insert_eq.
    destruct (Z.leb_spec (now + JWT_EXPIRY cfg) now'); [done|lia].
  - intros key Hkey. apply not_eq_sym, String.eqb_neq in Hkey. by rewrite Hkey.
Qed.

Lemma access_token_refusals_witness :
  let token := generateAccessToken Sample.cfg 1730000000 Sample.admin in
  let req := Request (Some [Jwt.Garbage "Bearer"; token]) None ∅ None JUndefined in
  authenticateToken (JWT_SECRET Sample.cfg) (1730000000 + 86400) req =
    Respond 403 "Token expired. Please login again." (Some "TOKEN_EXPIRED")
  /\ authenticateToken "another-secret" 1730003600 req =
       Respond 403 "Invalid token. Please login again." (Some "INVALID_TOKEN").
Proof.
  intros token req.
  destruct (access_token_refusals Sample.cfg 1730000000 (1730000000 + 86400)
              Sample.admin req [Jwt.Garbage "Bearer"; token] eq_refl eq_refl)
    as [Hexp _].
  destruct (access_token_refusals Sample.cfg 1730000000 1730003600
              Sample.admin req [Jwt.Garbage "Bearer"; token] eq_refl eq_refl)
    as [_ Hkey].
  split; [apply Hexp; vm_compute; discriminate | apply Hkey; discriminate].
Defined.

(** X11: a refresh token is accepted where an access token is
    expected: until it expires, [authenticateToken] passes it on with a
    principal that has the account's id and login name and no role; so
    it opens the routes that are guarded by [authenticateToken] alone,
    and [requireRole] refuses it whatever roles it allows. *)
Theorem refresh_token_as_access_token (cfg : config) (now now' : Z)
    (now_iso : string) (reg : registry) (a : gmap string jsval)
    (req : request) (words : list Jwt.token) :
  Spec.json_object a ->
  (now' < now + JWT_REFRESH_EXPIRY cfg)%Z ->
  authorization req = Some words ->
  words !! 1%nat = Some (snd (generateRefreshToken cfg now now_iso reg a)) ->
  exists p,
    authenticateToken (JWT_SECRET cfg) now' req = Next (set_user req p)
    /\ get p "userId" = get a "id"
    /\ get p "username" = get a "username"
    /\ get p "role" = JUndefined
    /\ get p "department" = JNull
    /\ forall allowedRoles,
         requireRole allowedRoles (set_user req p) =
           Respond 403
             ("Access denied. Required roles: " ++ String.concat ", " allowedRoles
              ++ ". Your role: undefined") None.
Proof.
  intros Ha Httl Hauth Hword. unfold authenticateToken.
  rewrite (bearer_words req words _ Hauth Hword eq_refl).
  unfold generateRefreshToken. cbn [snd].
  unfold Jwt.sign, Jwt.verify. rewrite String.eqb_refl. cbn [negb].
  rewrite lookup_insert_eq.
  destruct (Z.leb_spec (now + JWT_REFRESH_EXPIRY cfg) now'); [lia|].
  match goal with |- context [principal ?c] => set (claims := c) end.
  exists (principal claims). split; [reflexivity|].
  assert (Hid : get claims "userId" = get a "id").
  { subst claims. rewrite get_signed by done.
    rewrite (get_json_image_object _ "userId" (get a "id"));
      [|literal_keys|literal_keys|done].
    by apply json_object_get. }
  assert (Hname : get claims "username" = get a "username").
  { subst claims. rewrite get_signed by done.
    rewrite (get_json_image_object _ "username" (get a "username"));
      [|literal_keys|literal_keys|done].
    by apply json_object_get. }
  assert (Hmissing : forall k,
    k ∉ ["userId"; "username"] -> inherited k = false ->
    k <> "exp" -> k <> "iat" -> get claims k = JUndefined).
  { intros k Hk Hi H1 H2. subst claims. rewrite get_signed, get_own by done.
    unfold json_image. rewrite lookup_omap, object_lookup_None; done. }
  assert (Hrole : get (principal claims) "role" = JUndefined).
  { unfold principal. object_get. apply Hmissing; [literal_keys|done..]. }
  split; [|split; [|split; [exact Hrole|split]]].
  - unfold principal. object_get. exact Hid.
  - unfold principal. object_get. exact Hname.
  - unfold principal. object_get. rewrite Hmissing; [done|literal_keys|done..].
  - intros allowedRoles. unfold requireRole. cbn [user set_user]. rewrite Hrole.
    assert (Hnone : existsb (fun r => strict_eq (JStr r) JUndefined) allowedRoles
                    = false).
    { induction allowedRoles as [|r l IH]; [done|]. cbn. exact IH. }
    by rewrite Hnone.
Qed.

Lemma refresh_token_as_access_token_witness :
  let rt := snd (generateRefreshToken Sample.cfg 1730000000
                   "2024-10-27T03:33:20.000Z" [] Sample.admin) in
  let req := Request (Some [Jwt.Garbage "Bearer"; rt]) None ∅ None JUndefined in
  exists p,
    authenticateToken (JWT_SECRET Sample.cfg) 1730500000 req = Next (set_user req p)
    /\ get p "userId" = JStr "admin"
    /\ get p "role" = JUndefined.
Proof.
  intros rt req.
  assert (Hjson : Spec.json_object Sample.admin).
  { change (map_Forall (fun _ v => json_value v = true) Sample.admin).
    apply (bool_decide_unpack _). vm_compute. exact I. }
  destruct (refresh_token_as_access_token Sample.cfg 1730000000 1730500000
              "2024-10-27T03:33:20.000Z" [] Sample.admin req
              [Jwt.Garbage "Bearer"; rt] Hjson eq_refl eq_refl eq_refl)
    as (p & Hp & Hid & _ & Hrole & _).
  exists p. split; [exact Hp|]. split; [exact Hid|exact Hrole].
Defined.

(* ===================================================================== *)
(** ** The credential store: deactivation and password change             *)
(* ===================================================================== *)

(** Replacing a record by one that the predicate cannot tell from it
    moves no search. *)
Lemma list_find_insert_equiv {A} (P : A -> Prop) `{!forall x, Decision (P x)}
    (l : list A) (i : nat) (x y : A) :
  l !! i = Some x -> (P y <-> P x) ->
  list_find P (<[i := y]> l)
  = (fun '(j, z) => (j, if decide (j = i) then y else z)) <$> list_find P l.
Proof.
  intros Hi Hxy. pose proof (lookup_lt_Some _ _ _ Hi) as Hlen.
  destruct (list_find P l) as [[j z]|] eqn:Hf; cbn.
  - apply list_find_Some in Hf as (Hj & HP & Hmin). apply list_find_Some.
    split; [|split].
    + case_decide; subst.
      * by apply list_lookup_insert_eq.
      * by rewrite list_lookup_insert_ne.
    + case_decide; subst; [|done]. rewrite Hi in Hj. injection Hj as <-.
      by apply Hxy.
    + intros k w Hk Hlt. destruct (decide (k = i)) as [->|Hne].
      * rewrite list_lookup_insert_eq in Hk by done. injection Hk as <-.
        rewrite Hxy. by apply (Hmin i x).
      * rewrite list_lookup_insert_ne in Hk by done. by apply (Hmin k w).
  - apply list_find_None. apply list_find_None in Hf.
    apply Forall_insert; [done|]. rewrite Hxy.
    by apply (Forall_lookup_1 _ _ _ _ Hf Hi).
Qed.

(** A search by a field, in a file where the record found by id has
    been replaced by one with the same value in that field. *)
Lemma find_by_insert (field : string) (users : list (gmap string jsval))
    (i : nat) (old new : gmap string jsval) (x : jsval) :
  users !! i = Some old ->
  get new field = get old field ->
  find_by field (<[i := new]> users) x
  = match list_find (fun u => get u field = x) users with
    | Some (j, u) => Some (if decide (j = i) then new else u)
    | None => None
    end.
Proof.
  intros Hi Hfield. unfold find_by.
  rewrite (list_find_insert_equiv _ users i old new Hi) by (by rewrite Hfield).
  by destruct (list_find _ users) as [[j z]|].
Qed.

Lemma find_by_insert_is_Some (field : string) (users : list (gmap string jsval))
    (i : nat) (old new : gmap string jsval) (x : jsval) :
  users !! i = Some old ->
  get new field = get old field ->
  is_Some (find_by field (<[i := new]> users) x)
  <-> is_Some (find_by field users x).
Proof.
  intros Hi Hfield. rewrite (find_by_insert field users i old new x Hi Hfield).
  unfold find_by. destruct (list_find _ users) as [[j z]|]; cbn.
  - split; intros _; by eexists.
  - done.
Qed.

(** The record [deleteUser] and [changePassword] write back, in a file
    of JSON records, is the one built in memory. *)
Lemma saveUsers_insert (users : list (gmap string jsval)) (i : nat)
    (new : gmap string jsval) :
  Forall Spec.json_object users -> Spec.json_object new ->
  saveUsers (<[i := new]> users) = <[i := new]> users.
Proof.
  intros Hall Hnew. apply saveUsers_json. by apply Forall_insert.
Qed.

Lemma json_object_insert (o : gmap string jsval) (k : string) (v : jsval) :
  Spec.json_object o -> json_value v = true -> Spec.json_object (<[k := v]> o).
Proof.
  intros Ho Hv k' v'. rewrite lookup_insert. case_decide.
  - by intros [= <-].
  - apply Ho.
Qed.

Lemma get_insert_ne (o : gmap string jsval) (k k' : string) (v : jsval) :
  k <> k' -> get (<[k := v]> o) k' = get o k'.
Proof. intros Hne. unfold get. by rewrite lookup_insert_ne. Qed.

Lemma deleteUser_found (users : list (gmap string jsval)) (userId : jsval)
    (now_iso : string) (i : nat) (old : gmap string jsval) :
  Forall Spec.json_object users ->
  list_find (fun u => get u "id" = userId) users = Some (i, old) ->
  deleteUser users userId now_iso
  = (<[i := <["updatedAt" := JStr now_iso]> (<["isActive" := JBool false]> old)]>
       users,
     Return true).
Proof.
  intros Hall Hfind. unfold deleteUser. rewrite Hfind.
  rewrite saveUsers_insert; [done|done|].
  apply list_find_Some in Hfind as (Hi & _ & _).
  repeat apply json_object_insert; try done.
  rewrite Forall_forall in Hall. apply Hall. by eapply list_elem_of_lookup_2.
Qed.

(** X12: [deleteUser] is a soft delete: when no record has the id it
    throws "User not found" and leaves the file alone; otherwise it
    replaces the first such record by one with [isActive] false and
    [updatedAt] the clock, every other field kept, and the file keeps
    its length. *)
Theorem deleteUser_soft (users : list (gmap string jsval)) (userId : jsval)
    (now_iso : string) :
  Forall Spec.json_object users ->
  (findUserById users userId = None ->
   deleteUser users userId now_iso = (users, Throw "User not found"))
  /\ (forall u,
      findUserById users userId = Some u ->
      exists i new,
        users !! i = Some u
        /\ deleteUser users userId now_iso = (<[i := new]> users, Return true)
        /\ length (<[i := new]> users) = length users
        /\ new !! "isActive" = Some (JBool false)
        /\ new !! "updatedAt" = Some (JStr now_iso)
        /\ forall k, k <> "isActive" -> k <> "updatedAt" -> new !! k = u !! k).
Proof.
  intros Hall. unfold findUserById, find_by. split.
  - intros Hnone. unfold deleteUser.
    by destruct (list_find _ users) as [[i old]|].
  - intros u Hsome.
    destruct (list_find _ users) as [[i old]|] eqn:Hfind; [|discriminate].
    injection Hsome as ->.
    rewrite (deleteUser_found users userId now_iso i u Hall Hfind).
    apply list_find_Some in Hfind as (Hi & _ & _).
    eexists i, _. split; [done|]. split; [reflexivity|].
    split; [apply length_insert|].
    split; [by rewrite lookup_insert_ne, lookup_insert_eq|].
    split; [by rewrite lookup_insert_eq|].
    intros k H1 H2. by rewrite !lookup_insert_ne.
Qed.

Lemma deleteUser_soft_witness :
  exists i new,
    Sample.defaultUsers !! i = Some Sample.admin
    /\ deleteUser Sample.defaultUsers (JStr "admin") "2024-10-27T03:33:25.000Z"
       = (<[i := new]> Sample.defaultUsers, Return true)
    /\ new !! "isActive" = Some (JBool false).
Proof.
  assert (Hjson : Forall Spec.json_object Sample.defaultUsers).
  { repeat constructor.
    change (map_Forall (fun _ v => json_value v = true) Sample.admin).
    apply (bool_decide_unpack _). vm_compute. exact I. }
  destruct (proj2 (deleteUser_soft Sample.defaultUsers (JStr "admin")
                     "2024-10-27T03:33:25.000Z" Hjson) Sample.admin eq_refl)
    as (i & new & Hi & Hdel & _ & Hact & _).
  by exists i, new.
Defined.

Lemma deleteUser_Return (users users' : list (gmap string jsval))
    (userId : jsval) (now_iso : string) (r : bool) :
  deleteUser users userId now_iso = (users', Return r) ->
  exists i old, list_find (fun u => get u "id" = userId) users = Some (i, old).
Proof.
  unfold deleteUser. destruct (list_find _ users) as [[i old]|]; [|discriminate].
  intros _. by exists i, old.
Qed.

(** The account an identifier resolves to, in a file where that account
    has been replaced by a record with the same email and login name. *)
Lemma resolve_insert (users : list (gmap string jsval)) (userId identifier : jsval)
    (i : nat) (old new : gmap string jsval) :
  list_find (fun u => get u "id" = userId) users = Some (i, old) ->
  Spec.resolve users identifier = Some old ->
  get new "email" = get old "email" ->
  get new "username" = get old "username" ->
  Spec.resolve (<[i := new]> users) identifier = Some new.
Proof.
  intros (Hi & Hid & Hmin)%list_find_Some Hres Hemail Hname.
  assert (Hsame : forall field j,
    list_find (fun u => get u field = identifier) users = Some (j, old) -> j = i).
  { intros field j (Hj & HP & Hminj)%list_find_Some.
    destruct (Nat.lt_trichotomy j i) as [Hlt | [-> | Hlt]]; [|done|].
    - by destruct (Hmin j old Hj Hlt).
    - by destruct (Hminj i old Hi Hlt). }
  unfold Spec.resolve, findUserByEmail, findUserByUsername in *.
  rewrite (find_by_insert "email" users i old new identifier Hi Hemail).
  rewrite (find_by_insert "username" users i old new identifier Hi Hname).
  unfold find_by in Hres.
  destruct (list_find (fun u => get u "email" = identifier) users)
    as [[j u]|] eqn:He; cbn in Hres.
  - injection Hres as ->. rewrite (Hsame "email" j He). by rewrite decide_True.
  - destruct (list_find (fun u => get u "username" = identifier) users)
      as [[j u]|] eqn:Hu; cbn in Hres; [|discriminate].
    injection Hres as ->. rewrite (Hsame "username" j Hu). by rewrite decide_True.
Qed.

Section Deactivation.

Variable bcrypt_hash_salted : string -> string -> string.
Variable bcrypt_compare_str : string -> string -> bool.

Lemma createUser_email_taken (users : list (gmap string jsval))
    (userData : gmap string jsval) (e : env) :
  is_Some (findUserByEmail users (get userData "email")) ->
  exists m, createUser bcrypt_hash_salted users userData e = (users, Throw m).
Proof.
  intros Hfound. unfold createUser. cbv zeta.
  repeat match goal with
         | |- context [bool_decide (is_Some (findUserByEmail _ _))] =>
             rewrite (bool_decide_eq_true_2 (is_Some (findUserByEmail _ _)))
               by done;
             by eexists
         | |- context [if ?c then _ else _] => destruct c; [by eexists|]
         end.
Qed.

(** X13: a deactivated account keeps its slot: after [deleteUser],
    [createUser] still throws, without writing, for every input whose
    login name or email some record of the file held before, the
    deactivated one included. *)
Theorem deactivated_slot_stays_taken (users users' : list (gmap string jsval))
    (userId : jsval) (now_iso : string) (userData : gmap string jsval) (e : env) :
  Forall Spec.json_object users ->
  deleteUser users userId now_iso = (users', Return true) ->
  is_Some (findUserByUsername users (get userData "username"))
  \/ is_Some (findUserByEmail users (get userData "email")) ->
  exists m, createUser bcrypt_hash_salted users' userData e = (users', Throw m).
Proof.
  intros Hall Hdel Htaken.
  destruct (deleteUser_Return _ _ _ _ _ Hdel) as (i & old & Hfind).
  rewrite (deleteUser_found users userId now_iso i old Hall Hfind) in Hdel.
  injection Hdel as <-.
  apply list_find_Some in Hfind as (Hi & _ & _).
  destruct Htaken as [Hname | Hemail].
  - apply createUser_taken. unfold findUserByUsername in *.
    eapply find_by_insert_is_Some; [exact Hi| |exact Hname].
    by rewrite !get_insert_ne.
  - apply createUser_email_taken. unfold findUserByEmail in *.
    eapply find_by_insert_is_Some; [exact Hi| |exact Hemail].
    by rewrite !get_insert_ne.
Qed.

(** X14: a deactivated account cannot log in: after [deleteUser] of the
    account an identifier resolves to, [authenticateUser] returns null
    for that identifier whatever the password, without comparing
    it. *)
Theorem deactivated_cannot_authenticate (users users' : list (gmap string jsval))
    (userId identifier : jsval) (now_iso : string) (u : gmap string jsval) :
  Forall Spec.json_object users ->
  findUserById users userId = Some u ->
  Spec.resolve users identifier = Some u ->
  deleteUser users userId now_iso = (users', Return true) ->
  forall password,
    authenticateUser bcrypt_compare_str users' identifier password = Return None.
Proof.
  intros Hall Hid Hres Hdel password.
  destruct (deleteUser_Return _ _ _ _ _ Hdel) as (i & old & Hfind).
  assert (old = u) as ->.
  { unfold findUserById, find_by in Hid. rewrite Hfind in Hid.
    by injection Hid. }
  rewrite (deleteUser_found users userId now_iso i u Hall Hfind) in Hdel.
  injection Hdel as <-.
  set (new := <["updatedAt" := JStr now_iso]> (<["isActive" := JBool false]> u)).
  assert (Hnew : Spec.resolve (<[i := new]> users) identifier = Some new).
  { apply (resolve_insert users userId identifier i u new Hfind Hres);
      subst new; by rewrite !get_insert_ne. }
  unfold authenticateUser. unfold Spec.resolve in Hnew.
  destruct (findUserByEmail (<[i := new]> users) identifier) as [v|].
  - injection Hnew as ->. subst new.
    by rewrite get_insert_ne, (get_Some _ "isActive" (JBool false))
      by (done || apply lookup_insert_eq).
  - rewrite Hnew. subst new.
    by rewrite get_insert_ne, (get_Some _ "isActive" (JBool false))
      by (done || apply lookup_insert_eq).
Qed.

(** X15: [deleteUser] writes what [updateUser] writes for the updates
    [{isActive: false}] at the same clock. *)
Theorem deleteUser_as_updateUser (users : list (gmap string jsval))
    (userId : jsval) (e : env) :
  fst (deleteUser users userId (updated_iso e))
  = fst (updateUser bcrypt_hash_salted users userId
           (object [ ("isActive", JBool false) ]) e).
Proof.
  unfold deleteUser, updateUser.
  destruct (list_find _ users) as [[i old]|]; [|done].
  change (truthy (get (object [("isActive", JBool false)]) "password")) with false.
  cbv zeta. cbv iota. cbn [fst]. do 3 f_equal.
  unfold spread.
  change (sanitize (object [("isActive", JBool false)]))
    with (<["isActive" := JBool false]> (∅ : gmap string jsval)).
  by rewrite <- insert_union_l, (left_id_L ∅ (∪)).
Qed.

End Deactivation.

Lemma sample_users_json : Forall Spec.json_object Sample.defaultUsers.
Proof.
  repeat constructor.
  change (map_Forall (fun _ v => json_value v = true) Sample.admin).
  apply (bool_decide_unpack _). vm_compute. exact I.
Qed.

Lemma deactivated_slot_stays_taken_witness :
  exists m,
    createUser Sample.hash_salted
      (fst (deleteUser Sample.defaultUsers (JStr "admin")
              "2024-10-27T03:33:25.000Z"))
      (object [ ("username", JStr "admin"); ("password", JStr "Secret123");
                ("email", JStr "other@nitw.edu"); ("role", JStr "admin") ])
      Sample.env2
    = (fst (deleteUser Sample.defaultUsers (JStr "admin")
              "2024-10-27T03:33:25.000Z"),
       Throw m).
Proof.
  refine (deactivated_slot_stays_taken Sample.hash_salted Sample.defaultUsers
            (fst (deleteUser Sample.defaultUsers (JStr "admin")
                    "2024-10-27T03:33:25.000Z"))
            (JStr "admin") "2024-10-27T03:33:25.000Z"
            (object [ ("username", JStr "admin"); ("password", JStr "Secret123");
                      ("email", JStr "other@nitw.edu"); ("role", JStr "admin") ])
            Sample.env2 sample_users_json _ _).
  - reflexivity.
  - left. eexists; reflexivity.
Defined.

Lemma deactivated_cannot_authenticate_witness :
  authenticateUser Sample.compare_str
    (fst (deleteUser Sample.defaultUsers (JStr "admin")
            "2024-10-27T03:33:25.000Z"))
    (JStr "admin@nitw.edu") (JStr "admin123")
  = Return None.
Proof.
  refine (deactivated_cannot_authenticate Sample.compare_str Sample.defaultUsers
            (fst (deleteUser Sample.defaultUsers (JStr "admin")
                    "2024-10-27T03:33:25.000Z"))
            (JStr "admin") (JStr "admin@nitw.edu")
            "2024-10-27T03:33:25.000Z" Sample.admin sample_users_json _ _ _
            (JStr "admin123"));
    reflexivity.
Defined.

Section PasswordChange.

Variable bcrypt_hash_salted : string -> string -> string.
Variable bcrypt_compare_str : string -> string -> bool.

Lemma changePassword_found (users : list (gmap string jsval)) (userId : jsval)
    (old new hsh slt now_iso : string) (i : nat) (u : gmap string jsval) :
  Forall Spec.json_object users ->
  list_find (fun v => get v "id" = userId) users = Some (i, u) ->
  get u "passwordHash" = JStr hsh ->
  changePassword bcrypt_hash_salted bcrypt_compare_str users userId
    (JStr old) (JStr new) slt now_iso
  = if bcrypt_compare_str old hsh
    then (<[i := <["updatedAt" := JStr now_iso]>
                   (<["passwordHash" := JStr (bcrypt_hash_salted slt new)]> u)]>
            users,
          Return true)
    else (users, Throw "Current password is incorrect").
Proof.
  intros Hall Hfind Hhash. unfold changePassword. rewrite Hfind, Hhash.
  cbn [bcrypt_compare bcrypt_hash].
  destruct (bcrypt_compare_str old hsh); cbn [negb]; [|done].
  rewrite saveUsers_insert; [done|done|].
  apply list_find_Some in Hfind as (Hi & _ & _).
  repeat apply json_object_insert; try done.
  rewrite Forall_forall in Hall. apply Hall. by eapply list_elem_of_lookup_2.
Qed.

(** X16: [changePassword] on string passwords, for an account with a
    string hash: an unknown id throws "User not found"; a current
    password the hash rejects throws "Current password is incorrect";
    in both cases the file is left alone.  Otherwise the first record
    with the id gets the hash of the new password and the clock as
    [updatedAt], every other field kept; neither the active flag nor
    the length of the new password is looked at. *)
Theorem changePassword_outcomes (users : list (gmap string jsval))
    (userId : jsval) (old new slt now_iso : string) :
  Forall Spec.json_object users ->
  (findUserById users userId = None ->
   changePassword bcrypt_hash_salted bcrypt_compare_str users userId
     (JStr old) (JStr new) slt now_iso
   = (users, Throw "User not found"))
  /\ (forall u hsh,
      findUserById users userId = Some u ->
      get u "passwordHash" = JStr hsh ->
      (bcrypt_compare_str old hsh = false ->
       changePassword bcrypt_hash_salted bcrypt_compare_str users userId
         (JStr old) (JStr new) slt now_iso
       = (users, Throw "Current password is incorrect"))
      /\ (bcrypt_compare_str old hsh = true ->
          exists i changed,
            users !! i = Some u
            /\ changePassword bcrypt_hash_salted bcrypt_compare_str users userId
                 (JStr old) (JStr new) slt now_iso
               = (<[i := changed]> users, Return true)
            /\ changed !! "passwordHash"
               = Some (JStr (bcrypt_hash_salted slt new))
            /\ changed !! "updatedAt" = Some (JStr now_iso)
            /\ forall k, k <> "passwordHash" -> k <> "updatedAt" ->
                         changed !! k = u !! k)).
Proof.
  intros Hall. unfold findUserById, find_by. split.
  - intros Hnone. unfold changePassword.
    by destruct (list_find _ users) as [[i v]|].
  - intros u hsh Hsome Hhash.
    destruct (list_find _ users) as [[i v]|] eqn:Hfind; [|discriminate].
    injection Hsome as ->.
    rewrite (changePassword_found users userId old new hsh slt now_iso i u
               Hall Hfind Hhash).
    split; intros ->; [done|].
    apply list_find_Some in Hfind as (Hi & _ & _).
    eexists i, _. split; [done|]. split; [reflexivity|].
    split; [by rewrite lookup_insert_ne, lookup_insert_eq|].
    split; [by rewrite lookup_insert_eq|].
    intros k H1 H2. by rewrite !lookup_insert_ne.
Qed.

(** X17: once [changePassword] has returned, what [authenticateUser]
    answers for the account, if it is active, is decided by the new
    hash alone: a secret logs in exactly when bcrypt accepts it against
    the hash of the new password. *)
Theorem changed_password_decides (users users' : list (gmap string jsval))
    (userId identifier : jsval) (old new slt now_iso : string)
    (u : gmap string jsval) :
  Forall Spec.json_object users ->
  findUserById users userId = Some u ->
  Spec.resolve users identifier = Some u ->
  u !! "isActive" = Some (JBool true) ->
  (exists hsh, u !! "passwordHash" = Some (JStr hsh)) ->
  changePassword bcrypt_hash_salted bcrypt_compare_str users userId
    (JStr old) (JStr new) slt now_iso = (users', Return true) ->
  exists changed,
    (forall k, k <> "passwordHash" -> k <> "updatedAt" -> changed !! k = u !! k)
    /\ forall p,
         authenticateUser bcrypt_compare_str users' identifier (JStr p)
         = if bcrypt_compare_str p (bcrypt_hash_salted slt new)
           then Return (Some (rest_without "passwordHash" changed))
           else Return None.
Proof.
  intros Hall Hid Hres Hact [hsh Hhash] Hchange.
  unfold findUserById, find_by in Hid.
  destruct (list_find (fun v => get v "id" = userId) users)
    as [[i v]|] eqn:Hfind; [|discriminate].
  injection Hid as ->.
  rewrite (changePassword_found users userId old new hsh slt now_iso i u
             Hall Hfind (get_Some _ _ _ Hhash)) in Hchange.
  destruct (bcrypt_compare_str old hsh); [|discriminate].
  injection Hchange as <-.
  set (changed := <["updatedAt" := JStr now_iso]>
                    (<["passwordHash" := JStr (bcrypt_hash_salted slt new)]> u)).
  exists changed. split.
  { intros k H1 H2. subst changed. by rewrite !lookup_insert_ne. }
  intros p.
  assert (Hnew : Spec.resolve (<[i := changed]> users) identifier = Some changed).
  { apply (resolve_insert users userId identifier i u changed Hfind Hres);
      subst changed; by rewrite !get_insert_ne. }
  rewrite authenticateUser_resolved, Hnew.
  assert (Hactive : get changed "isActive" = JBool true).
  { subst changed. rewrite !get_insert_ne by done. by apply get_Some. }
  assert (Hph : get changed "passwordHash" = JStr (bcrypt_hash_salted slt new)).
  { subst changed. rewrite get_insert_ne by done. apply get_Some.
    apply lookup_insert_eq. }
  rewrite Hactive, Hph. cbn.
  by destruct (bcrypt_compare_str p (bcrypt_hash_salted slt new)).
Qed.

End PasswordChange.

Lemma changePassword_outcomes_witness :
  changePassword Sample.hash_salted Sample.compare_str Sample.defaultUsers
    (JStr "admin") (JStr "wrong") (JStr "NewSecret1") "salt2"
    "2024-10-27T03:33:25.000Z"
  = (Sample.defaultUsers, Throw "Current password is incorrect").
Proof.
  refine (proj1 (proj2 (changePassword_outcomes Sample.hash_salted
            Sample.compare_str Sample.defaultUsers (JStr "admin") "wrong"
            "NewSecret1" "salt2" "2024-10-27T03:33:25.000Z" sample_users_json)
            Sample.admin "$2a$10$N9qo8uLOickgx2ZMRZoMye.admin123" _ _) _);
    reflexivity.
Defined.

Lemma changed_password_decides_witness :
  exists changed,
    (forall k, k <> "passwordHash" -> k <> "updatedAt" ->
               changed !! k = Sample.admin !! k)
    /\ forall p,
         authenticateUser Sample.compare_str
           (fst (changePassword Sample.hash_salted Sample.compare_str
                   Sample.defaultUsers (JStr "admin") (JStr "admin123")
                   (JStr "NewSecret1") "salt2" "2024-10-27T03:33:25.000Z"))
           (JStr "admin") (JStr p)
         = if Sample.compare_str p (Sample.hash_salted "salt2" "NewSecret1")
           then Return (Some (rest_without "passwordHash" changed))
           else Return None.
Proof.
  refine (changed_password_decides Sample.hash_salted Sample.compare_str
            Sample.defaultUsers
            (fst (changePassword Sample.hash_salted Sample.compare_str
                    Sample.defaultUsers (JStr "admin") (JStr "admin123")
                    (JStr "NewSecret1") "salt2" "2024-10-27T03:33:25.000Z"))
            (JStr "admin") (JStr "admin") "admin123" "NewSecret1" "salt2"
            "2024-10-27T03:33:25.000Z" Sample.admin sample_users_json
            _ _ _ _ _); try reflexivity.
  eexists. reflexivity.
Defined.

(* ===================================================================== *)
(** ** The credential store: what createUser creates                      *)
(* ===================================================================== *)

Lemma object_lookup_elem (fields : list (string * jsval)) k v :
  object fields !! k = Some v -> (k, v) ∈ fields.
Proof.
  unfold object. intros H%elem_of_list_to_map_2.
  rewrite elem_of_reverse in H. exact H.
Qed.

Lemma list_find_singleton_true {A} (P : A -> Prop) `{!forall x, Decision (P x)}
    (x : A) :
  P x -> list_find P [x] = Some (0%nat, x).
Proof.
  intros HP. apply list_find_Some. split; [done|]. split; [done|].
  intros j y _ Hlt. lia.
Qed.

Section Creation.

Variable bcrypt_hash_salted : string -> string -> string.
Variable bcrypt_compare_str : string -> string -> bool.

Lemma createUser_Return_built (users : list (gmap string jsval))
    (userData : gmap string jsval) (e : env) users1 created :
  createUser bcrypt_hash_salted users userData e = (users1, Return created) ->
  exists p,
    get userData "password" = JStr p
    /\ truthy (get userData "username") = true
    /\ truthy (get userData "email") = true
    /\ truthy (get userData "role") = true
    /\ isValidRole (get userData "role") = true
    /\ findUserByUsername users (get userData "username") = None
    /\ findUserByEmail users (get userData "email") = None
    /\ users1 = saveUsers (users ++ [Spec.built bcrypt_hash_salted userData e p])
    /\ created = rest_without "passwordHash" (Spec.built bcrypt_hash_salted userData e p).
Proof.
  unfold createUser. cbv zeta.
  destruct (truthy (get userData "username")); [|discriminate].
  destruct (truthy (get userData "password")); [|discriminate].
  destruct (truthy (get userData "email")); [|discriminate].
  destruct (truthy (get userData "role")); [|discriminate].
  cbn [negb orb].
  destruct (isValidRole (get userData "role")); [|discriminate].
  cbn [negb].
  destruct ((strict_eq (get userData "role") (JStr "faculty")
             || strict_eq (get userData "role") (JStr "student"))
            && negb (truthy (get userData "department"))); [discriminate|].
  case_bool_decide as Hname; [discriminate|].
  case_bool_decide as Hemail; [discriminate|].
  destruct (get userData "password") as [| | | |p|]; try discriminate.
  cbn [bcrypt_hash]. intros [= <- <-]. exists p.
  repeat split; try done.
  - by apply eq_None_not_Some.
  - by apply eq_None_not_Some.
Qed.

Lemma built_json (userData : gmap string jsval) (e : env) (p : string) :
  Spec.json_object userData ->
  truthy (get userData "username") = true ->
  truthy (get userData "email") = true ->
  truthy (get userData "role") = true ->
  Spec.json_object (Spec.built bcrypt_hash_salted userData e p).
Proof.
  intros Hjson Hu He Hr k v Hkv%object_lookup_elem.
  assert (Hdep : json_value (js_or (get userData "department") JNull) = true).
  { unfold js_or. destruct (truthy (get userData "department")) eqn:Hd; [|done].
    by apply json_object_truthy. }
  repeat (apply elem_of_cons in Hkv as [[= -> ->] | Hkv];
          [first [reflexivity | assumption | by apply json_object_truthy]|]).
  by apply elem_of_nil in Hkv.
Qed.

(** X18: registration and login round trip: over a file of JSON
    records, once [createUser] has returned on a JSON input, and if
    bcrypt accepts the password against the hash it made of it,
    [authenticateUser] by the email with that password returns the very
    record [createUser] returned. *)
Theorem created_account_authenticates (users : list (gmap string jsval))
    (userData : gmap string jsval) (e : env) users1 created :
  Forall Spec.json_object users ->
  Spec.json_object userData ->
  createUser bcrypt_hash_salted users userData e = (users1, Return created) ->
  (forall p, get userData "password" = JStr p ->
             bcrypt_compare_str p (bcrypt_hash_salted (salt e) p) = true) ->
  authenticateUser bcrypt_compare_str users1
    (get userData "email") (get userData "password")
  = Return (Some created).
Proof.
  intros Hall Hjson Hcreate Hbcrypt.
  apply createUser_Return_built in Hcreate
    as (p & Hp & Hu & He & Hr & _ & _ & Hemail & -> & ->).
  pose proof (built_json userData e p Hjson Hu He Hr) as Hbuilt.
  rewrite saveUsers_json by (apply Forall_app; split; [done|by constructor]).
  assert (Hfound : findUserByEmail (users ++ [Spec.built bcrypt_hash_salted userData e p])
                     (get userData "email") = Some (Spec.built bcrypt_hash_salted userData e p)).
  { unfold findUserByEmail, find_by in *.
    destruct (list_find _ users) as [[j z]|] eqn:Hf; [discriminate|].
    rewrite (list_find_app_r _ _ _ Hf).
    rewrite list_find_singleton_true; [done|].
    unfold Spec.built. object_get. reflexivity. }
  unfold authenticateUser. rewrite Hfound, Hp.
  unfold Spec.built at 1 2. repeat object_get. cbn.
  by rewrite (Hbcrypt p Hp).
Qed.

(** X19: [createUser] keeps login names and emails pairwise distinct:
    over a file of JSON records where no two records share a login
    name, or an email, the file a returning [createUser] leaves has the
    same property. *)
Theorem createUser_keeps_logins_distinct (users : list (gmap string jsval))
    (userData : gmap string jsval) (e : env) users1 created :
  Forall Spec.json_object users ->
  Spec.json_object userData ->
  createUser bcrypt_hash_salted users userData e = (users1, Return created) ->
  (NoDup ((fun u => get u "username") <$> users) ->
   NoDup ((fun u => get u "username") <$> users1))
  /\ (NoDup ((fun u => get u "email") <$> users) ->
      NoDup ((fun u => get u "email") <$> users1)).
Proof.
  intros Hall Hjson Hcreate.
  apply createUser_Return_built in Hcreate
    as (p & Hp & Hu & He & Hr & _ & Hname & Hemail & -> & _).
  pose proof (built_json userData e p Hjson Hu He Hr) as Hbuilt.
  rewrite saveUsers_json by (apply Forall_app; split; [done|by constructor]).
  assert (Hfresh : forall field x,
    find_by field users x = None -> get (Spec.built bcrypt_hash_salted userData e p) field = x ->
    NoDup ((fun u => get u field) <$> users) ->
    NoDup ((fun u => get u field)
             <$> (users ++ [Spec.built bcrypt_hash_salted userData e p])%list)).
  { intros field x Hnone Hx Hnd. rewrite fmap_app. apply NoDup_app.
    split; [done|]. split; [|apply NoDup_singleton].
    intros y (u & -> & Hin)%list_elem_of_fmap
             (b & Heq & ->%list_elem_of_singleton)%list_elem_of_fmap.
    rewrite Hx in Heq. unfold find_by in Hnone.
    destruct (list_find (fun v => get v field = x) users) eqn:Hf; [done|].
    apply list_find_None in Hf. rewrite Forall_forall in Hf.
    by apply (Hf u Hin). }
  split.
  - apply (Hfresh "username" (get userData "username") Hname).
    unfold Spec.built. object_get. reflexivity.
  - apply (Hfresh "email" (get userData "email") Hemail).
    unfold Spec.built. object_get. reflexivity.
Qed.

(** X20: what [createUser] can create: the record it returns has a role
    that [isValidRole] accepts, hence one of the three MSP ids, is
    active and carries no hash; and for the role faculty, which the
    error message lists as valid, it always throws, without writing:
    "Invalid role" as soon as the other required fields are there. *)
Theorem createUser_roles (users : list (gmap string jsval))
    (userData : gmap string jsval) (e : env) :
  (forall users1 created,
      createUser bcrypt_hash_salted users userData e = (users1, Return created) ->
      isValidRole (get created "role") = true
      /\ (exists msp, getMSPForRole (get created "role") = JStr msp)
      /\ get created "isActive" = JBool true
      /\ created !! "passwordHash" = None)
  /\ (get userData "role" = JStr "faculty" ->
      exists m,
        createUser bcrypt_hash_salted users userData e = (users, Throw m)
        /\ (m = "Missing required fields: username, password, email, role"
            \/ m = "Invalid role: faculty. Valid roles: admin, student, faculty, verifier")).
Proof.
  split.
  - intros users1 created Hcreate.
    apply createUser_Return_built in Hcreate
      as (p & _ & _ & _ & _ & Hvalid & _ & _ & _ & ->).
    assert (Hrole : get (rest_without "passwordHash" (Spec.built bcrypt_hash_salted userData e p)) "role"
                    = get userData "role").
    { apply get_Some. unfold rest_without. rewrite lookup_delete_ne by done.
      apply object_lookup_Some; literal_keys. }
    rewrite Hrole. split; [done|]. split.
    + apply isValidRole_true in Hvalid as [-> | [-> | [-> | ->]]]; by eexists.
    + split; [|apply lookup_delete_eq].
      apply get_Some. unfold rest_without. rewrite lookup_delete_ne by done.
      apply object_lookup_Some; literal_keys.
  - intros Hrole. unfold createUser. cbv zeta. rewrite Hrole.
    destruct (negb (truthy (get userData "username"))
              || negb (truthy (get userData "password"))
              || negb (truthy (get userData "email"))
              || negb (truthy (JStr "faculty"))).
    + eexists. split; [reflexivity|]. by left.
    + eexists. split; [reflexivity|]. by right.
Qed.

(** X21: ids are not checked: two accounts that [createUser] creates
    with the same role at the same reading of [Date.now()] get the same
    id. *)
Theorem createUser_id_collision (users users' : list (gmap string jsval))
    (d1 d2 : gmap string jsval) (e1 e2 : env) users1 users2 c1 c2 :
  createUser bcrypt_hash_salted users d1 e1 = (users1, Return c1) ->
  createUser bcrypt_hash_salted users' d2 e2 = (users2, Return c2) ->
  get d1 "role" = get d2 "role" ->
  date_now e1 = date_now e2 ->
  get c1 "id" = get c2 "id"
  /\ get c1 "id"
     = JStr (to_string (get d1 "role") ++ "-" ++ pretty (date_now e1)).
Proof.
  intros H1 H2 Hrole Hnow.
  apply createUser_Return_built in H1 as (p1 & _ & _ & _ & _ & _ & _ & _ & _ & ->).
  apply createUser_Return_built in H2 as (p2 & _ & _ & _ & _ & _ & _ & _ & _ & ->).
  assert (Hid : forall d e p,
    get (rest_without "passwordHash" (Spec.built bcrypt_hash_salted d e p)) "id"
    = JStr (to_string (get d "role") ++ "-" ++ pretty (date_now e))).
  { intros d e p. apply get_Some. unfold rest_without.
    rewrite lookup_delete_ne by done. apply object_lookup_Some; literal_keys. }
  rewrite !Hid. by rewrite Hrole, Hnow.
Qed.

End Creation.

Lemma sample_data_json : Spec.json_object Sample.verifier1_data.
Proof.
  change (map_Forall (fun _ v => json_value v = true) Sample.verifier1_data).
  apply (bool_decide_unpack _). vm_compute. exact I.
Qed.

Lemma created_account_authenticates_witness :
  authenticateUser Sample.compare_str
    (fst (createUser Sample.hash_salted Sample.defaultUsers Sample.verifier1_data
            Sample.env1))
    (get Sample.verifier1_data "email") (get Sample.verifier1_data "password")
  = Return (Some (rest_without "passwordHash"
                    (Spec.built Sample.hash_salted Sample.verifier1_data
                       Sample.env1 "Secret123"))).
Proof.
  refine (created_account_authenticates Sample.hash_salted Sample.compare_str
            Sample.defaultUsers Sample.verifier1_data Sample.env1
            (fst (createUser Sample.hash_salted Sample.defaultUsers
                    Sample.verifier1_data Sample.env1))
            (rest_without "passwordHash"
               (Spec.built Sample.hash_salted Sample.verifier1_data
                  Sample.env1 "Secret123"))
            sample_users_json sample_data_json _ _).
  - reflexivity.
  - intros p [= <-]. reflexivity.
Defined.

Lemma createUser_keeps_logins_distinct_witness :
  NoDup ((fun u => get u "username")
           <$> fst (createUser Sample.hash_salted Sample.defaultUsers
                      Sample.verifier1_data Sample.env1)).
Proof.
  refine (proj1 (createUser_keeps_logins_distinct Sample.hash_salted
            Sample.defaultUsers Sample.verifier1_data Sample.env1
            (fst (createUser Sample.hash_salted Sample.defaultUsers
                    Sample.verifier1_data Sample.env1))
            (rest_without "passwordHash"
               (Spec.built Sample.hash_salted Sample.verifier1_data
                  Sample.env1 "Secret123"))
            sample_users_json sample_data_json _) _).
  - reflexivity.
  - apply NoDup_singleton.
Defined.

Lemma createUser_roles_witness :
  exists m,
    createUser Sample.hash_salted Sample.defaultUsers
      (object [ ("username", JStr "faculty1"); ("password", JStr "Secret123");
                ("email", JStr "f1@x.edu"); ("role", JStr "faculty");
                ("department", JStr "CSE") ]) Sample.env1
    = (Sample.defaultUsers, Throw m)
    /\ (m = "Missing required fields: username, password, email, role"
        \/ m = "Invalid role: faculty. Valid roles: admin, student, faculty, verifier").
Proof.
  refine (proj2 (createUser_roles Sample.hash_salted Sample.defaultUsers
            (object [ ("username", JStr "faculty1"); ("password", JStr "Secret123");
                      ("email", JStr "f1@x.edu"); ("role", JStr "faculty");
                      ("department", JStr "CSE") ]) Sample.env1) _).
  reflexivity.
Defined.

Lemma createUser_id_collision_witness :
  let second := object [ ("username", JStr "verifier2");
                         ("password", JStr "Secret456");
                         ("email", JStr "v2@x.edu"); ("role", JStr "verifier") ] in
  let users1 := fst (createUser Sample.hash_salted Sample.defaultUsers
                       Sample.verifier1_data Sample.env1) in
  get (rest_without "passwordHash"
         (Spec.built Sample.hash_salted Sample.verifier1_data Sample.env1
            "Secret123")) "id"
  = get (rest_without "passwordHash"
           (Spec.built Sample.hash_salted second Sample.env1 "Secret456")) "id".
Proof.
  intros second users1.
  refine (proj1 (createUser_id_collision Sample.hash_salted Sample.defaultUsers
            users1 Sample.verifier1_data second Sample.env1 Sample.env1
            users1
            (fst (createUser Sample.hash_salted users1 second Sample.env1))
            _ _ _ _ _ _)); reflexivity.
Defined.

(* ===================================================================== *)
(** ** The endpoints of authController.js                                 *)
(* ===================================================================== *)

Lemma json_object_delete (o : gmap string jsval) (k : string) :
  Spec.json_object o -> Spec.json_object (rest_without k o).
Proof.
  intros Ho k' v. unfold rest_without. rewrite lookup_delete.
  case_decide; [done|]. apply Ho.
Qed.

Lemma get_rest_without (o : gmap string jsval) (k k' : string) :
  k <> k' -> get (rest_without k o) k' = get o k'.
Proof. intros Hne. unfold get, rest_without. by rewrite lookup_delete_ne. Qed.

Lemma map_has_set_same (m : registry) (t : Jwt.token) (v : gmap string jsval) :
  map_has (map_set m t v) t = true.
Proof.
  unfold map_set. destruct (map_has m t) eqn:Hm.
  - unfold map_has in *. induction m as [|e m IH]; [done|].
    cbn [existsb map] in *. destruct (bool_decide (e.1 = t)) eqn:He.
    + cbn [fst]. by rewrite bool_decide_eq_true_2.
    + rewrite He. cbn [orb] in *. by apply IH.
  - unfold map_has. rewrite existsb_app. cbn.
    rewrite bool_decide_eq_true_2 by done. by rewrite orb_true_r.
Qed.

Lemma verify_signed (payload : gmap string jsval) (key : string)
    (ttl now now' : Z) :
  (now' < now + ttl)%Z ->
  Jwt.verify (Jwt.sign payload key ttl now) key now'
  = Jwt.Decoded (<["exp" := JNum (now + ttl)]>
                   (<["iat" := JNum now]> (json_image payload))).
Proof.
  intros Httl. unfold Jwt.sign, Jwt.verify.
  rewrite String.eqb_refl. cbn [negb]. rewrite lookup_insert_eq.
  destruct (Z.leb_spec (now + ttl) now'); [lia|done].
Qed.

Section Endpoints.

Variable bcrypt_hash_salted : string -> string -> string.
Variable bcrypt_compare_str : string -> string -> bool.

(** What [authenticateUser] hands back is a stored, active record less
    its hash. *)
Lemma authenticateUser_Some (users : list (gmap string jsval))
    (identifier password : jsval) (x : gmap string jsval) :
  authenticateUser bcrypt_compare_str users identifier password
    = Return (Some x) ->
  exists r, r ∈ users /\ x = rest_without "passwordHash" r
            /\ truthy (get r "isActive") = true.
Proof.
  unfold authenticateUser.
  assert (Hin : forall r,
    match findUserByEmail users identifier with
    | Some u => Some u
    | None => findUserByUsername users identifier
    end = Some r -> r ∈ users).
  { intros r. destruct (findUserByEmail users identifier) as [u|] eqn:He.
    - intros [= <-]. by apply find_by_Some in He as [? _].
    - intros Hu. by apply find_by_Some in Hu as [? _]. }
  destruct (match findUserByEmail users identifier with
            | Some u => Some u
            | None => findUserByUsername users identifier
            end) as [r|]; [|discriminate].
  destruct (truthy (get r "isActive")) eqn:Hact; [|discriminate]. cbn [negb].
  destruct (bcrypt_compare _ _ _) as [[]|]; try discriminate.
  cbn [negb]. intros [= <-]. exists r. split; [by apply Hin|done].
Qed.

(** X22: the second attempt in [login] never rescues a login: whenever
    [authenticateUser] returns null for the identifier (the email if
    given, else the login name), [login] answers 401 "Invalid
    credentials" and leaves the registry alone. *)
Theorem login_fallback_never_rescues (cfg : config) (now_access now_refresh : Z)
    (now_iso : string) (users : list (gmap string jsval)) (reg : registry)
    (body : gmap string jsval) :
  truthy (js_or (get body "email") (get body "username")) = true ->
  truthy (get body "password") = true ->
  authenticateUser bcrypt_compare_str users
    (js_or (get body "email") (get body "username")) (get body "password")
    = Return None ->
  login bcrypt_compare_str cfg now_access now_refresh now_iso users reg body
  = (reg, Answer 401 (Some "Invalid credentials") Nothing).
Proof.
  intros Hid Hpw Hfirst. unfold login. cbv zeta. rewrite Hid, Hpw, Hfirst.
  cbn [negb orb].
  destruct (truthy (get body "email")); [|done].
  destruct (findUserByUsername users _) as [ub|] eqn:Hub; [|done].
  apply find_by_Some in Hub as [_ ->]. by rewrite Hfirst.
Qed.

Lemma login_Session (cfg : config) (now_access now_refresh : Z)
    (now_iso : string) (users : list (gmap string jsval)) (reg reg' : registry)
    (body : gmap string jsval) st msg access rt shown :
  login bcrypt_compare_str cfg now_access now_refresh now_iso users reg body
    = (reg', Answer st msg (Session access rt shown)) ->
  exists r,
    r ∈ users
    /\ truthy (get r "isActive") = true
    /\ get shown "username" = get r "username"
    /\ shown !! "passwordHash" = None
    /\ access = generateAccessToken cfg now_access (rest_without "passwordHash" r)
    /\ (reg', rt) = generateRefreshToken cfg now_refresh now_iso reg
                      (rest_without "passwordHash" r).
Proof.
  unfold login. cbv zeta.
  destruct (negb _ || negb _); [discriminate|].
  destruct (authenticateUser bcrypt_compare_str users
              (js_or (get body "email") (get body "username"))
              (get body "password")) as [first|] eqn:Hfirst; [|discriminate].
  assert (Hdone : forall u,
    (exists r, r ∈ users /\ u = rest_without "passwordHash" r
               /\ truthy (get r "isActive") = true) ->
    (let '(reg0, refreshToken) :=
       generateRefreshToken cfg now_refresh now_iso reg u in
     (reg0,
      Answer 200 (Some "Login successful")
        (Session (generateAccessToken cfg now_access u) refreshToken
           (object
              [ ("id", get u "id"); ("username", get u "username");
                ("email", get u "email"); ("role", get u "role");
                ("department", get u "department");
                ("mspId", getMSPForRole (get u "role")) ]))))
    = (reg', Answer st msg (Session access rt shown)) ->
    exists r,
      r ∈ users
      /\ truthy (get r "isActive") = true
      /\ get shown "username" = get r "username"
      /\ shown !! "passwordHash" = None
      /\ access = generateAccessToken cfg now_access
                    (rest_without "passwordHash" r)
      /\ (reg', rt) = generateRefreshToken cfg now_refresh now_iso reg
                        (rest_without "passwordHash" r)).
  { intros u (r & Hr & -> & Hact).
    destruct (generateRefreshToken cfg now_refresh now_iso reg
                (rest_without "passwordHash" r)) as [reg0 t0] eqn:Hgen.
    intros [= <- <- <- <- <- <-]. exists r. split; [done|]. split; [done|].
    split; [|split; [|done]].
    - object_get. by apply get_rest_without.
    - apply object_lookup_None. literal_keys. }
  destruct first as [u|].
  - apply Hdone. by apply authenticateUser_Some in Hfirst.
  - destruct (truthy (get body "email")); [|discriminate].
    destruct (findUserByUsername users _) as [ub|]; [|discriminate].
    destruct (authenticateUser bcrypt_compare_str users (get ub "username")
                (get body "password")) as [[u|]|] eqn:Hsecond;
      try discriminate.
    apply Hdone. by apply authenticateUser_Some in Hsecond.
Qed.

(** X23: login then refresh: over a file of JSON records, the refresh
    token a successful [login] hands out is in the registry, and until
    it expires [refresh] answers it 200 with a new access token for the
    account the login name then resolves to, if that account is
    active, and leaves the registry as it is; the user data of the
    login answer carries no hash. *)
Theorem login_then_refresh (cfg : config) (now_access now_refresh now' : Z)
    (now_iso : string) (users : list (gmap string jsval)) (reg reg' : registry)
    (body : gmap string jsval) st msg access rt shown (s : gmap string jsval) :
  Forall Spec.json_object users ->
  login bcrypt_compare_str cfg now_access now_refresh now_iso users reg body
    = (reg', Answer st msg (Session access rt shown)) ->
  (now' < now_refresh + JWT_REFRESH_EXPIRY cfg)%Z ->
  findUserByUsername users (get shown "username") = Some s ->
  truthy (get s "isActive") = true ->
  map_has reg' rt = true
  /\ shown !! "passwordHash" = None
  /\ refresh cfg now' users reg' (Some rt)
     = (reg',
        Response 200 "Token refreshed successfully"
          (TokenData (generateAccessToken cfg now' s))).
Proof.
  intros Hall Hlogin Httl Hfind Hact.
  apply login_Session in Hlogin
    as (r & Hr & _ & Hname & Hhash & _ & Hgen).
  unfold generateRefreshToken in Hgen. injection Hgen as -> ->.
  split; [apply map_has_set_same|]. split; [done|].
  unfold refresh.
  rewrite (verify_signed _ (JWT_SECRET cfg) _ now_refresh now' Httl).
  rewrite map_has_set_same. cbn [Jwt.token_truthy Jwt.sign negb].
  assert (Hjson : Spec.json_object (rest_without "passwordHash" r)).
  { apply json_object_delete. rewrite Forall_forall in Hall. by apply Hall. }
  assert (Hclaim :
    get (<["exp" := JNum (now_refresh + JWT_REFRESH_EXPIRY cfg)]>
           (<["iat" := JNum now_refresh]>
              (json_image
                 (object [ ("userId", get (rest_without "passwordHash" r) "id");
                           ("username",
                            get (rest_without "passwordHash" r) "username") ]))))
        "username"
    = get shown "username").
  { rewrite get_signed by done.
    rewrite (get_json_image_object _ "username"
               (get (rest_without "passwordHash" r) "username"));
      [|literal_keys|literal_keys|done].
    rewrite json_object_get by done. rewrite Hname.
    by apply get_rest_without. }
  rewrite Hclaim, Hfind, Hact. reflexivity.
Qed.

(** X24: [refresh] hands out a new access token without rotating:
    when it answers 200 the registry is unchanged, the refresh token
    still in it; the token was in the registry and verifies, the
    login name it carries resolves to an active account, and the new
    access token is the one [generateAccessToken] makes for that
    account as stored now. *)
Theorem refresh_success (cfg : config) (now : Z)
    (users : list (gmap string jsval)) (reg reg' : registry)
    (t : option Jwt.token) (msg : string) (d : reply_data) :
  refresh cfg now users reg t = (reg', Response 200 msg d) ->
  reg' = reg
  /\ exists rt claims s,
       t = Some rt /\ map_has reg rt = true
       /\ Jwt.verify rt (JWT_SECRET cfg) now = Jwt.Decoded claims
       /\ findUserByUsername users (get claims "username") = Some s
       /\ truthy (get s "isActive") = true
       /\ d = TokenData (generateAccessToken cfg now s).
Proof.
  intros Hrefresh.
  assert (Hreg : reg' = reg).
  { revert Hrefresh. unfold refresh.
    repeat case_match; intros [= ? ? ?]; by subst. }
  subst reg'. split; [done|].
  revert Hrefresh. unfold refresh.
  destruct t as [rt|]; [|discriminate].
  destruct (Jwt.token_truthy rt); [|discriminate]. cbn [negb].
  destruct (map_has reg rt) eqn:Hm; [|discriminate]. cbn [negb].
  destruct (Jwt.verify rt (JWT_SECRET cfg) now) as [claims| |] eqn:Hv;
    [|discriminate..].
  destruct (findUserByUsername users (get claims "username")) as [s|] eqn:Hs;
    [|discriminate].
  destruct (truthy (get s "isActive")) eqn:Hact; [|discriminate].
  cbn [negb]. intros [= <- <-]. by exists rt, claims, s.
Qed.


End Endpoints.

Section Accounts.

Variable bcrypt_hash_salted : string -> string -> string.
Variable bcrypt_compare_str : string -> string -> bool.

(** X26: an access token outlives the deactivation of its account:
    after [deleteUser] of an account of a file of JSON records, the
    access token issued for it is, until it expires, still passed on by
    [authenticateToken], and [getProfile] answers its principal 200
    with the account's login name; the profile carries no hash. *)
Theorem access_token_outlives_deactivation (cfg : config) (now now' : Z)
    (now_iso : string) (users users' : list (gmap string jsval))
    (a : gmap string jsval) (req : request) (words : list Jwt.token) :
  Forall Spec.json_object users ->
  findUserByUsername users (get a "username") = Some a ->
  deleteUser users (get a "id") now_iso = (users', Return true) ->
  (now' < now + JWT_EXPIRY cfg)%Z ->
  authorization req = Some words ->
  words !! 1%nat = Some (generateAccessToken cfg now a) ->
  exists p fields,
    authenticateToken (JWT_SECRET cfg) now' req = Next (set_user req p)
    /\ getProfile users' (Some p) = Answer 200 None (Profile fields)
    /\ get fields "username" = get a "username"
    /\ fields !! "passwordHash" = None.
Proof.
  intros Hall Hname Hdel Httl Hauth Hword.
  assert (Ha : Spec.json_object a).
  { rewrite Forall_forall in Hall. apply Hall.
    by apply find_by_Some in Hname as [? _]. }
  destruct (verify_generated cfg now now' a Httl) as (payload & _ & Hver & Hpay).
  unfold authenticateToken.
  rewrite (bearer_words req words _ Hauth Hword eq_refl), Hver.
  assert (Hclaim :
    get (principal (<["exp" := JNum (now + JWT_EXPIRY cfg)]>
                      (<["iat" := JNum now]> (json_image payload)))) "username"
    = get a "username").
  { unfold principal. object_get. rewrite get_signed by done. subst payload.
    rewrite (get_json_image_object _ "username" (get a "username"));
      [|literal_keys|literal_keys|done].
    by apply json_object_get. }
  assert (Hstill : exists u',
    findUserByUsername users' (get a "username") = Some u'
    /\ get u' "username" = get a "username").
  { destruct (deleteUser_Return _ _ _ _ _ Hdel) as (i & old & Hfind).
    rewrite (deleteUser_found users _ now_iso i old Hall Hfind) in Hdel.
    injection Hdel as <-.
    apply list_find_Some in Hfind as (Hi & _ & _).
    unfold findUserByUsername in *.
    rewrite (find_by_insert "username" users i old _ (get a "username") Hi)
      by (by rewrite !get_insert_ne).
    unfold find_by in Hname.
    destruct (list_find _ users) as [[j u]|] eqn:Hj; [|discriminate].
    injection Hname as ->.
    eexists. split; [reflexivity|].
    case_decide as Hji; [|done]. subst j.
    apply list_find_Some in Hj as (Hj & _ & _).
    rewrite Hi in Hj. injection Hj as ->. by rewrite !get_insert_ne. }
  destruct Hstill as (u' & Hfound & Hsame).
  eexists _, _. split; [reflexivity|].
  unfold getProfile. rewrite Hclaim, Hfound.
  split; [reflexivity|]. split; [|apply object_lookup_None; literal_keys].
  by object_get.
Qed.

Lemma changePassword_Throw (users users' : list (gmap string jsval))
    (userId oldPassword newPassword : jsval) (slt now_iso m : string) :
  changePassword bcrypt_hash_salted bcrypt_compare_str users userId
    oldPassword newPassword slt now_iso = (users', Throw m) ->
  users' = users.
Proof.
  unfold changePassword.
  repeat case_match; intros [= ? ?]; by subst.
Qed.

Lemma changePassword_Return (users users' : list (gmap string jsval))
    (userId oldPassword newPassword : jsval) (slt now_iso : string) (r : bool) :
  changePassword bcrypt_hash_salted bcrypt_compare_str users userId
    oldPassword newPassword slt now_iso = (users', Return r) ->
  exists i u old new hsh,
    list_find (fun v => get v "id" = userId) users = Some (i, u)
    /\ oldPassword = JStr old /\ newPassword = JStr new
    /\ get u "passwordHash" = JStr hsh
    /\ bcrypt_compare_str old hsh = true
    /\ users' = saveUsers
         (<[i := <["updatedAt" := JStr now_iso]>
                   (<["passwordHash" := JStr (bcrypt_hash_salted slt new)]> u)]>
            users).
Proof.
  unfold changePassword.
  destruct (list_find _ users) as [[i u]|]; [|discriminate].
  unfold bcrypt_compare, bcrypt_hash.
  destruct oldPassword as [| | | |old|]; try discriminate.
  destruct (get u "passwordHash") as [| | | |hsh|] eqn:Hh; try discriminate.
  destruct (bcrypt_compare_str old hsh) eqn:Hc; [|discriminate]. cbn [negb].
  destruct newPassword as [| | | |new|]; try discriminate.
  intros [= <- <-]. by exists i, u, old, new, hsh.
Qed.

(** X27: [changePasswordEndpoint] changes a password only for the
    current one: unless it answers 200 the users file is as before, and
    when it answers 200 both passwords of the body are strings, the new
    one of six characters or more, bcrypt accepted the old one against
    the hash stored for the account with the principal's id, and the
    file differs in that record, which has the hash of the new
    password. *)
Theorem changePasswordEndpoint_verifies (slt now_iso : string)
    (users users' : list (gmap string jsval))
    (pr : option (gmap string jsval)) (body : gmap string jsval)
    (r : response) :
  changePasswordEndpoint bcrypt_hash_salted bcrypt_compare_str slt now_iso
    users pr body = (users', r) ->
  (status r <> 200%Z -> users' = users)
  /\ (status r = 200%Z ->
      exists p i u old new hsh,
        pr = Some p
        /\ list_find (fun v => get v "id" = get p "userId") users = Some (i, u)
        /\ get body "oldPassword" = JStr old
        /\ get body "newPassword" = JStr new
        /\ (6 <= String.length new)%nat
        /\ get u "passwordHash" = JStr hsh
        /\ bcrypt_compare_str old hsh = true
        /\ users' = saveUsers
             (<[i := <["updatedAt" := JStr now_iso]>
                       (<["passwordHash" := JStr (bcrypt_hash_salted slt new)]> u)]>
                users)).
Proof.
  unfold changePasswordEndpoint. cbv zeta.
  destruct (negb _ || negb _);
    [intros [= <- <-]; split; [done|discriminate]|].
  destruct (shorter_than_6 (get body "newPassword")) eqn:Hlen;
    [intros [= <- <-]; split; [done|discriminate]|].
  destruct pr as [p|]; [|intros [= <- <-]; split; [done|discriminate]].
  destruct (changePassword _ _ _ _ _ _ _ _) as [users1 [ok|m]] eqn:Hcp.
  - intros [= <- <-]. split; [done|]. intros _.
    apply changePassword_Return in Hcp
      as (i & u & old & new & hsh & Hfind & Hold & Hnew & Hh & Hc & ->).
    exists p, i, u, old, new, hsh. repeat split; try done.
    rewrite Hnew in Hlen. unfold shorter_than_6 in Hlen.
    apply Nat.ltb_ge in Hlen. lia.
  - apply changePassword_Throw in Hcp as ->.
    destruct (String.eqb m _); intros [= <- <-]; split; done || discriminate.
Qed.

Lemma createUser_Throw (users users' : list (gmap string jsval))
    (userData : gmap string jsval) (e : env) (m : string) :
  createUser bcrypt_hash_salted users userData e = (users', Throw m) ->
  users' = users.
Proof.
  unfold createUser. cbv zeta.
  repeat case_match; intros [= ? ?]; by subst.
Qed.

(** X28: the ledger step of [register] decides neither the users file
    nor the status: with the ledger committed, failed or skipped, the
    file afterwards and the status are the same, and only the message
    and the warning differ; the file is written only with a 201, and
    then by the one record [createUser] built from a password of six
    characters or more, an email of the shape the pattern asks for and
    a role of the table. *)
Theorem register_whatever_the_ledger (ledger ledger' : ledger_outcome)
    (e : env) (users : list (gmap string jsval)) (body : gmap string jsval) :
  fst (register bcrypt_hash_salted ledger e users body)
  = fst (register bcrypt_hash_salted ledger' e users body)
  /\ status (snd (register bcrypt_hash_salted ledger e users body))
     = status (snd (register bcrypt_hash_salted ledger' e users body))
  /\ (status (snd (register bcrypt_hash_salted ledger e users body)) <> 201%Z ->
      fst (register bcrypt_hash_salted ledger e users body) = users)
  /\ (status (snd (register bcrypt_hash_salted ledger e users body)) = 201%Z ->
      exists p,
        get body "password" = JStr p
        /\ (6 <= String.length p)%nat
        /\ emailRegex_test (to_string (get body "email")) = true
        /\ isValidRole (get body "role") = true
        /\ fst (register bcrypt_hash_salted ledger e users body)
           = saveUsers
               (users ++
                [Spec.built bcrypt_hash_salted
                   (object [ ("username", get body "username");
                             ("password", get body "password");
                             ("email", get body "email");
                             ("role", get body "role");
                             ("department",
                              js_or (get body "department") JNull) ])
                   e p])%list).
Proof.
  unfold register. cbv zeta.
  destruct (negb _ || negb _ || negb _ || negb _);
    [cbn; repeat split; done || discriminate|].
  destruct (shorter_than_6 (get body "password")) eqn:Hlen;
    [cbn; repeat split; done || discriminate|].
  destruct (emailRegex_test _) eqn:Hmail;
    [|cbn; repeat split; done || discriminate].
  cbn [negb].
  destruct (createUser _ _ _ _) as [users1 [u|m]] eqn:Hcreate.
  - split; [by destruct ledger, ledger'|].
    split; [by destruct ledger, ledger'|].
    split; [by destruct ledger|]. intros _.
    apply createUser_Return_built in Hcreate
      as (p & Hp & _ & _ & _ & Hrole & _ & _ & -> & _).
    rewrite (get_Some _ "password" (get body "password")) in Hp
      by (apply object_lookup_Some; literal_keys).
    rewrite (get_Some _ "role" (get body "role")) in Hrole
      by (apply object_lookup_Some; literal_keys).
    exists p. split; [done|]. rewrite Hp in Hlen. unfold shorter_than_6 in Hlen.
    apply Nat.ltb_ge in Hlen. split; [lia|]. split; [done|]. split; [done|].
    by destruct ledger.
  - apply createUser_Throw in Hcreate as ->.
    destruct (includes "already exists" m), (includes "Invalid role" m);
      cbn; repeat split; done || discriminate.
Qed.

End Accounts.

(** X29: what [getAllUsers] lists: the stored records, each without its
    hash, that have the role of the filter if that is truthy, the
    department of the filter if that is truthy, and the isActive of the
    filter if that is anything but undefined, so also when it is
    false. *)
Theorem getAllUsers_lists (users : list (gmap string jsval))
    (filters r : gmap string jsval) :
  r ∈ getAllUsers users filters
  <-> exists u,
        u ∈ users
        /\ r = rest_without "passwordHash" u
        /\ (truthy (get filters "role") = true ->
            get u "role" = get filters "role")
        /\ (truthy (get filters "department") = true ->
            get u "department" = get filters "department")
        /\ (get filters "isActive" <> JUndefined ->
            get u "isActive" = get filters "isActive").
Proof.
  unfold getAllUsers. cbv zeta.
  change (map (rest_without "passwordHash")) with (fmap (M := list) (rest_without "passwordHash")).
  rewrite list_elem_of_fmap.
  assert (Hfilter : forall (c : bool) (f : gmap string jsval -> jsval) (v : jsval)
                           (l : list (gmap string jsval)) (u : gmap string jsval),
    u ∈ (if c then List.filter (fun x => strict_eq (f x) v) l else l)
    <-> u ∈ l /\ (c = true -> f u = v)).
  { intros c f v l u. destruct c.
    - rewrite !list_elem_of_In, filter_In, strict_eq_true. intuition.
    - intuition discriminate. }
  split.
  - intros (u & -> & Hu). exists u.
    apply Hfilter in Hu as [Hu H3]. apply Hfilter in Hu as [Hu H2].
    apply Hfilter in Hu as [Hu H1].
    repeat split; try done.
    intros Hne. apply H3. unfold strict_ne.
    by apply negb_true_iff, strict_eq_false.
  - intros (u & Hu & -> & H1 & H2 & H3). exists u. split; [done|].
    apply Hfilter. split.
    + apply Hfilter. split; [|done]. apply Hfilter. by split.
    + unfold strict_ne. intros Hne. apply H3.
      by apply negb_true_iff, strict_eq_false in Hne.
Qed.

Lemma sanitize_lookup_allowed (updates : gmap string jsval) (k : string) :
  k ∈ allowedUpdates ->
  sanitize updates !! k
  = if strict_ne (get updates k) JUndefined then Some (get updates k) else None.
Proof.
  unfold allowedUpdates. rewrite !elem_of_cons, elem_of_nil.
  unfold sanitize, allowedUpdates. cbn [fold_left].
  intros [-> | [-> | [-> | []]]];
    destruct (strict_ne (get updates "email") JUndefined),
             (strict_ne (get updates "department") JUndefined),
             (strict_ne (get updates "isActive") JUndefined);
    repeat first [ rewrite lookup_insert_eq
                 | rewrite lookup_insert_ne by done
                 | rewrite lookup_empty ];
    reflexivity.
Qed.

Section Applying.

Variable bcrypt_hash_salted : string -> string -> string.

(** X30: what a returning [updateUser] writes, over a file of JSON
    records: the record it replaces is the first with the given id; in
    the new record each of email, department and isActive is the value
    the updates object holds for it when that is a JSON value, null
    included, and is as before when the updates object holds none; no
    other account is consulted, so an email that another account holds
    is written as well; a password that is a non-empty string stores
    its hash under the salt drawn; and updatedAt is the clock. *)
Theorem updateUser_applies (users : list (gmap string jsval)) (userId : jsval)
    (updates : gmap string jsval) (e : env) users' ret :
  Forall Spec.json_object users ->
  updateUser bcrypt_hash_salted users userId updates e = (users', Return ret) ->
  exists (i : nat) (old new : gmap string jsval),
    list_find (fun u => get u "id" = userId) users = Some (i, old)
    /\ users' = <[i := new]> users
    /\ new !! "updatedAt" = Some (JStr (updated_iso e))
    /\ (forall k, k ∈ allowedUpdates ->
          (json_value (get updates k) = true ->
           new !! k = Some (get updates k) /\ ret !! k = Some (get updates k))
          /\ (get updates k = JUndefined ->
              new !! k = old !! k /\ ret !! k = old !! k))
    /\ (forall p, get updates "password" = JStr p -> p <> "" ->
          new !! "passwordHash"
          = Some (JStr (bcrypt_hash_salted (salt e) p))).
Proof.
  intros Hjson. unfold updateUser.
  destruct (list_find _ users) as [[i old]|] eqn:Hfind; [|discriminate].
  pose proof Hfind as Hfound.
  apply list_find_Some in Hfind as (Hi & Hid & _).
  assert (Hold : Spec.json_object old).
  { rewrite Forall_forall in Hjson. apply Hjson.
    by eapply list_elem_of_lookup_2. }
  cbv zeta.
  set (updated_of := fun s : gmap string jsval =>
         <["updatedAt" := JStr (updated_iso e)]> (spread old s)).
  assert (Hsaved : forall s,
    saveUsers (<[i := updated_of s]> users)
    = <[i := json_image (updated_of s)]> users).
  { intros s. unfold saveUsers. rewrite list_fmap_insert.
    f_equal. by apply saveUsers_json. }
  assert (Hclock : forall s,
    json_image (updated_of s) !! "updatedAt" = Some (JStr (updated_iso e))).
  { intros s. apply json_image_lookup; [apply lookup_insert_eq|done]. }
  assert (Hkeys : forall k, k ∈ allowedUpdates ->
                            k <> "updatedAt" /\ k <> "passwordHash").
  { intros k. unfold allowedUpdates. rewrite !elem_of_cons, elem_of_nil.
    intros [-> | [-> | [-> | []]]]; by split. }
  assert (Happlied : forall s,
    (forall k, k ∈ allowedUpdates -> s !! k = sanitize updates !! k) ->
    forall k, k ∈ allowedUpdates ->
      (json_value (get updates k) = true ->
       json_image (updated_of s) !! k = Some (get updates k)
       /\ rest_without "passwordHash" (updated_of s) !! k = Some (get updates k))
      /\ (get updates k = JUndefined ->
          json_image (updated_of s) !! k = old !! k
          /\ rest_without "passwordHash" (updated_of s) !! k = old !! k)).
  { intros s Hs k Hk. destruct (Hkeys k Hk) as [Hk1 Hk2].
    specialize (Hs k Hk). rewrite (sanitize_lookup_allowed updates k Hk) in Hs.
    unfold rest_without. rewrite lookup_delete_ne by done.
    unfold updated_of, spread. split.
    - intros Hv.
      assert (Hdef : strict_ne (get updates k) JUndefined = true).
      { unfold strict_ne. apply negb_true_iff, strict_eq_false.
        intros Hu. by rewrite Hu in Hv. }
      rewrite Hdef in Hs.
      assert (Hup : (<["updatedAt" := JStr (updated_iso e)]> (s ∪ old)) !! k
                    = Some (get updates k)).
      { rewrite lookup_insert_ne by done. by apply lookup_union_Some_l. }
      split; [by apply json_image_lookup|done].
    - intros Hu.
      assert (Hdef : strict_ne (get updates k) JUndefined = false).
      { unfold strict_ne. rewrite Hu. by rewrite strict_eq_refl. }
      rewrite Hdef in Hs.
      assert (Hup : (<["updatedAt" := JStr (updated_iso e)]> (s ∪ old)) !! k
                    = old !! k).
      { rewrite lookup_insert_ne by done. by apply lookup_union_r. }
      split; [|done]. unfold json_image. rewrite lookup_omap, Hup.
      destruct (old !! k) as [v|] eqn:Hv; [|done]. cbn.
      by rewrite (Hold k v Hv). }
  destruct (truthy (get updates "password")) eqn:Hpw.
  - destruct (get updates "password") as [| | | |p|] eqn:Hp;
      cbn [bcrypt_hash]; try discriminate.
    intros [= <- <-].
    exists i, old,
      (json_image
         (updated_of (<["passwordHash" := JStr (bcrypt_hash_salted (salt e) p)]>
                        (sanitize updates)))).
    rewrite <- Hsaved. split; [done|]. split; [done|].
    split; [apply Hclock|]. split.
    + apply Happlied. intros k Hk. destruct (Hkeys k Hk) as [_ Hk2].
      by rewrite lookup_insert_ne.
    + intros p' [= <-] _. apply json_image_lookup; [|done].
      unfold updated_of, spread. rewrite lookup_insert_ne by done.
      apply lookup_union_Some_l. apply lookup_insert_eq.
  - intros [= <- <-].
    exists i, old, (json_image (updated_of (sanitize updates))).
    rewrite <- Hsaved. split; [done|]. split; [done|].
    split; [apply Hclock|]. split; [by apply Happlied|].
    intros p Hp Hne. rewrite Hp in Hpw. cbn in Hpw.
    destruct p; [done|discriminate].
Qed.

End Applying.

(* ===================================================================== *)
(** ** The endpoints and the store on the sample data                     *)
(* ===================================================================== *)

Lemma login_fallback_never_rescues_witness :
  login Sample.compare_str Sample.cfg 1730000000 1730000000
    "2024-10-27T03:33:20.000Z" Sample.defaultUsers []
    (object [ ("username", JStr "admin"); ("email", JStr "admin");
              ("password", JStr "wrong") ])
  = ([], Answer 401 (Some "Invalid credentials") Nothing).
Proof.
  refine (login_fallback_never_rescues Sample.compare_str Sample.cfg
            1730000000 1730000000 "2024-10-27T03:33:20.000Z"
            Sample.defaultUsers []
            (object [ ("username", JStr "admin"); ("email", JStr "admin");
                      ("password", JStr "wrong") ]) _ _ _);
    reflexivity.
Defined.

Lemma login_then_refresh_witness :
  map_has (fst Sample.admin_session) (snd Sample.admin_session) = true
  /\ Sample.admin_shown !! "passwordHash" = None
  /\ refresh Sample.cfg 1730003600 Sample.defaultUsers
       (fst Sample.admin_session) (Some (snd Sample.admin_session))
     = (fst Sample.admin_session,
        Response 200 "Token refreshed successfully"
          (TokenData (generateAccessToken Sample.cfg 1730003600 Sample.admin))).
Proof.
  refine (login_then_refresh Sample.compare_str Sample.cfg
            1730000000 1730000000 1730003600 "2024-10-27T03:33:20.000Z"
            Sample.defaultUsers [] (fst Sample.admin_session)
            Sample.admin_login 200 (Some "Login successful")
            (generateAccessToken Sample.cfg 1730000000 Sample.admin_public)
            (snd Sample.admin_session) Sample.admin_shown Sample.admin
            sample_users_json _ _ _ _);
    reflexivity.
Defined.

Lemma refresh_success_witness :
  fst Sample.admin_session = fst Sample.admin_session
  /\ exists rt claims s,
       Some (snd Sample.admin_session) = Some rt
       /\ map_has (fst Sample.admin_session) rt = true
       /\ Jwt.verify rt (JWT_SECRET Sample.cfg) 1730003600 = Jwt.Decoded claims
       /\ findUserByUsername Sample.defaultUsers (get claims "username") = Some s
       /\ truthy (get s "isActive") = true
       /\ TokenData (generateAccessToken Sample.cfg 1730003600 Sample.admin)
          = TokenData (generateAccessToken Sample.cfg 1730003600 s).
Proof.
  refine (refresh_success Sample.cfg 1730003600 Sample.defaultUsers
            (fst Sample.admin_session) (fst Sample.admin_session)
            (Some (snd Sample.admin_session)) "Token refreshed successfully"
            (TokenData (generateAccessToken Sample.cfg 1730003600 Sample.admin))
            _);
    reflexivity.
Defined.


Lemma access_token_outlives_deactivation_witness :
  let token := generateAccessToken Sample.cfg 1730000000 Sample.admin in
  let req := Request (Some [Jwt.Garbage "Bearer"; token]) None ∅ None JUndefined in
  exists p fields,
    authenticateToken (JWT_SECRET Sample.cfg) 1730003600 req = Next (set_user req p)
    /\ getProfile
         (fst (deleteUser Sample.defaultUsers (get Sample.admin "id")
                 "2024-10-27T03:33:25.000Z"))
         (Some p)
       = Answer 200 None (Profile fields)
    /\ get fields "username" = get Sample.admin "username"
    /\ fields !! "passwordHash" = None.
Proof.
  intros token req.
  refine (access_token_outlives_deactivation Sample.cfg 1730000000 1730003600
            "2024-10-27T03:33:25.000Z" Sample.defaultUsers
            (fst (deleteUser Sample.defaultUsers (get Sample.admin "id")
                    "2024-10-27T03:33:25.000Z"))
            Sample.admin req [Jwt.Garbage "Bearer"; token]
            sample_users_json _ _ _ _ _);
    reflexivity.
Defined.

Lemma changePasswordEndpoint_verifies_witness :
  let after :=
    changePasswordEndpoint Sample.hash_salted Sample.compare_str "salt2"
      "2024-10-27T03:33:25.000Z" Sample.defaultUsers
      (Some (object [ ("userId", JStr "admin"); ("username", JStr "admin") ]))
      (object [ ("oldPassword", JStr "wrong");
                ("newPassword", JStr "NewSecret1") ]) in
  fst after = Sample.defaultUsers.
Proof.
  intros after.
  refine (proj1 (changePasswordEndpoint_verifies Sample.hash_salted
            Sample.compare_str "salt2" "2024-10-27T03:33:25.000Z"
            Sample.defaultUsers (fst after)
            (Some (object [ ("userId", JStr "admin"); ("username", JStr "admin") ]))
            (object [ ("oldPassword", JStr "wrong");
                      ("newPassword", JStr "NewSecret1") ])
            (snd after) _) _).
  - reflexivity.
  - discriminate.
Defined.

Lemma register_whatever_the_ledger_witness :
  fst (register Sample.hash_salted LedgerCommitted Sample.env1
         Sample.defaultUsers Sample.verifier1_data)
  = fst (register Sample.hash_salted (LedgerFailed "Gateway unreachable")
           Sample.env1 Sample.defaultUsers Sample.verifier1_data)
  /\ exists p,
       get Sample.verifier1_data "password" = JStr p
       /\ (6 <= String.length p)%nat.
Proof.
  destruct (register_whatever_the_ledger Sample.hash_salted LedgerCommitted
              (LedgerFailed "Gateway unreachable") Sample.env1
              Sample.defaultUsers Sample.verifier1_data)
    as (Hfile & _ & _ & Hcreated).
  split; [exact Hfile|].
  destruct (Hcreated eq_refl) as (p & Hp & Hlen & _).
  by exists p.
Defined.

Lemma getAllUsers_lists_witness :
  rest_without "passwordHash" Sample.admin
    ∈ getAllUsers Sample.defaultUsers (object [ ("isActive", JBool true) ])
  /\ rest_without "passwordHash" Sample.admin
       ∉ getAllUsers Sample.defaultUsers (object [ ("isActive", JBool false) ]).
Proof.
  split.
  - apply (proj2 (getAllUsers_lists Sample.defaultUsers
                    (object [ ("isActive", JBool true) ])
                    (rest_without "passwordHash" Sample.admin))).
    exists Sample.admin. split; [apply list_elem_of_here|].
    split; [reflexivity|]. split; [discriminate|]. split; [discriminate|].
    reflexivity.
  - intros Hin.
    apply (proj1 (getAllUsers_lists Sample.defaultUsers
                    (object [ ("isActive", JBool false) ])
                    (rest_without "passwordHash" Sample.admin))) in Hin.
    destruct Hin as (u & Hu & _ & _ & _ & Hactive).
    apply list_elem_of_singleton in Hu. subst u.
    assert (Hdefined : get (object [ ("isActive", JBool false) ]) "isActive"
                       <> JUndefined) by (vm_compute; discriminate).
    specialize (Hactive Hdefined). vm_compute in Hactive. discriminate.
Defined.

Lemma updateUser_applies_witness :
  let updates := object [ ("email", JNull); ("isActive", JBool false);
                          ("role", JStr "verifier");
                          ("password", JStr "NewSecret1") ] in
  exists users' ret (i : nat) (old new : gmap string jsval),
    updateUser Sample.hash_salted Sample.defaultUsers (JStr "admin") updates
      Sample.env2 = (users', Return ret)
    /\ users' = <[i := new]> Sample.defaultUsers
    /\ new !! "email" = Some JNull
    /\ new !! "isActive" = Some (JBool false)
    /\ new !! "department" = old !! "department"
    /\ new !! "passwordHash"
       = Some (JStr (Sample.hash_salted "salt2" "NewSecret1")).
Proof.
  intros updates.
  destruct (updateUser_applies Sample.hash_salted Sample.defaultUsers
              (JStr "admin") updates Sample.env2 _ _ sample_users_json eq_refl)
    as (i & old & new & _ & Hnew & _ & Hset & Hhash).
  eexists _, _, i, old, new. split; [reflexivity|]. split; [exact Hnew|].
  split; [apply (Hset "email"); [literal_keys|reflexivity]|].
  split; [apply (Hset "isActive"); [literal_keys|reflexivity]|].
  split; [apply (Hset "department"); [literal_keys|reflexivity]|].
  apply (Hhash "NewSecret1"); [reflexivity|discriminate].
Defined.
